(* ===== verification/_CoqProject ===== *)
-Q . S2P
Prelude.v
Xml.v
PyFloat.v
Validator.v
Extractor.v
Store.v
Setup.v
Config.v
Json.v
JsonText.v
QueryFormat.v
Normalizer.v
Answer.v
Dispatcher.v
QueryService.v
System.v
