(* ===== verification/Prelude.v ===== *)
(** * Verification of Challenge-Keeling: graph ingest and path query service

    The repository is a two-process Python service.

    - [src/downloader/setup.py] (the ingest side) downloads an XML graph
      description, validates it ([verify_graph_data]), extracts node and
      edge tuples ([extract_graph_data]), checks identifier uniqueness
      ([verify_unique_ids]), records the active graph identifier in the file
      [graph_id.txt] ([set_graph_id]), refuses an identifier already in the
      database ([graph_id_exists]) and inserts the graph
      ([insert_graph_data]); [set_up_graph_data] orchestrates these steps
      with early returns and one diagnostic line per outcome.
    - [src/query_service/query_listener.py] (the query side) reads a JSON
      batch of queries, checks its shape ([verify_correct_query_format]),
      answers each query through the database function [find_all_paths]
      while sharing one lookup between the two query kinds on the same
      node pair ([process_queries]), reshapes the rows
      ([tidy_up_results], [format_paths_result], [format_cheapest_result])
      and builds the JSON answer ([format_results_to_json]).
    - The two sides share the file [graph_id.txt] (the active graph
      register) and the database.

    Library layout (in the order of _CoqProject; each file opens with a
    note on what it models):
    - [Prelude] (this file): the exception type [exc] and the result
      monad [res] (a Python computation returns or raises) with stdpp's
      [≫=]/[←] notation and its rewrite lemmas, loops over lists that stop
      at the first exception ([res_mapM], [res_foldM]) with an invariant
      lemma, [dedup_first] (the keys of a dict filled in order), Python's
      [str.strip], and the test [len(xs) == len(set(xs))]
      ([len_eq_set_size]) with its equivalence to [NoDup].
    - [Xml] (Module [ElementTree]): elements with [findall], [find],
      [find(t).text] ([find_text], raising [AttributeError]) and the
      iteration over [find(t)] ([iter_find], raising [TypeError]).
    - [PyFloat]: Python's [float()] on a string ([float_of_string]:
      sign, digits with underscores, fraction, exponent, [inf], [nan]),
      values kept exact ([PyNum neg mantissa exponent]).
    - [Validator] ([verify_graph_data], setup.py 48-139): one constructor
      of [verify_error] per diagnostic, the node loop threading the set of
      ids, the edge loop; the declarative [graph_schema].
    - [Extractor] ([extract_graph_data], [verify_unique_ids], setup.py
      142-176): rows as records with Python's [None] kept as [option],
      the cost rule with its exception handler ([cost_of_edge]), the class
      [FirstField] for [node[0]].
    - [Store] (Module [Store]: [insert_graph_data], [graph_id_exists],
      setup.py 179-197; Module [Registry]: [set_graph_id], setup.py
      200-203, and [get_graph_id], query_listener.py 9-11): three stdpp
      [gmap] tables keyed by their primary keys, [IntegrityError] on a
      [NULL] or repeated key, the transaction rolled back on an exception;
      a Section over any keyed table gives the success condition of a
      loop of inserts.
    - [Setup] ([set_up_graph_data], setup.py 10-32, and [run_setup],
      manager.py 4-7): a [world] holding the register file, the database
      and the printed lines; one run is a function of the download
      ([fetch]) and the world, returning the new world and [Ok] or the
      escaping exception; [ingest_step] is the step relation of runs and
      [ingest_reachable] its reflexive-transitive closure from the empty
      world.
    - [Json]: parsed JSON values and the Python operations the query side
      applies to them ([in], [[]], truthiness, [==], hashing, iteration),
      with the exceptions they raise.
    - [QueryFormat] ([verify_correct_query_format],
      [get_query_type_and_nodes]) and the declarative shape [batch_ok].
    - [Normalizer] ([tidy_up_results], [format_paths_result],
      [format_cheapest_result], [format_results_to_json]): costs through
      the class [CostOrder] (a strict weak order, instance for [Q]);
      [sorted] as the stable insertion sort [sort_by_cost]; the reference
      [cheapest_ref].
    - [Answer]: the answer envelope of the specification (section 4.7)
      as a type of JSON values: the types [jty], the judgement
      [has_type] in the style of a data typing relation (with non-empty
      arrays for node sequences), its checker [type_check] and the
      [Decision] instance it gives; [kind_ty] is the type of the answer
      to a query of each kind.
    - [Dispatcher] ([process_queries]): the database function behind the
      class [PathLookup]; the result dict as an insertion-ordered
      association list with Python's tuple hashing; the state records the
      trace of lookups issued, and [spec_state] is what the loop must
      build.
    - [Config] (Module [Config]: [src/config.py] line 4 and
      [get_db_connection] of [src/db_connection/postgres.py], the
      environment as a [gmap]; Module [Downloader]: [download_graph],
      setup.py 35-45, with [requests.get] and [ET.fromstring] as section
      variables, and [set_up_graph_data_http], setup.py 10-14: the
      download in front of [set_up_graph_data]).
    - [JsonText] ([json.dumps(..., indent=2)], line 86, as [dumps], and
      [json.loads], line 109, as the recursive-descent parser
      [parse_value] on fuel; [verify_valid_json], lines 107-111).
    - [QueryService] ([receive_and_send_query], lines 114-127, on the
      text read from stdin): the printed lines and the outcome of one
      batch.
    - [System] (the main block of [src/manager.py] as [manager_main], and
      the deployment: [sys_step] interleaves runs of the downloader and
      query batches over one register file and one database, the lookup
      being a function of the database contents).

    What the theorems show (the claims of the project manifest):
    - refinement: the validator decides [graph_schema]
      ([verify_graph_data_iff]); the query shape check decides [batch_ok]
      ([verify_correct_query_format_iff]); the sorted cheapest answer is
      [cheapest_ref] ([format_cheapest_result_ref]); and, end to end, the
      handler prints the answers the specification describes, one per
      distinct query ([receive_and_send_query_spec]); a text that is not
      JSON, a falsy document or a rejected shape prints the one
      diagnostic ([receive_and_send_query_invalid], on the texts without
      a [\u] escape above [\u00ff]);
    - the dispatcher answers every distinct [(start, end, kind)] with the
      rows of its pair and issues one lookup per distinct ordered pair
      ([process_queries_spec]);
    - ingest safety: the database changes only in a run that prints
      success, and then by the whole graph ([set_up_graph_data_atomic]);
      referential integrity holds in every reachable world
      ([ingest_reachable_wf], by induction on [rtc ingest_step]); a valid
      new graph is ingested ([set_up_graph_data_ingests]); a failed
      download changes nothing ([download_failure_no_effect]);
    - composition of the two processes: a batch sent after a successful
      ingest is answered from the graph just stored
      ([query_after_ingest]), and from every reachable state one
      downloader run on a valid new document makes the graph queryable
      ([system_live]);
    - types: when every row holds a non-empty path,
      [format_results_to_json] of the normalised results is the envelope
      with one answer per entry of the result dict, each of the type of
      its kind: a list of node sequences for [paths], one node sequence
      or [false] for [cheapest] ([format_results_typed]);
    - the extractor and the uniqueness check agree with the validator
      ([extract_after_validation], [extract_nodes_unique],
      [verify_unique_ids_spec]); the store's success condition
      ([insert_graph_data_ok_iff]); the cost rule ([cost_of_edge_total],
      [cost_of_edge_numeral]);
    - the behaviours where the code departs from its specification, each
      over a whole class of inputs: a child of [nodes] without an [id]
      crashes extraction of a validated document
      ([foreign_child_crashes_extraction]); a [nan] cost reaches the edge
      rows ([nan_cost_extracted]); a run that raises after writing the
      register leaves it naming a graph that is not stored
      ([dangling_register]); a padded graph id is stored as written and
      read back stripped ([padded_graph_id_mismatch]); a str query value
      with the words [start] and [end] is accepted and then crashes the
      reading ([string_endpoints_accepted_then_crash]); a [null], boolean
      or number query value makes the check raise
      ([null_endpoints_crash_check]); a database error escapes as
      [AttributeError] ([database_error_escapes]); a truthy number as the
      document raises [TypeError] ([number_document_raises]); a query and
      its reversed pair cost two lookups ([reversed_pair_two_lookups]).

    Library lemmas that are not claims: [json.loads] reads back what
    [json.dumps] writes for every document without finite floats
    ([json_loads_dumps], by the nested induction [json_ind'], integers
    through stdpp's [pretty] and [parse_number]); the parser's fuel is
    enough ([json_loads_fuel]); with [ensure_ascii] every character of
    the output is a new line or printable ASCII ([dumps_ascii]); the
    system refines the ingest process on the shared state
    ([system_refines_ingest]); the lookups issued are distinct and at most
    one per query ([process_queries_lookup_count]).

    Bounds and fuel: every definition but the JSON parser is
    structurally recursive (lists, elements, JSON values); the query loop
    and the insert loops are folds over the input lists. The parser
    [parse_value] and its four mutual companions run on fuel, and
    [json_loads] gives them [3 * length s + 1]: each call either consumes
    a character or descends at most three levels (value, array or object,
    elements or members) before it does, so the fuel never runs out
    ([parse_fuel_step] bounds the rest by the input; [json_loads_fuel]).

    Not modelled: the HTTP client and the XML parser (section variables of
    [Downloader]: a response or an exception, a tree or [None] for a
    [ParseError]); [psycopg2.connect] ([get_db_connection] returns its
    parameters); the PostgreSQL function [find_all_paths] (the class
    [PathLookup]; in [System] a function of the database); the table
    definitions, which are not in the repository (the primary keys are
    assumed, foreign keys other than the graph's are not modelled); the
    rounding of [float()] to binary64 and [float.__repr__] (a parameter
    of [dumps]), so a finite numeral is exact: Python reads a negative
    numeral too small for a double, such as [-1e-400], as [-0.0], the
    model as a negative zero mantissa, which the cost rule treats alike;
    [\u] escapes above [\u00ff] and the UTF-8 decoding of stdin (strings
    are byte strings, and [\u] escapes of larger code points are refused:
    [wide_escape_free] names the texts on which [json_loads] is
    [json.loads]); object identity, beyond the one place it decides a
    result: the items of a dict key are equal when they are the same
    object, and [json.loads] gives every [NaN] as one object, so the
    dispatcher's [item_eqb] takes two [nan] endpoints as equal; [input()] in [wait_for_queries], which only
    blocks: the model of the main block ends at its prompt. *)

From Stdlib Require Export Ascii String.
From stdpp Require Export base list gmap strings.

Declare Scope keeling_scope.
Delimit Scope keeling_scope with keeling.
Open Scope keeling_scope.

Set Warnings "-clear-no-such-hyp".

Create HintDb keeling discriminated.
Create Rewrite HintDb keeling_rw.

(** Destruct every pair of the context. *)
Ltac destruct_pairs :=
  repeat match goal with p : prod _ _ |- _ => destruct p end.

(** Split the option binds of the hypotheses, pairs included. *)
Ltac option_inv := repeat (simplify_option_eq; destruct_pairs; simplify_eq/=).

(** Split on a decidable proposition [P], naming the proof [H], and
    evaluate the [bool_decide P] of the goal in each branch. *)
Ltac case_bool_decide_on P H :=
  destruct (decide P) as [H|H];
  [rewrite ?(bool_decide_eq_true_2 P H) | rewrite ?(bool_decide_eq_false_2 P H)].

(** ** Python exceptions and the result monad *)

(** The exception classes the modelled code can raise. *)
Inductive exc :=
| KeyError
| TypeError
| AttributeError
| ValueError
| FileNotFoundError
| DatabaseError (msg : string)
| IntegrityError (msg : string).

#[export] Instance exc_eq_dec : EqDecision exc.
Proof. solve_decision. Defined.

(** A Python computation either returns a value or raises. *)
Inductive res (A : Type) :=
| Ok (a : A)
| Exc (e : exc).
Arguments Ok {A} a.
Arguments Exc {A} e.

#[export] Instance res_ret : MRet res := fun A a => Ok a.
#[export] Instance res_bind : MBind res :=
  fun A B f m => match m with Ok a => f a | Exc e => Exc e end.
#[export] Instance res_fmap : FMap res :=
  fun A B f m => match m with Ok a => Ok (f a) | Exc e => Exc e end.

Notation "'raise' e" := (Exc e) (at level 10) : keeling_scope.

(** A Python [for] loop that builds a list and stops at the first
    exception. *)
Fixpoint res_mapM {A B} (f : A -> res B) (l : list A) : res (list B) :=
  match l with
  | [] => Ok []
  | x :: l' => y ← f x; ys ← res_mapM f l'; Ok (y :: ys)
  end.

(** A loop that threads a state and stops at the first exception. *)
Fixpoint res_foldM {A B} (f : A -> B -> res A) (l : list B) (a : A) : res A :=
  match l with
  | [] => Ok a
  | x :: l' => a' ← f a x; res_foldM f l' a'
  end.

(** The distinct elements of a list in order of first occurrence. *)
Definition dedup_first `{EqDecision A} (l : list A) : list A :=
  fold_left (fun acc x => if decide (x ∈ acc) then acc else acc ++ [x]) l [].

(** ** Python strings *)

Local Open Scope string_scope.
Local Open Scope list_scope.

(** [str.isspace] on one character, a code point below 256: Python counts
    9 to 13, 28 to 32, 133 ([\x85], NEXT LINE) and 160 ([\xa0], NO-BREAK
    SPACE) as whitespace. *)
Definition py_isspace (c : ascii) : bool :=
  (let n := nat_of_ascii c in
  ((9 <=? n) && (n <=? 13)) || ((28 <=? n) && (n <=? 32)) || (n =? 133) || (n =? 160))%nat.

Fixpoint lstrip_chars (l : list ascii) : list ascii :=
  match l with
  | [] => []
  | c :: l' => if py_isspace c then lstrip_chars l' else l
  end.

(** [str.strip()] with no argument. *)
Definition py_strip (s : string) : string :=
  string_of_list_ascii
    (rev (lstrip_chars (rev (lstrip_chars (list_ascii_of_string s))))).

(** ** Uniqueness test [len(xs) == len(set(xs))] *)

Definition len_eq_set_size `{Countable A} (xs : list A) : bool :=
  (length xs =? size (list_to_set xs : gset A))%nat.

(** ** Monad laws used by the components *)

Lemma bind_Ok {A B} (a : A) (f : A -> res B) : (Ok a ≫= f) = f a.
Proof. reflexivity. Qed.

Lemma bind_Exc {A B} (e : exc) (f : A -> res B) : (Exc e ≫= f) = Exc e.
Proof. reflexivity. Qed.

Lemma bind_eq_Ok {A B} (m : res A) (f : A -> res B) (b : B) :
  (m ≫= f) = Ok b <-> exists a, m = Ok a /\ f a = Ok b.
Proof.
  destruct m as [a'|e]; simpl; split.
  - intros Hf. by exists a'.
  - by intros (?&[= ->]&?).
  - discriminate.
  - by intros (?&?&?).
Qed.

#[export] Hint Rewrite @bind_Ok @bind_Exc : keeling_rw.

Lemma res_mapM_Ok {A B} (f : A -> res B) l ys :
  res_mapM f l = Ok ys <-> Forall2 (fun x y => f x = Ok y) l ys.
Proof.
  revert ys. induction l as [|x l IH]; intros ys; simpl.
  - split; [intros [= <-]; constructor|intros H; inversion H; done].
  - split.
    + destruct (f x) eqn:Hx; simpl; [|discriminate].
      destruct (res_mapM f l) eqn:Hl; simpl; [|discriminate].
      intros [= <-]. constructor; [done|]. by apply IH.
    + intros H. inversion H as [|? y ? ys' Hx Hl]; subst.
      rewrite Hx. simpl. apply IH in Hl. by rewrite Hl.
Qed.

(** A map whose function either succeeds or raises [e] raises [e] as
    soon as one element raises it. *)
Lemma res_mapM_Exc {A B} (f : A -> res B) l e :
  Forall (fun x => f x = Exc e \/ exists y, f x = Ok y) l ->
  List.Exists (fun x => f x = Exc e) l ->
  res_mapM f l = Exc e.
Proof.
  induction 1 as [|x l Hx _ IH]; [by inversion 1|]. intros Hex. simpl.
  destruct Hx as [Hx|(y&Hy)]; rewrite ?Hx, ?Hy; [done|]. simpl.
  inversion Hex as [? ? Hf|? ? Hl]; subst; [congruence|]. by rewrite IH.
Qed.

Lemma Forall2_In_l {A B} (P : A -> B -> Prop) l k x :
  Forall2 P l k -> In x l -> exists y, In y k /\ P x y.
Proof.
  induction 1 as [|a b l k Hab _ IH]; [done|]. intros [<-|Hin].
  - exists b. split; [by left|done].
  - destruct (IH Hin) as (y&Hy&Hp). exists y. split; [by right|done].
Qed.

(** [strip()] leaves a list alone when it starts and ends with a
    character that is not whitespace. *)
Lemma strip_list_id l :
  match l with [] => True | c :: _ => py_isspace c = false end ->
  match rev l with [] => True | c :: _ => py_isspace c = false end ->
  rev (lstrip_chars (rev (lstrip_chars l))) = l.
Proof.
  intros Hfirst Hlast. destruct l as [|c l]; [done|]. cbn [lstrip_chars]. rewrite Hfirst.
  destruct (rev (c :: l)) as [|d r] eqn:E.
  - apply (f_equal (@rev _)) in E. rewrite rev_involutive in E. discriminate.
  - cbn [lstrip_chars]. rewrite Hlast, <- E. apply rev_involutive.
Qed.

Lemma py_strip_id s :
  match list_ascii_of_string s with [] => True | c :: _ => py_isspace c = false end ->
  match rev (list_ascii_of_string s) with [] => True | c :: _ => py_isspace c = false end ->
  py_strip s = s.
Proof.
  intros H1 H2. unfold py_strip. rewrite strip_list_id by done.
  apply string_of_list_ascii_of_string.
Qed.

(** [String.append] is opaque to [simpl] under stdpp; these carry the
    reasoning on concatenated strings. *)
Lemma string_app_cons c (a b : string) : (String c a ++ b = String c (a ++ b))%string.
Proof. reflexivity. Qed.

Lemma string_app_nil_l (a : string) : ("" ++ a = a)%string.
Proof. reflexivity. Qed.

Lemma string_app_assoc (a b c : string) : ((a ++ b) ++ c = a ++ (b ++ c))%string.
Proof. induction a as [|x a IH]; [done|]. rewrite !string_app_cons. by f_equal. Qed.

Lemma string_app_nil_r (a : string) : (a ++ "" = a)%string.
Proof. induction a as [|x a IH]; [done|]. rewrite string_app_cons. by f_equal. Qed.

Lemma string_length_app (a b : string) :
  String.length (a ++ b)%string = String.length a + String.length b.
Proof. induction a as [|x a IH]; [done|]. rewrite string_app_cons. simpl. by rewrite IH. Qed.

#[export] Hint Rewrite string_app_assoc string_app_nil_r string_length_app : keeling_rw.

Lemma res_foldM_inv {A B} (P : A -> Prop) (f : A -> B -> res A) l a a' :
  (forall a x a', x ∈ l -> P a -> f a x = Ok a' -> P a') ->
  P a -> res_foldM f l a = Ok a' -> P a'.
Proof.
  revert a. induction l as [|x l IH]; intros a Hstep Ha; simpl; [by intros [= <-]|].
  destruct (f a x) as [a1|e] eqn:Hf; simpl; [|discriminate].
  apply IH; [|by eapply Hstep; [left| |]].
  intros ? ? ? ?. apply Hstep. by right.
Qed.

Section dedup.
Context `{EqDecision A}.

Lemma dedup_first_snoc (l : list A) x :
  dedup_first (l ++ [x]) =
  if decide (x ∈ dedup_first l) then dedup_first l else dedup_first l ++ [x].
Proof. unfold dedup_first. by rewrite fold_left_app. Qed.

Lemma elem_of_dedup_first (l : list A) x : x ∈ dedup_first l <-> x ∈ l.
Proof.
  induction l as [|y l IH] using rev_ind; [done|].
  rewrite dedup_first_snoc. case_decide; rewrite ?elem_of_app, IH; set_solver.
Qed.

Lemma NoDup_dedup_first (l : list A) : NoDup (dedup_first l).
Proof.
  induction l as [|y l IH] using rev_ind; [constructor|].
  rewrite dedup_first_snoc. case_decide; [done|].
  apply NoDup_app. split; [done|split; [set_solver|apply NoDup_singleton]].
Qed.

Lemma length_dedup_first (l : list A) : length (dedup_first l) <= length l.
Proof.
  induction l as [|y l IH] using rev_ind; [done|].
  rewrite dedup_first_snoc, length_app. simpl. case_decide; rewrite ?length_app; simpl; lia.
Qed.

End dedup.

Section uniqueness.
Context `{Countable A}.

Lemma size_list_to_set_le (xs : list A) :
  size (list_to_set xs : gset A) <= length xs.
Proof.
  induction xs as [|x xs IH]; [rewrite list_to_set_nil, size_empty; simpl; lia|].
  rewrite list_to_set_cons. simpl length.
  destruct (decide (x ∈ (list_to_set xs : gset A))) as [Hin|Hin].
  - rewrite subseteq_union_1_L; [lia|set_solver].
  - rewrite size_union; [rewrite size_singleton; lia|set_solver].
Qed.

(** The test [len(xs) == len(set(xs))] holds exactly when the elements
    are pairwise distinct. *)
Lemma len_eq_set_size_NoDup (xs : list A) :
  len_eq_set_size xs = true <-> NoDup xs.
Proof.
  unfold len_eq_set_size. rewrite Nat.eqb_eq. split.
  - induction xs as [|x xs IH]; intros Hlen; [constructor|].
    rewrite list_to_set_cons in Hlen. simpl length in Hlen.
    destruct (decide (x ∈ (list_to_set xs : gset A))) as [Hin|Hin].
    + rewrite subseteq_union_1_L in Hlen; [|set_solver].
      pose proof (size_list_to_set_le xs). lia.
    + rewrite size_union, size_singleton in Hlen; [|set_solver].
      constructor; [set_solver|]. apply IH. lia.
  - intros Hnd. symmetry. by apply size_list_to_set.
Qed.
Lemma map_Some_is_Some {B} (f : B -> option A) (l : list B) (ids : list A) :
  map f l = map Some ids -> Forall (fun x => is_Some (f x)) l.
Proof.
  revert ids. induction l as [|x l IH]; intros [|i ids]; simpl; try discriminate; [done|].
  intros [= Hx Hl]. constructor; [by rewrite Hx|]. by eapply IH.
Qed.

Lemma NoDup_map_Some (xs : list A) : NoDup xs -> NoDup (map Some xs).
Proof.
  induction 1 as [|x xs Hx _ IH]; simpl; constructor; [|done].
  rewrite list_elem_of_In, in_map_iff. intros (y&[= ->]&Hy).
  apply Hx, list_elem_of_In, Hy.
Qed.

End uniqueness.

#[export] Hint Resolve size_list_to_set_le NoDup_dedup_first NoDup_map_Some : keeling.
