(* ===== verification/Xml.v ===== *)
(** ElementTree elements as the validator and the extractor see them.

    [xml.etree.ElementTree.fromstring] is not modelled: a document is the
    element it parses to, or [None] when the parser raises [ParseError].
    An element has a tag, a text ([None] when the element has no text
    content, as ElementTree gives for [<id></id>] and [<id/>]) and its
    children in document order. [findall t] with a plain tag name returns
    the direct children with that tag, [find t] the first of them, and
    iterating over an element yields its children. *)

From S2P Require Import Prelude.
Set Warnings "-register-all".


Module ElementTree.

Inductive element :=
| Element (tag : string) (text : option string) (children : list element).

Definition tag (e : element) : string :=
  match e with Element t _ _ => t end.
Definition text (e : element) : option string :=
  match e with Element _ x _ => x end.
Definition children (e : element) : list element :=
  match e with Element _ _ cs => cs end.

(** [e.findall(t)] *)
Definition findall (t : string) (e : element) : list element :=
  List.filter (fun c => String.eqb (tag c) t) (children e).

(** [e.find(t)] *)
Definition find (t : string) (e : element) : option element :=
  head (findall t e).

(** [e.find(t).text]: [AttributeError] when there is no such child. *)
Definition find_text (t : string) (e : element) : res (option string) :=
  match find t e with
  | None => Exc AttributeError
  | Some c => Ok (text c)
  end.

(** [for c in e.find(t)]: iterating over [None] raises [TypeError]. *)
Definition iter_find (t : string) (e : element) : res (list element) :=
  match find t e with
  | None => Exc TypeError
  | Some c => Ok (children c)
  end.

(** The only child tagged [t], when there is exactly one. *)
Definition sole_child (t : string) (e : element) : option element :=
  match findall t e with [c] => Some c | _ => None end.

(** The text of the only child tagged [t]. *)
Definition sole_text (t : string) (e : element) : option string :=
  c ← sole_child t e; text c.

Lemma sole_text_eq t e :
  sole_text t e = match findall t e with [c] => text c | _ => None end.
Proof. unfold sole_text, sole_child. by destruct (findall t e) as [|? [|]]. Qed.

Lemma findall_tag t e c : c ∈ findall t e -> tag c = t.
Proof.
  unfold findall. rewrite list_elem_of_In, filter_In, String.eqb_eq. tauto.
Qed.

Lemma sole_child_find t e c : sole_child t e = Some c -> find t e = Some c.
Proof. unfold sole_child, find. by destruct (findall t e) as [|? [|]]; intros [= ->]. Qed.

Lemma sole_text_find t e x :
  sole_text t e = Some x -> exists c, find t e = Some c /\ text c = Some x.
Proof.
  unfold sole_text. destruct (sole_child t e) eqn:Hs; [|discriminate].
  simpl. intros Ht. exists e0. by rewrite (sole_child_find _ _ _ Hs).
Qed.

Lemma find_text_sole t e x : sole_text t e = Some x -> find_text t e = Ok (Some x).
Proof.
  intros H. destruct (sole_text_find _ _ _ H) as (c&Hf&Ht).
  unfold find_text. by rewrite Hf, Ht.
Qed.

Lemma iter_find_sole t e c : sole_child t e = Some c -> iter_find t e = Ok (children c).
Proof. intros H. unfold iter_find. by rewrite (sole_child_find _ _ _ H). Qed.

Lemma findall_all_tagged t e :
  Forall (fun c => tag c = t) (children e) -> findall t e = children e.
Proof.
  unfold findall. induction 1 as [|c cs Hc _ IH]; simpl; [done|].
  rewrite Hc, String.eqb_refl. by f_equal.
Qed.

End ElementTree.

#[export] Hint Resolve ElementTree.sole_child_find : keeling.
