(* ===== verification/PyFloat.v ===== *)
(** Python's [float(x)] as [extract_graph_data] uses it on the text of a
    [cost] element ([src/downloader/setup.py], line 163).

    [float(None)] raises [TypeError]; [float(s)] strips the whitespace
    around [s], checks that every underscore sits between two digits and
    removes the underscores, then reads an optional sign followed by
    [inf], [infinity] or [nan] in any letter case, or by a decimal
    numeral with an optional fraction and an optional exponent; anything
    else raises [ValueError].

    A finite result is kept as the exact decimal [(-1)^neg * mant * 10^exp];
    the rounding to a binary64 double is not modelled. Rounding keeps the
    sign and the ordering against zero, which is all the extractor looks
    at; the magnitude of a finite numeral too large for a double (Python
    gives [inf]) and of one too small (Python gives [0.0]) is not
    reproduced. *)

From S2P Require Import Prelude.
Local Open Scope string_scope.
Local Open Scope list_scope.

Module PyFloat.

Inductive pyfloat :=
| PyNum (neg : bool) (mant : N) (exp : Z)
| PyInf (neg : bool)
| PyNaN.

#[export] Instance pyfloat_eq_dec : EqDecision pyfloat.
Proof. solve_decision. Defined.

(** [0.0] *)
Definition py_zero : pyfloat := PyNum false 0 0.

Definition is_digit (c : ascii) : bool :=
  ((48 <=? nat_of_ascii c) && (nat_of_ascii c <=? 57))%nat.

Definition digit_value (c : ascii) : N := N.of_nat (nat_of_ascii c - 48).

(** [ascii.lower()] *)
Definition ascii_lower (c : ascii) : ascii :=
  let n := nat_of_ascii c in
  if ((65 <=? n) && (n <=? 90))%nat then ascii_of_nat (n + 32) else c.

(** The underscore rule of CPython's
    [_Py_string_to_number_with_underscores]: an underscore must follow a
    digit and precede a digit. *)
Fixpoint underscores_ok (prev_digit : bool) (l : list ascii) : bool :=
  match l with
  | [] => true
  | c :: l' =>
      if Ascii.eqb c "_"%char then
        prev_digit &&
        match l' with d :: _ => is_digit d | [] => false end &&
        underscores_ok false l'
      else underscores_ok (is_digit c) l'
  end.

Fixpoint span_digits (l : list ascii) : list ascii * list ascii :=
  match l with
  | c :: l' =>
      if is_digit c then let '(ds, rest) := span_digits l' in (c :: ds, rest)
      else ([], l)
  | [] => ([], [])
  end.

Definition digits_value (ds : list ascii) : N :=
  fold_left (fun acc c => acc * 10 + digit_value c)%N ds 0%N.

(** An optional sign; [true] for [-]. *)
Definition parse_sign (l : list ascii) : bool * list ascii :=
  match l with
  | c :: l' =>
      if Ascii.eqb c "-"%char then (true, l')
      else if Ascii.eqb c "+"%char then (false, l')
      else (false, l)
  | [] => (false, l)
  end.

(** The exponent part: empty, or [e]/[E], a sign and at least one digit. *)
Definition parse_exponent (l : list ascii) : option Z :=
  match l with
  | [] => Some 0%Z
  | c :: l' =>
      if Ascii.eqb (ascii_lower c) "e"%char then
        let '(neg, l'') := parse_sign l' in
        let '(ds, rest) := span_digits l'' in
        match ds, rest with
        | _ :: _, [] =>
            let v := Z.of_N (digits_value ds) in Some (if neg then (- v)%Z else v)
        | _, _ => None
        end
      else None
  end.

(** A decimal numeral after the sign: [digits [. digits] [exponent]]
    with at least one digit before the exponent. *)
Definition parse_decimal (neg : bool) (l : list ascii) : option pyfloat :=
  let '(int_ds, rest) := span_digits l in
  let '(frac_ds, rest') :=
    match rest with
    | "."%char :: r => span_digits r
    | _ => ([], rest)
    end in
  let has_point := match rest with "."%char :: _ => true | _ => false end in
  match (int_ds ++ frac_ds)%list with
  | [] => None
  | all_ds =>
      match (if has_point then parse_exponent rest' else parse_exponent rest) with
      | Some e =>
          Some (PyNum neg (digits_value all_ds) (e - Z.of_nat (length frac_ds))%Z)
      | None => None
      end
  end.

(** The body after the sign: a special name or a decimal numeral. *)
Definition parse_unsigned (neg : bool) (l : list ascii) : option pyfloat :=
  let low := map ascii_lower l in
  if decide (low = list_ascii_of_string "inf") then Some (PyInf neg)
  else if decide (low = list_ascii_of_string "infinity") then Some (PyInf neg)
  else if decide (low = list_ascii_of_string "nan") then Some PyNaN
  else parse_decimal neg l.

Definition float_of_string (s : string) : option pyfloat :=
  let l := rev (lstrip_chars (rev (lstrip_chars (list_ascii_of_string s)))) in
  if underscores_ok false l then
    let l' := List.filter (fun c => negb (Ascii.eqb c "_"%char)) l in
    let '(neg, body) := parse_sign l' in
    parse_unsigned neg body
  else None.

(** [float(x)] for [x] a string or [None]. *)
Definition py_float (x : option string) : res pyfloat :=
  match x with
  | None => Exc TypeError
  | Some s =>
      match float_of_string s with
      | Some f => Ok f
      | None => Exc ValueError
      end
  end.

(** [f < 0] in Python: false for [nan] and for [-0.0]. *)
Definition py_lt_zero (f : pyfloat) : bool :=
  match f with
  | PyNum neg m _ => neg && negb (m =? 0)%N
  | PyInf neg => neg
  | PyNaN => false
  end.

(** [f >= 0] in Python: false for [nan]. *)
Definition py_ge_zero (f : pyfloat) : bool :=
  match f with
  | PyNum neg m _ => negb neg || (m =? 0)%N
  | PyInf neg => negb neg
  | PyNaN => false
  end.

(** ** Numerals made of digits *)

Definition all_digits (ds : list ascii) : Prop := Forall (fun c => is_digit c = true) ds.

Lemma digit_not_space c : is_digit c = true -> py_isspace c = false.
Proof.
  unfold is_digit, py_isspace. intros Hd.
  destruct (Nat.leb_spec 48 (nat_of_ascii c)), (Nat.leb_spec (nat_of_ascii c) 57);
    try discriminate.
  destruct (Nat.leb_spec 9 (nat_of_ascii c)), (Nat.leb_spec (nat_of_ascii c) 13),
    (Nat.leb_spec 28 (nat_of_ascii c)), (Nat.leb_spec (nat_of_ascii c) 32),
    (Nat.eqb_spec (nat_of_ascii c) 133), (Nat.eqb_spec (nat_of_ascii c) 160);
    simpl; reflexivity || lia.
Qed.

Lemma digit_neq c d : is_digit c = true -> is_digit d = false -> Ascii.eqb c d = false.
Proof. intros Hc Hd. destruct (Ascii.eqb_spec c d) as [->|]; [congruence|done]. Qed.

Lemma digit_not_underscore c : is_digit c = true -> Ascii.eqb c "_"%char = false.
Proof. intros Hc. by apply digit_neq. Qed.



Lemma digit_lower c : is_digit c = true -> ascii_lower c = c.
Proof.
  unfold is_digit, ascii_lower. intros Hd.
  destruct (Nat.leb_spec 48 (nat_of_ascii c)), (Nat.leb_spec (nat_of_ascii c) 57);
    try discriminate.
  destruct (Nat.leb_spec 65 (nat_of_ascii c)); simpl; [lia|done].
Qed.

Lemma lstrip_digits ds : ds <> [] -> all_digits ds -> lstrip_chars ds = ds.
Proof.
  destruct ds as [|c ds]; [done|]. intros _ Hd. inversion Hd; subst.
  simpl. by rewrite digit_not_space.
Qed.

Lemma underscores_ok_digits ds b : all_digits ds -> underscores_ok b ds = true.
Proof.
  revert b. induction ds as [|c ds IH]; intros b Hd; [done|].
  inversion Hd; subst. simpl. rewrite digit_not_underscore by done. auto.
Qed.

Lemma filter_digits ds :
  all_digits ds -> List.filter (fun c => negb (Ascii.eqb c "_"%char)) ds = ds.
Proof.
  induction ds as [|c ds IH]; intros Hd; [done|].
  inversion Hd; subst. simpl. rewrite digit_not_underscore by done. simpl. f_equal. auto.
Qed.

Lemma span_digits_all ds : all_digits ds -> span_digits ds = (ds, []).
Proof.
  induction ds as [|c ds IH]; intros Hd; [done|].
  inversion Hd; subst. simpl. rewrite H1, IH by done. done.
Qed.

Lemma all_digits_rev ds : all_digits ds -> all_digits (rev ds).
Proof. apply Forall_rev. Qed.

Lemma map_lower_digits ds : all_digits ds -> map ascii_lower ds = ds.
Proof.
  induction ds as [|c ds IH]; intros Hd; [done|].
  inversion Hd; subst. simpl. rewrite digit_lower by done. f_equal. auto.
Qed.

(** A special name starts with a letter, never with a digit. *)
Lemma digits_not_name ds name c rest :
  all_digits ds -> list_ascii_of_string name = c :: rest -> is_digit c = false ->
  ds <> list_ascii_of_string name.
Proof. intros Hd Hn Hc ->. unfold all_digits in Hd. rewrite Hn in Hd. inversion Hd. congruence. Qed.

Lemma parse_unsigned_digits neg ds :
  ds <> [] -> all_digits ds ->
  parse_unsigned neg ds = Some (PyNum neg (digits_value ds) 0).
Proof.
  intros Hne Hd. unfold parse_unsigned. rewrite map_lower_digits by done.
  destruct ds as [|c ds']; [done|]. inversion Hd as [|? ? Hc _]; subst.
  case_decide as H1; [injection H1 as -> _; vm_compute in Hc; discriminate|].
  case_decide as H2; [injection H2 as -> _; vm_compute in Hc; discriminate|].
  case_decide as H3; [injection H3 as -> _; vm_compute in Hc; discriminate|].
  unfold parse_decimal. rewrite span_digits_all by done.
  simpl. rewrite ?app_nil_r. reflexivity.
Qed.

(** A numeral of decimal digits, with or without a leading minus
    sign, parses to exactly its value (no rounding in the model). *)
Lemma float_of_string_numeral (neg : bool) (ds : list ascii) :
  ds <> [] -> all_digits ds ->
  float_of_string (string_of_list_ascii ((if neg then ["-"%char] else @nil ascii) ++ ds)%list) =
  Some (PyNum neg (digits_value ds) 0).
Proof.
  intros Hne Hd. unfold float_of_string. rewrite list_ascii_of_string_of_list_ascii.
  pose proof (all_digits_rev _ Hd) as Hr.
  rewrite strip_list_id.
  2: { destruct neg; [reflexivity|]. destruct ds; [done|].
       inversion Hd; subst. simpl. by apply digit_not_space. }
  2: { rewrite rev_app_distr. destruct (rev ds) as [|d r] eqn:E.
       - destruct ds; [done|]. simpl in E. by destruct (rev ds).
       - inversion Hr; subst. simpl. by apply digit_not_space. }
  destruct neg; simpl.
  - rewrite underscores_ok_digits by done. simpl.
    rewrite filter_digits by done. by apply parse_unsigned_digits.
  - rewrite underscores_ok_digits, filter_digits by done.
    destruct ds as [|c ds']; [done|]. inversion Hd as [|? ? Hc _]; subst. simpl.
    rewrite !digit_neq by done. by apply parse_unsigned_digits.
Qed.

Example float_of_string_numeral_example :
  float_of_string "-042" = Some (PyNum true 42 0).
Proof.
  apply (float_of_string_numeral true ["0"%char; "4"%char; "2"%char]).
  - discriminate.
  - repeat constructor.
Qed.

End PyFloat.
