(* ===== verification/Validator.v ===== *)
(** The schema validator: [verify_graph_data] of
    [src/downloader/setup.py] (lines 48-139).

    The function checks the parsed document in a fixed order and stops
    at the first failure with one diagnostic; it returns the unchanged
    tree on success. Each diagnostic of the source is one constructor of
    [verify_error], with its printed text in [verify_error_message]. The
    two loops of the source (over the [node] children of [nodes], and
    over the [node] children of [edges]) are [check_nodes] and
    [check_edges]; [check_nodes] threads the Python set [node_ids].

    The declarative schema [graph_schema] states what an accepted
    document looks like; [verify_graph_data_iff] shows that the validator
    decides exactly that schema. *)

From S2P Require Import Prelude Xml.
Import ElementTree.
Local Open Scope string_scope.
Local Open Scope list_scope.
Set Warnings "-clear-no-such-hyp".

Module Validator.

Inductive verify_error :=
| ErrXmlStructure
| ErrRootNotGraph
| ErrIdCount
| ErrIdMissing
| ErrNameCount
| ErrNameMissing
| ErrNodesCount
| ErrNoNode
| ErrNodeIdCount
| ErrNodeIdMissing
| ErrNodeIdNotUnique
| ErrNodeNameCount
| ErrNodeNameMissing
| ErrEdgesCount
| ErrEdgeIdCount
| ErrEdgeIdMissing
| ErrEdgeFromCount
| ErrEdgeFromNotFound
| ErrEdgeToCount
| ErrEdgeToNotFound
| ErrEdgeCostCount.

#[export] Instance verify_error_eq_dec : EqDecision verify_error.
Proof. solve_decision. Defined.

Definition verify_error_message (e : verify_error) : string :=
  match e with
  | ErrXmlStructure => "Invalid graph data. Check XML structure."
  | ErrRootNotGraph => "Invalid graph data. Root element is not 'graph'."
  | ErrIdCount => "Invalid graph data. Expected one 'id' element."
  | ErrIdMissing => "Invalid graph data. Missing required element 'id'."
  | ErrNameCount => "Invalid graph data. Expected one 'name' element."
  | ErrNameMissing => "Invalid graph data. Missing required element 'name'."
  | ErrNodesCount => "Invalid graph data. Expected one 'nodes' element."
  | ErrNoNode => "Invalid graph data. Expected at least one 'node' element."
  | ErrNodeIdCount => "Invalid graph data. Expected one 'id' element in 'node'."
  | ErrNodeIdMissing => "Invalid graph data. Missing required element 'id' in 'node'."
  | ErrNodeIdNotUnique => "Invalid graph data. Node ID is not unique."
  | ErrNodeNameCount => "Invalid graph data. Expected one 'name' element in 'node'."
  | ErrNodeNameMissing => "Invalid graph data. Missing required element 'name' in 'node'."
  | ErrEdgesCount => "Invalid graph data. Expected one 'edges' element."
  | ErrEdgeIdCount => "Invalid graph data. Expected one 'id' element in 'edge'."
  | ErrEdgeIdMissing => "Invalid graph data. Missing required element 'id' in 'edge'."
  | ErrEdgeFromCount => "Invalid graph data. Expected one 'from' element in 'edge'."
  | ErrEdgeFromNotFound => "Invalid graph data. 'from' node ID not found."
  | ErrEdgeToCount => "Invalid graph data. Expected one 'to' element in 'edge'."
  | ErrEdgeToNotFound => "Invalid graph data. 'to' node ID not found."
  | ErrEdgeCostCount => "Invalid graph data. Expected one or zero 'cost' elements in 'edge'."
  end.

(** [text in node_ids] for a text that may be [None]: the set only
    holds strings, so [None] is never a member. *)
Definition opt_in (t : option string) (ids : gset string) : bool :=
  match t with Some x => bool_decide (x ∈ ids) | None => false end.

(** The loop [for node_elem in nodes_list] (lines 89-107). *)
Fixpoint check_nodes (node_ids : gset string) (nodes : list element)
  : verify_error + gset string :=
  match nodes with
  | [] => inr node_ids
  | n :: rest =>
      match findall "id" n with
      | [i] =>
          match text i with
          | None => inl ErrNodeIdMissing
          | Some x =>
              if bool_decide (x ∈ node_ids) then inl ErrNodeIdNotUnique
              else
                let node_ids' := {[x]} ∪ node_ids in
                match findall "name" n with
                | [m] =>
                    match text m with
                    | None => inl ErrNodeNameMissing
                    | Some _ => check_nodes node_ids' rest
                    end
                | _ => inl ErrNodeNameCount
                end
          end
      | _ => inl ErrNodeIdCount
      end
  end.

(** One pass of the loop [for edge_elem in edges_list] (lines 114-138). *)
Definition check_edge (node_ids : gset string) (e : element) : option verify_error :=
  match findall "id" e with
  | [i] =>
      match text i with
      | None => Some ErrEdgeIdMissing
      | Some _ =>
          match findall "from" e with
          | [f] =>
              if negb (opt_in (text f) node_ids) then Some ErrEdgeFromNotFound
              else
                match findall "to" e with
                | [t] =>
                    if negb (opt_in (text t) node_ids) then Some ErrEdgeToNotFound
                    else if (1 <? length (findall "cost" e))%nat then Some ErrEdgeCostCount
                    else None
                | _ => Some ErrEdgeToCount
                end
          | _ => Some ErrEdgeFromCount
          end
      end
  | _ => Some ErrEdgeIdCount
  end.

(** The loop over the edge entries: the first failing entry decides. *)
Fixpoint check_edges (node_ids : gset string) (edges : list element) : option verify_error :=
  match edges with
  | [] => None
  | e :: rest =>
      match check_edge node_ids e with
      | Some err => Some err
      | None => check_edges node_ids rest
      end
  end.

(** [verify_graph_data]: [inl err] is [(False, None)] after printing
    [verify_error_message err]; [inr root] is [(True, root)]. *)
Definition verify_graph_data (doc : option element) : verify_error + element :=
  match doc with
  | None => inl ErrXmlStructure
  | Some root =>
      if negb (String.eqb (tag root) "graph") then inl ErrRootNotGraph else
      match findall "id" root with
      | [i] =>
          match text i with
          | None => inl ErrIdMissing
          | Some _ =>
              match findall "name" root with
              | [nm] =>
                  match text nm with
                  | None => inl ErrNameMissing
                  | Some _ =>
                      match findall "nodes" root with
                      | [ns] =>
                          match findall "node" ns with
                          | [] => inl ErrNoNode
                          | nodes_list =>
                              match check_nodes ∅ nodes_list with
                              | inl err => inl err
                              | inr node_ids =>
                                  match findall "edges" root with
                                  | [es] =>
                                      match check_edges node_ids (findall "node" es) with
                                      | Some err => inl err
                                      | None => inr root
                                      end
                                  | _ => inl ErrEdgesCount
                                  end
                              end
                          end
                      | _ => inl ErrNodesCount
                      end
                  end
              | _ => inl ErrNameCount
              end
          end
      | _ => inl ErrIdCount
      end
  end.

(** ** The schema the validator decides *)

(** A [node] entry of [nodes]: one [id] and one [name], both with text. *)
Definition node_entry_ok (n : element) : Prop :=
  is_Some (sole_text "id" n) /\ is_Some (sole_text "name" n).

(** The identifiers of a list of node entries, in order. *)
Definition node_ids_of (ns : list element) : list string :=
  omap (sole_text "id") ns.

(** A [node] entry of [edges]: one [id] with text, one [from] and one
    [to] naming declared node identifiers, at most one [cost]. *)
Definition edge_entry_ok (ids : gset string) (e : element) : Prop :=
  is_Some (sole_text "id" e) /\
  (exists x, sole_text "from" e = Some x /\ x ∈ ids) /\
  (exists x, sole_text "to" e = Some x /\ x ∈ ids) /\
  length (findall "cost" e) <= 1.

Definition graph_schema (root : element) : Prop :=
  tag root = "graph" /\
  is_Some (sole_text "id" root) /\
  is_Some (sole_text "name" root) /\
  exists ns es,
    sole_child "nodes" root = Some ns /\
    findall "node" ns <> [] /\
    Forall node_entry_ok (findall "node" ns) /\
    NoDup (node_ids_of (findall "node" ns)) /\
    sole_child "edges" root = Some es /\
    Forall (edge_entry_ok (list_to_set (node_ids_of (findall "node" ns))))
           (findall "node" es).

(** ** Sample documents of [src/tests/sample_data.py] *)

Definition leaf (t x : string) : element := Element t (Some x) [].

Definition node_entry (i n : string) : element :=
  Element "node" None [leaf "id" i; leaf "name" n].

Definition edge_entry (i f t c : string) : element :=
  Element "node" None [leaf "id" i; leaf "from" f; leaf "to" t; leaf "cost" c].

Definition graph_doc (nodes edges : list element) : element :=
  Element "graph" None
    [leaf "id" "g0"; leaf "name" "Name";
     Element "nodes" None nodes; Element "edges" None edges].

(** ["valid"] *)
Definition sample_valid : element :=
  graph_doc [node_entry "a" "A name"] [edge_entry "e1" "a" "a" "42"].

(** ["invalid dup node id"] *)
Definition sample_dup_node_id : element :=
  graph_doc [node_entry "a" "A name"; node_entry "a" "Another name"]
            [edge_entry "e1" "a" "a" "42"].

Lemma check_nodes_inr ns : forall ids ids',
  check_nodes ids ns = inr ids' <->
  Forall node_entry_ok ns /\ NoDup (node_ids_of ns) /\
  Forall (fun x => x ∉ ids) (node_ids_of ns) /\
  ids' = list_to_set (node_ids_of ns) ∪ ids.
Proof.
  induction ns as [|n ns IH]; intros ids ids'; simpl.
  { split.
    - intros Heq. injection Heq as <-. split_and!; try constructor. set_solver.
    - intros (_&_&_&->). f_equal. set_solver. }
  unfold node_entry_ok at 1. rewrite Forall_cons, !(sole_text_eq _ n).
  destruct (findall "id" n) as [|i [|]]; [naive_solver| |naive_solver].
  destruct (text i) as [x|]; [|naive_solver]. simpl.
  rewrite NoDup_cons, Forall_cons.
  case_bool_decide as Hx; [naive_solver|].
  destruct (findall "name" n) as [|m [|]]; [naive_solver| |naive_solver].
  destruct (text m); [|naive_solver].
  rewrite IH, !Forall_forall. setoid_rewrite list_elem_of_In.
  split.
  - intros (Hok&Hnd&Hfresh&->).
    split_and!; [by eexists|by eexists|exact Hok| |exact Hnd|exact Hx| |set_solver].
    + intros Hin. apply (Hfresh x Hin). set_solver.
    + intros y Hy. specialize (Hfresh y Hy). set_solver.
  - intros (((_&_)&Hok)&(Hnin&Hnd)&(_&Hfresh)&->).
    split_and!; [exact Hok|exact Hnd| |set_solver].
    intros y Hy. specialize (Hfresh y Hy).
    assert (y ≠ x) by (intros ->; contradiction). set_solver.
Qed.

Lemma check_edge_None ids e :
  check_edge ids e = None <-> edge_entry_ok ids e.
Proof.
  unfold check_edge, edge_entry_ok. rewrite !sole_text_eq.
  destruct (findall "id" e) as [|i [|]]; [naive_solver| |naive_solver].
  destruct (text i); [|naive_solver].
  destruct (findall "from" e) as [|f [|]]; [naive_solver| |naive_solver].
  destruct (text f) as [x|]; simpl; [|naive_solver].
  case_bool_decide; simpl; [|naive_solver].
  destruct (findall "to" e) as [|t [|]]; [naive_solver| |naive_solver].
  destruct (text t) as [y|]; simpl; [|naive_solver].
  case_bool_decide; simpl; [|naive_solver].
  destruct (Nat.ltb_spec 1%nat (length (findall "cost" e))); simpl.
  - split; [discriminate|]. intros (_&_&_&Hc). lia.
  - split; [|done]. intros _. split_and!; [by eexists|eauto|eauto|lia].
Qed.

Lemma check_edges_None ids es :
  check_edges ids es = None <-> Forall (edge_entry_ok ids) es.
Proof.
  induction es as [|e es IH]; simpl; [split; constructor|].
  rewrite Forall_cons, <- IH, <- check_edge_None.
  destruct (check_edge ids e); naive_solver.
Qed.

(** With well-formed entries, [check_nodes] can only fail on a
    repeated identifier. *)
Lemma check_nodes_ok_entries ns : forall ids,
  Forall node_entry_ok ns ->
  check_nodes ids ns = inl ErrNodeIdNotUnique \/ exists ids', check_nodes ids ns = inr ids'.
Proof.
  induction ns as [|n ns IH]; intros ids Hok; simpl; [eauto|].
  apply Forall_cons in Hok as ((Hid&Hname)&Hok).
  rewrite sole_text_eq in Hid, Hname.
  destruct (findall "id" n) as [|i [|]]; try by destruct Hid.
  destruct (text i) as [x|]; [|by destruct Hid].
  case_bool_decide; [by left|].
  destruct (findall "name" n) as [|m [|]]; try by destruct Hname.
  destruct (text m); [|by destruct Hname]. by apply IH.
Qed.

Lemma verify_graph_data_inr doc r :
  verify_graph_data doc = inr r -> doc = Some r.
Proof. destruct doc; simpl; repeat case_match; congruence. Qed.

Lemma verify_graph_data_root root :
  verify_graph_data (Some root) = inr root <-> graph_schema root.
Proof.
  unfold verify_graph_data, graph_schema. rewrite !sole_text_eq. unfold sole_child.
  destruct (String.eqb_spec (tag root) "graph"); cbn [negb]; [|naive_solver].
  destruct (findall "id" root) as [|i [|]]; [naive_solver| |naive_solver].
  destruct (text i); [|naive_solver].
  destruct (findall "name" root) as [|nm [|]]; [naive_solver| |naive_solver].
  destruct (text nm); [|naive_solver].
  destruct (findall "nodes" root) as [|ns [|]]; [naive_solver| |naive_solver].
  destruct (findall "node" ns) as [|n0 nl] eqn:Hnodes; [naive_solver|].
  destruct (check_nodes ∅ (n0 :: nl)) as [err|ids] eqn:Hc.
  - split; [discriminate|].
    intros (_&_&_&ns'&es&Hns&_&Hok&Hnd&_). injection Hns as <-.
    rewrite Hnodes in Hok, Hnd.
    enough (check_nodes ∅ (n0 :: nl) =
            inr (list_to_set (node_ids_of (n0 :: nl)) ∪ ∅)) by congruence.
    apply check_nodes_inr. split_and!; try done. apply Forall_forall. set_solver.
  - apply check_nodes_inr in Hc as (Hok&Hnd&_&->). rewrite union_empty_r_L.
    destruct (findall "edges" root) as [|es [|]]; [naive_solver| |naive_solver].
    destruct (check_edges _ (findall "node" es)) eqn:He.
    + split; [discriminate|].
      intros (_&_&_&ns'&es'&Hns&_&_&_&Hes&Hedges).
      injection Hns as <-. injection Hes as <-.
      rewrite Hnodes in Hedges. apply check_edges_None in Hedges. congruence.
    + apply check_edges_None in He. rewrite <- Hnodes in He, Hok, Hnd.
      split; [intros _|done]. split_and!; try done; try by eexists.
      exists ns, es. split_and!; try done. by rewrite Hnodes.
Qed.

(** C1: the validator accepts a document exactly when it satisfies the
    declarative schema, and then returns the parsed tree unchanged. *)
Theorem verify_graph_data_iff doc r :
  verify_graph_data doc = inr r <-> doc = Some r /\ graph_schema r.
Proof.
  split.
  - intros H. pose proof (verify_graph_data_inr _ _ H) as ->.
    split; [done|]. by apply verify_graph_data_root.
  - intros [-> H]. by apply verify_graph_data_root.
Qed.

(** C16: a document whose header is well formed and whose node entries
    each have one [id] and one [name] but repeat an identifier is
    rejected with the "Node ID is not unique" diagnostic, whatever its
    [edges] block holds. *)
Theorem verify_graph_data_duplicate_node root ns :
  tag root = "graph" ->
  is_Some (sole_text "id" root) ->
  is_Some (sole_text "name" root) ->
  sole_child "nodes" root = Some ns ->
  Forall node_entry_ok (findall "node" ns) ->
  ~ NoDup (node_ids_of (findall "node" ns)) ->
  verify_graph_data (Some root) = inl ErrNodeIdNotUnique.
Proof.
  intros Htag Hid Hname Hns Hok Hdup. unfold verify_graph_data.
  rewrite Htag, String.eqb_refl. cbn [negb]. rewrite sole_text_eq in Hid, Hname.
  unfold sole_child in Hns.
  destruct (findall "id" root) as [|i [|]]; try by destruct Hid.
  destruct (text i); [|by destruct Hid].
  destruct (findall "name" root) as [|nm [|]]; try by destruct Hname.
  destruct (text nm); [|by destruct Hname].
  destruct (findall "nodes" root) as [|ns' [|]]; try discriminate.
  injection Hns as ->.
  destruct (findall "node" ns) as [|n0 nl] eqn:Hnodes; [by destruct Hdup; constructor|].
  destruct (check_nodes_ok_entries _ ∅ Hok) as [->|[ids' Hc]]; [done|].
  apply check_nodes_inr in Hc as (_&Hnd&_). contradiction.
Qed.

Example sample_valid_accepted :
  verify_graph_data (Some sample_valid) = inr sample_valid.
Proof. reflexivity. Qed.

Example sample_root_tag_rejected :
  verify_graph_data (Some (Element "g" None (children sample_valid))) = inl ErrRootNotGraph.
Proof. reflexivity. Qed.

Lemma verify_graph_data_duplicate_node_witness :
  verify_graph_data (Some sample_dup_node_id) = inl ErrNodeIdNotUnique.
Proof.
  apply (verify_graph_data_duplicate_node sample_dup_node_id
           (Element "nodes" None [node_entry "a" "A name"; node_entry "a" "Another name"])).
  - reflexivity.
  - eexists; reflexivity.
  - eexists; reflexivity.
  - reflexivity.
  - repeat constructor; eexists; reflexivity.
  - apply (bool_decide_unpack _). vm_compute. reflexivity.
Defined.

End Validator.
