(* ===== verification/Extractor.v ===== *)
(** The extractor and the uniqueness check: [extract_graph_data]
    (lines 142-170) and [verify_unique_ids] (lines 173-176) of
    [src/downloader/setup.py].

    The tuples the source builds are the records [node_row] and
    [edge_row]; their fields keep Python's [None] as [option]. The
    extractor reads [find(t).text] ([find_text], which raises
    [AttributeError] on a missing child) and iterates over all children of
    [nodes] and [edges], whatever their tag; the validator only looked at
    the children tagged [node]. The cost rule of lines 161-167 is
    [edge_cost]: it catches [TypeError], [AttributeError] and
    [ValueError] and then uses [0.0].

    [verify_unique_ids] reads the first field of each tuple (the class
    [FirstField]) and compares the length of the list with the size of
    the set of its elements. *)

From S2P Require Import Prelude Xml PyFloat Validator.
Import ElementTree PyFloat Validator.
Local Open Scope string_scope.
Local Open Scope list_scope.
Set Warnings "-clear-no-such-hyp".

Module Extractor.

(** [(node_id, node_name)] *)
Record node_row := NodeRow { node_id : option string; node_name : option string }.

(** [(edge_id, edge_from, edge_to, edge_cost)] *)
Record edge_row := EdgeRow {
  edge_id : option string;
  edge_from : option string;
  edge_to : option string;
  edge_cost : pyfloat
}.

(** Lines 161-167: the [try] block and its handler. *)
Definition cost_of_edge (edge : element) : res pyfloat :=
  let attempt :=
    edge_cost_str ← find_text "cost" edge;
    c ← py_float edge_cost_str;
    if py_lt_zero c then Exc ValueError else Ok c in
  match attempt with
  | Ok c => Ok c
  | Exc (TypeError | AttributeError | ValueError) => Ok py_zero
  | Exc e => Exc e
  end.

(** Lines 151-153. *)
Definition extract_node (node : element) : res node_row :=
  nid ← find_text "id" node;
  nname ← find_text "name" node;
  Ok (NodeRow nid nname).

(** Lines 158-168. *)
Definition extract_edge (edge : element) : res edge_row :=
  eid ← find_text "id" edge;
  efrom ← find_text "from" edge;
  eto ← find_text "to" edge;
  ecost ← cost_of_edge edge;
  Ok (EdgeRow eid efrom eto ecost).

Definition extract_graph_data (graph_data : element)
  : res (option string * option string * list node_row * list edge_row) :=
  graph_id ← find_text "id" graph_data;
  graph_name ← find_text "name" graph_data;
  node_elems ← iter_find "nodes" graph_data;
  nodes ← res_mapM extract_node node_elems;
  edge_elems ← iter_find "edges" graph_data;
  edges ← res_mapM extract_edge edge_elems;
  Ok (graph_id, graph_name, nodes, edges).

(** [node[0]] for the tuples [verify_unique_ids] receives. *)
Class FirstField (R : Type) := first_field : R -> option string.
#[export] Instance node_row_first : FirstField node_row := node_id.
#[export] Instance edge_row_first : FirstField edge_row := edge_id.

Definition verify_unique_ids `{FirstField R} (rows : list R) : bool :=
  len_eq_set_size (map first_field rows).

(** Every child of the block is tagged [node]. *)
Definition node_children_only (blk : element) : Prop :=
  Forall (fun c => tag c = "node") (children blk).

(** What an extracted edge looks like for a validated entry. *)
Definition edge_row_ok (ids : gset string) (r : edge_row) : Prop :=
  is_Some (edge_id r) /\
  (exists f, edge_from r = Some f /\ f ∈ ids) /\
  (exists t, edge_to r = Some t /\ t ∈ ids) /\
  py_lt_zero (edge_cost r) = false.

(** ** Sample documents *)

(** A [nodes] block with an extra child that is not tagged [node] and has
    no [id]: the validator never looks at it. *)
Definition sample_foreign_child : element :=
  graph_doc [node_entry "a" "A name"; Element "comment" None []]
            [edge_entry "e1" "a" "a" "42"].

(** An extra child of [nodes] that is not tagged [node] but repeats the
    identifier of a node. *)
Definition sample_foreign_duplicate : element :=
  graph_doc [node_entry "a" "A name"; Element "extra" None [leaf "id" "a"; leaf "name" "X"]]
            [edge_entry "e1" "a" "a" "42"].

(** An edge whose cost is [nan]. *)
Definition sample_nan_cost : element :=
  graph_doc [node_entry "a" "A name"] [edge_entry "e1" "a" "a" "nan"].

Lemma py_ge_zero_not_lt c : py_lt_zero c = false -> c <> PyNaN -> py_ge_zero c = true.
Proof.
  destruct c as [[] m e|[]|]; simpl; try done.
  intros H _. by destruct (m =? 0)%N.
Qed.

Lemma cost_of_edge_ok edge : exists c, cost_of_edge edge = Ok c /\ py_lt_zero c = false.
Proof.
  unfold cost_of_edge, find_text, py_float.
  destruct (find "cost" edge) as [c|]; simpl; [|by eexists].
  destruct (text c) as [s|]; simpl; [|by eexists].
  destruct (float_of_string s) as [f|]; simpl; [|by eexists].
  destruct (py_lt_zero f) eqn:Hf; simpl; by eexists.
Qed.

(** C24: the cost rule never raises and never yields a negative cost;
    the cost is non-negative or [nan]. *)
Theorem cost_of_edge_total edge :
  exists c, cost_of_edge edge = Ok c /\ py_lt_zero c = false /\
            (c = PyNaN \/ py_ge_zero c = true).
Proof.
  destruct (cost_of_edge_ok edge) as (c&?&Hc).
  exists c. split_and!; [done|done|]. destruct (decide (c = PyNaN)); [by left|].
  right. by apply py_ge_zero_not_lt.
Qed.

(** A missing [cost] element, an empty one, or a text that is not a
    Python float literal gives the cost [0.0]. *)
Theorem cost_of_edge_default edge :
  find "cost" edge = None \/
  (exists c, find "cost" edge = Some c /\
     (text c = None \/ exists s, text c = Some s /\ float_of_string s = None)) ->
  cost_of_edge edge = Ok py_zero.
Proof.
  unfold cost_of_edge, find_text.
  intros [->|(c&->&[->|(s&->&Hs)])]; simpl; [done|done|]. by rewrite Hs.
Qed.

(** C25: a cost written as a decimal numeral is used exactly, unless it
    is negative, in which case it is [0.0]; ["-0"] stays [-0.0]. *)
Theorem cost_of_edge_numeral edge c (neg : bool) (ds : list ascii) :
  find "cost" edge = Some c ->
  text c = Some (string_of_list_ascii ((if neg then ["-"%char] else []) ++ ds)%list) ->
  ds <> [] -> PyFloat.all_digits ds ->
  cost_of_edge edge =
  Ok (if neg && negb (digits_value ds =? 0)%N then py_zero else PyNum neg (digits_value ds) 0).
Proof.
  intros Hf Ht Hne Hd. unfold cost_of_edge, find_text. rewrite Hf, Ht. simpl.
  rewrite float_of_string_numeral by done. simpl.
  by destruct (neg && negb (digits_value ds =? 0)%N).
Qed.

Lemma extract_node_ok n :
  node_entry_ok n ->
  exists i nm, sole_text "id" n = Some i /\ extract_node n = Ok (NodeRow (Some i) (Some nm)).
Proof.
  intros ([i Hi]&[nm Hnm]). exists i, nm. split; [done|].
  unfold extract_node. by rewrite (find_text_sole _ _ _ Hi), (find_text_sole _ _ _ Hnm).
Qed.

Lemma extract_nodes_ok ns :
  Forall node_entry_ok ns ->
  exists rows, res_mapM extract_node ns = Ok rows /\
               map node_id rows = map Some (node_ids_of ns).
Proof.
  induction 1 as [|n ns Hn _ (rows&Hrows&Hids)]; [by exists []|].
  destruct (extract_node_ok n Hn) as (i&nm&Hi&Hx).
  exists (NodeRow (Some i) (Some nm) :: rows). simpl. rewrite Hx, Hrows.
  split; [done|]. unfold node_ids_of. simpl. rewrite Hi. simpl. by f_equal.
Qed.

Lemma extract_edge_ok ids e :
  edge_entry_ok ids e ->
  exists r, extract_edge e = Ok r /\ edge_row_ok ids r /\ edge_id r = sole_text "id" e.
Proof.
  intros ([i Hi]&(f&Hf&Hfi)&(t&Ht&Hti)&_).
  destruct (cost_of_edge_ok e) as (c&Hc&Hcl).
  exists (EdgeRow (Some i) (Some f) (Some t) c). unfold extract_edge.
  rewrite (find_text_sole _ _ _ Hi), (find_text_sole _ _ _ Hf), (find_text_sole _ _ _ Ht), Hc.
  split; [done|]. unfold edge_row_ok; simpl. split_and!; eauto.
Qed.

Lemma extract_edges_ok ids es :
  Forall (edge_entry_ok ids) es ->
  exists rows, res_mapM extract_edge es = Ok rows /\ Forall (edge_row_ok ids) rows /\
               map edge_id rows = map Some (node_ids_of es).
Proof.
  induction 1 as [|e es He _ (rows&Hrows&Hok&Hids)]; [by exists []|].
  destruct (extract_edge_ok ids e He) as (r&Hx&Hr&Hid).
  exists (r :: rows). simpl. rewrite Hx, Hrows. split_and!; [done|by constructor|].
  destruct He as ([i Hi]&_). unfold node_ids_of. simpl. rewrite Hid, Hi. simpl. by f_equal.
Qed.

Lemma extract_graph_data_ok root ns es :
  graph_schema root ->
  sole_child "nodes" root = Some ns -> sole_child "edges" root = Some es ->
  node_children_only ns -> node_children_only es ->
  exists gid gname nodes edges,
    extract_graph_data root = Ok (Some gid, Some gname, nodes, edges) /\
    sole_text "id" root = Some gid /\ sole_text "name" root = Some gname /\
    map node_id nodes = map Some (node_ids_of (children ns)) /\
    map edge_id edges = map Some (node_ids_of (children es)) /\
    Forall (edge_row_ok (list_to_set (node_ids_of (children ns)))) edges.
Proof.
  intros (_&[gid Hid]&[gn Hgn]&ns'&es'&Hns'&_&Hok&_&Hes'&Hedges) Hns Hes Hnc Hec.
  rewrite Hns in Hns'. injection Hns' as <-. rewrite Hes in Hes'. injection Hes' as <-.
  rewrite findall_all_tagged in Hok, Hedges by done.
  rewrite (findall_all_tagged _ es) in Hedges by done.
  destruct (extract_nodes_ok _ Hok) as (nodes&Hn&Hids).
  destruct (extract_edges_ok _ _ Hedges) as (edges&He&Hrows&Heids).
  exists gid, gn, nodes, edges. split_and!; [|done..].
  unfold extract_graph_data.
  rewrite (find_text_sole _ _ _ Hid), (find_text_sole _ _ _ Hgn).
  simpl. rewrite (iter_find_sole _ _ _ Hns). simpl. rewrite Hn. simpl.
  rewrite (iter_find_sole _ _ _ Hes). simpl. by rewrite He.
Qed.

Lemma verify_unique_ids_of_ids `{FirstField R} (rows : list R) ids :
  map first_field rows = map Some ids -> NoDup ids -> verify_unique_ids rows = true.
Proof.
  intros Hids Hnd. unfold verify_unique_ids. apply len_eq_set_size_NoDup.
  rewrite Hids. by apply NoDup_map_Some.
Qed.

Lemma schema_node_ids_NoDup root ns :
  graph_schema root -> sole_child "nodes" root = Some ns -> node_children_only ns ->
  NoDup (node_ids_of (children ns)).
Proof.
  intros (_&_&_&ns'&es'&Hns'&_&_&Hnd&_) Hns Hnc. rewrite Hns in Hns'.
  injection Hns' as <-. by rewrite findall_all_tagged in Hnd.
Qed.

(** C12: on a document the validator accepts and whose [nodes] and
    [edges] blocks hold only [node] children, extraction succeeds: the
    graph id and name are the texts of the sole [id] and [name]
    children, the node and edge rows carry the identifiers of the
    entries in document order, and every edge row has two endpoints
    among the node identifiers and a cost that is not negative. *)
Theorem extract_after_validation root ns es :
  graph_schema root ->
  sole_child "nodes" root = Some ns -> sole_child "edges" root = Some es ->
  node_children_only ns -> node_children_only es ->
  exists gid gname nodes edges,
    extract_graph_data root = Ok (Some gid, Some gname, nodes, edges) /\
    sole_text "id" root = Some gid /\ sole_text "name" root = Some gname /\
    map node_id nodes = map Some (node_ids_of (children ns)) /\
    map edge_id edges = map Some (node_ids_of (children es)) /\
    Forall (edge_row_ok (list_to_set (node_ids_of (children ns)))) edges.
Proof. apply extract_graph_data_ok. Qed.

(** C13: under the same conditions the node rows pass
    [verify_unique_ids]: the uniqueness check after extraction never
    reports a duplicate node id that the validator let through. *)
Theorem extract_nodes_unique root ns es gid gname nodes edges :
  graph_schema root ->
  sole_child "nodes" root = Some ns -> sole_child "edges" root = Some es ->
  node_children_only ns -> node_children_only es ->
  extract_graph_data root = Ok (gid, gname, nodes, edges) ->
  verify_unique_ids nodes = true.
Proof.
  intros Hs Hns Hes Hnc Hec Hx.
  destruct (extract_graph_data_ok root ns es) as (gid'&gn'&nodes'&edges'&Hx'&_&_&Hids&_);
    try done.
  rewrite Hx in Hx'. injection Hx' as _ _ <- _.
  apply (verify_unique_ids_of_ids _ _ Hids). by eapply schema_node_ids_NoDup.
Qed.

(** C17: [verify_unique_ids] answers [True] exactly when the first
    fields of the rows ([None] included) are pairwise distinct. *)
Theorem verify_unique_ids_spec `{FirstField R} (rows : list R) :
  verify_unique_ids rows = true <-> NoDup (map first_field rows).
Proof. apply len_eq_set_size_NoDup. Qed.

Lemma cost_of_edge_default_witness :
  cost_of_edge (edge_entry "e1" "a" "a" "abc") = Ok py_zero.
Proof.
  apply cost_of_edge_default. right. eexists. split; [reflexivity|].
  right. eexists. split; [reflexivity|vm_compute; reflexivity].
Defined.

Lemma cost_of_edge_numeral_witness :
  cost_of_edge (edge_entry "e1" "a" "a" "-15") = Ok py_zero.
Proof.
  apply (cost_of_edge_numeral _ (leaf "cost" "-15") true ["1"%char; "5"%char]).
  - reflexivity.
  - reflexivity.
  - discriminate.
  - repeat constructor.
Defined.

Lemma extract_after_validation_witness :
  exists gid gname nodes edges,
    extract_graph_data sample_valid = Ok (Some gid, Some gname, nodes, edges) /\
    map node_id nodes = [Some "a"] /\
    Forall (edge_row_ok {["a"]}) edges.
Proof.
  destruct (extract_after_validation sample_valid
              (Element "nodes" None [node_entry "a" "A name"])
              (Element "edges" None [edge_entry "e1" "a" "a" "42"]))
    as (gid&gname&nodes&edges&Hx&_&_&Hids&_&Hok).
  - apply verify_graph_data_root. reflexivity.
  - reflexivity.
  - reflexivity.
  - repeat constructor.
  - repeat constructor.
  - exists gid, gname, nodes, edges. split_and!; [exact Hx|exact Hids|].
    vm_compute in Hok. exact Hok.
Defined.

Lemma extract_nodes_unique_witness :
  verify_unique_ids [NodeRow (Some "a") (Some "A name")] = true.
Proof.
  apply (extract_nodes_unique sample_valid
           (Element "nodes" None [node_entry "a" "A name"])
           (Element "edges" None [edge_entry "e1" "a" "a" "42"])
           (Some "g0") (Some "Name") _
           [EdgeRow (Some "e1") (Some "a") (Some "a") (PyNum false 42 0)]).
  - apply verify_graph_data_root. reflexivity.
  - reflexivity.
  - reflexivity.
  - repeat constructor.
  - repeat constructor.
  - reflexivity.
Defined.

(** [extract_node] either succeeds or raises [AttributeError]. *)
Lemma extract_node_total n :
  extract_node n = Exc AttributeError \/ exists r, extract_node n = Ok r.
Proof.
  unfold extract_node, find_text.
  destruct (find "id" n), (find "name" n); simpl; eauto.
Qed.

(** The edge rows of a successful extraction are the rows of the
    children of the [edges] block, one by one. *)
Lemma extract_graph_data_edges root es gid gname nodes edges :
  sole_child "edges" root = Some es ->
  extract_graph_data root = Ok (gid, gname, nodes, edges) ->
  Forall2 (fun e r => extract_edge e = Ok r) (children es) edges.
Proof.
  intros Hes Hx. unfold extract_graph_data in Hx.
  rewrite (iter_find_sole _ _ _ Hes) in Hx.
  apply bind_eq_Ok in Hx as (?&_&Hx). apply bind_eq_Ok in Hx as (?&_&Hx).
  apply bind_eq_Ok in Hx as (?&_&Hx). apply bind_eq_Ok in Hx as (?&_&Hx).
  simpl in Hx. apply bind_eq_Ok in Hx as (edges'&He&Hq).
  injection Hq as _ _ _ <-. by apply res_mapM_Ok.
Qed.

(** A cost text that Python reads as [nan] gives the cost [nan]: the
    test [cost < 0] is false for it. *)
Lemma cost_of_edge_nan edge c s :
  find "cost" edge = Some c -> text c = Some s -> float_of_string s = Some PyNaN ->
  cost_of_edge edge = Ok PyNaN.
Proof. intros Hf Ht Hs. unfold cost_of_edge, find_text, py_float. rewrite Hf, Ht. simpl. by rewrite Hs. Qed.

Lemma extract_edge_cost e r :
  extract_edge e = Ok r -> cost_of_edge e = Ok (edge_cost r).
Proof.
  unfold extract_edge. intros Hx.
  apply bind_eq_Ok in Hx as (?&_&Hx). apply bind_eq_Ok in Hx as (?&_&Hx).
  apply bind_eq_Ok in Hx as (?&_&Hx). apply bind_eq_Ok in Hx as (c&Hc&[= <-]).
  exact Hc.
Qed.

(** C27: on a document the validator accepts, a child of the [nodes]
    block without an [id] child (the validator only looks at the
    children tagged [node], so such a child has another tag) makes the
    extractor raise [AttributeError], an exception [set_up_graph_data]
    does not catch. *)
Theorem foreign_child_crashes_extraction root ns :
  verify_graph_data (Some root) = inr root ->
  sole_child "nodes" root = Some ns ->
  (exists c, In c (children ns) /\ find "id" c = None) ->
  extract_graph_data root = Exc AttributeError.
Proof.
  intros Hv Hns (c&Hc&Hid). apply verify_graph_data_root in Hv as (_&[gid Hgid]&[gn Hgn]&_).
  unfold extract_graph_data.
  rewrite (find_text_sole _ _ _ Hgid), (find_text_sole _ _ _ Hgn), (iter_find_sole _ _ _ Hns).
  simpl. rewrite (res_mapM_Exc _ _ AttributeError); [done| |].
  - apply List.Forall_forall. intros n _. apply extract_node_total.
  - apply List.Exists_exists. exists c. split; [done|]. unfold extract_node, find_text. by rewrite Hid.
Qed.

(** Such a child that repeats a node identifier passes the
    validator and the extractor, and only [verify_unique_ids] rejects the
    node rows: the second uniqueness check is reachable. *)
Theorem foreign_duplicate_caught_by_unique_check :
  verify_graph_data (Some sample_foreign_duplicate) = inr sample_foreign_duplicate /\
  exists gid gname nodes edges,
    extract_graph_data sample_foreign_duplicate = Ok (gid, gname, nodes, edges) /\
    verify_unique_ids nodes = false.
Proof. split; [reflexivity|]. do 4 eexists. split; [reflexivity|vm_compute; reflexivity]. Qed.

(** C28: on a document the validator accepts whose [nodes] and [edges]
    blocks hold only [node] children, an edge whose [cost] text Python
    reads as [nan] gives an edge row of cost [nan]: the rule meant to
    keep costs non-negative lets it through, and [nan >= 0] is false. *)
Theorem nan_cost_extracted root ns es e c s :
  verify_graph_data (Some root) = inr root ->
  sole_child "nodes" root = Some ns -> sole_child "edges" root = Some es ->
  node_children_only ns -> node_children_only es ->
  In e (children es) -> find "cost" e = Some c -> text c = Some s ->
  float_of_string s = Some PyNaN ->
  exists gid gname nodes edges r,
    extract_graph_data root = Ok (Some gid, Some gname, nodes, edges) /\
    In r edges /\ extract_edge e = Ok r /\ edge_cost r = PyNaN /\ py_ge_zero (edge_cost r) = false.
Proof.
  intros Hv Hns Hes Hnc Hec He Hf Ht Hs. apply verify_graph_data_root in Hv.
  destruct (extract_graph_data_ok root ns es Hv Hns Hes Hnc Hec) as (gid&gn&nodes&edges&Hx&_).
  destruct (Forall2_In_l _ _ _ e (extract_graph_data_edges _ _ _ _ _ _ Hes Hx) He) as (r&Hr&Hxr).
  pose proof (extract_edge_cost _ _ Hxr) as Hc. rewrite (cost_of_edge_nan _ _ _ Hf Ht Hs) in Hc.
  injection Hc as Hc. exists gid, gn, nodes, edges, r. by rewrite <- Hc.
Qed.

Lemma foreign_child_crashes_extraction_witness :
  extract_graph_data sample_foreign_child = Exc AttributeError.
Proof.
  apply (foreign_child_crashes_extraction _ (Element "nodes" None [node_entry "a" "A name"; Element "comment" None []])).
  - reflexivity.
  - reflexivity.
  - exists (Element "comment" None []). split; [right; left; reflexivity|reflexivity].
Defined.

Lemma nan_cost_extracted_witness :
  exists gid gname nodes edges r,
    extract_graph_data sample_nan_cost = Ok (Some gid, Some gname, nodes, edges) /\
    In r edges /\ extract_edge (edge_entry "e1" "a" "a" "nan") = Ok r /\
    edge_cost r = PyNaN /\ py_ge_zero (edge_cost r) = false.
Proof.
  apply (nan_cost_extracted _ (Element "nodes" None [node_entry "a" "A name"])
           (Element "edges" None [edge_entry "e1" "a" "a" "nan"]) _ (leaf "cost" "nan") "nan").
  - reflexivity.
  - reflexivity.
  - reflexivity.
  - repeat constructor.
  - repeat constructor.
  - left. reflexivity.
  - reflexivity.
  - reflexivity.
  - vm_compute. reflexivity.
Defined.

End Extractor.
