(* ===== verification/Store.v ===== *)
(** The database and the active-graph register, as the ingest side
    writes them and the query side reads them.

    [Store] models the three tables [graphs], [nodes] and [edges] that
    [insert_graph_data] (lines 188-197 of [src/downloader/setup.py])
    fills and [graph_id_exists] (lines 179-185) reads. The table
    definitions are not part of the repository; the model assumes the
    primary keys of the schema the test module documents: [graph_id] for
    [graphs], [(node_id, graph_id)] for [nodes], [(edge_id, graph_id)] for
    [edges]. A key column receiving [None] (SQL [NULL]) or a key already
    present raises [IntegrityError]. The [with get_db_connection() as
    conn] block rolls the transaction back on an exception, so a failed
    [insert_graph_data] leaves the database as it was: the caller keeps
    the old value.

    [Registry] models the file [graph_id.txt]: [set_graph_id]
    (lines 200-203) truncates it and writes the identifier,
    [get_graph_id] ([src/query_service/query_listener.py], lines 9-11)
    reads it back and strips the whitespace around it. *)

From S2P Require Import Prelude PyFloat Extractor.
Import PyFloat Extractor.
Local Open Scope string_scope.
Local Open Scope list_scope.
Set Warnings "-clear-no-such-hyp".

Module Store.

Record db := DB {
  graphs : gmap string (option string);
  nodes : gmap (string * string) (option string);
  edges : gmap (string * string) (option string * option string * pyfloat)
}.

Definition empty_db : db := DB ∅ ∅ ∅.

Definition null_key : exc := IntegrityError "null value in a key column".
Definition duplicate_key : exc := IntegrityError "duplicate key value".

(** [INSERT INTO public.graphs (graph_id, name) VALUES (%s, %s)] *)
Definition insert_graph_row (gid name : option string) (d : db) : res db :=
  match gid with
  | None => Exc null_key
  | Some g =>
      match graphs d !! g with
      | Some _ => Exc duplicate_key
      | None => Ok (DB (<[g := name]> (graphs d)) (nodes d) (edges d))
      end
  end.

(** [INSERT INTO public.nodes (node_id, name, graph_id) VALUES (...)] *)
Definition insert_node_row (gid : option string) (d : db) (n : node_row) : res db :=
  match node_id n, gid with
  | Some i, Some g =>
      match nodes d !! (i, g) with
      | Some _ => Exc duplicate_key
      | None => Ok (DB (graphs d) (<[(i, g) := node_name n]> (nodes d)) (edges d))
      end
  | _, _ => Exc null_key
  end.

(** [INSERT INTO public.edges (edge_id, from_node, to_node, cost, graph_id) VALUES (...)] *)
Definition insert_edge_row (gid : option string) (d : db) (e : edge_row) : res db :=
  match edge_id e, gid with
  | Some i, Some g =>
      match edges d !! (i, g) with
      | Some _ => Exc duplicate_key
      | None =>
          Ok (DB (graphs d) (nodes d)
                 (<[(i, g) := (edge_from e, edge_to e, edge_cost e)]> (edges d)))
      end
  | _, _ => Exc null_key
  end.

(** The graph row, then every node row, then every edge row, committed
    together; an exception rolls everything back. *)
Definition insert_graph_data
    (graph_data : option string * option string * list node_row * list edge_row)
    (d : db) : res db :=
  let '(gid, gname, ns, es) := graph_data in
  d1 ← insert_graph_row gid gname d;
  d2 ← res_foldM (insert_node_row gid) ns d1;
  res_foldM (insert_edge_row gid) es d2.
Arguments insert_graph_data : simpl never.

(** [SELECT graph_id FROM public.graphs WHERE graph_id = %s]: a [NULL]
    parameter matches no row. *)
Definition graph_id_exists (gid : option string) (d : db) : bool :=
  match gid with
  | Some g => bool_decide (is_Some (graphs d !! g))
  | None => false
  end.

(** Referential integrity: every node and edge row belongs to a stored
    graph. *)
Definition store_wf (d : db) : Prop :=
  (forall i g, is_Some (nodes d !! (i, g)) -> is_Some (graphs d !! g)) /\
  (forall i g, is_Some (edges d !! (i, g)) -> is_Some (graphs d !! g)).

(** The rows a database holds for graph [g]. *)
Definition rows_of_other_graphs (g : string) (d d' : db) : Prop :=
  forall g', g' <> g ->
    graphs d' !! g' = graphs d !! g' /\
    (forall i, nodes d' !! (i, g') = nodes d !! (i, g')) /\
    (forall i, edges d' !! (i, g') = edges d !! (i, g')).

Lemma insert_node_row_wf g d n d' :
  store_wf d -> is_Some (graphs d !! g) ->
  insert_node_row (Some g) d n = Ok d' -> store_wf d' /\ graphs d' = graphs d.
Proof.
  intros [Hn He] Hg. unfold insert_node_row.
  destruct (node_id n) as [i|]; [|discriminate].
  destruct (nodes d !! (i, g)); [discriminate|]. intros [= <-]; simpl.
  split; [|done]. split; [|done]. intros i' g'. simpl.
  rewrite lookup_insert. case_decide as Heq; [injection Heq as <- <-; done|]. apply Hn.
Qed.

Lemma insert_edge_row_wf g d e d' :
  store_wf d -> is_Some (graphs d !! g) ->
  insert_edge_row (Some g) d e = Ok d' -> store_wf d' /\ graphs d' = graphs d.
Proof.
  intros [Hn He] Hg. unfold insert_edge_row.
  destruct (edge_id e) as [i|]; [|discriminate].
  destruct (edges d !! (i, g)); [discriminate|]. intros [= <-]; simpl.
  split; [|done]. split; [done|]. intros i' g'. simpl.
  rewrite lookup_insert. case_decide as Heq; [injection Heq as <- <-; done|]. apply He.
Qed.

(** A successful [insert_graph_data] keeps referential integrity. *)
Lemma insert_graph_data_wf data d d' :
  store_wf d -> insert_graph_data data d = Ok d' -> store_wf d'.
Proof.
  destruct data as [[[gid gname] ns] es]. unfold insert_graph_data.
  intros Hwf. destruct (insert_graph_row gid gname d) as [d1|] eqn:H1; simpl; [|discriminate].
  unfold insert_graph_row in H1. destruct gid as [g|]; [|discriminate].
  destruct (graphs d !! g) eqn:Hg; [discriminate|]. injection H1 as <-.
  destruct (res_foldM (insert_node_row (Some g)) ns _) as [d2|] eqn:H2; simpl; [|discriminate].
  pose (P := fun a => store_wf a /\ is_Some (graphs a !! g)).
  assert (P (DB (<[g:=gname]> (graphs d)) (nodes d) (edges d))) as HP1.
  { destruct Hwf as [Hn He]. split; [split|]; simpl; intros *; rewrite ?lookup_insert_is_Some';
      [intros ?; right; by eapply Hn|intros ?; right; by eapply He|]. by left. }
  assert (P d2) as HP2.
  { revert H2. apply res_foldM_inv; [|done]. intros a n a' _ [Hw Hga] Ha.
    destruct (insert_node_row_wf g a n a' Hw Hga Ha) as [Hw' Heq].
    split; [done|]. by rewrite Heq. }
  intros H3. refine (proj1 (res_foldM_inv P _ _ _ _ _ HP2 H3)).
  intros a e a' _ [Hw Hga] Ha.
  destruct (insert_edge_row_wf g a e a' Hw Hga Ha) as [Hw' Heq].
  split; [done|]. by rewrite Heq.
Qed.

Lemma insert_nodes_ok g ns : forall d,
  Forall (fun n => is_Some (node_id n)) ns -> NoDup (map node_id ns) ->
  (forall n i, n ∈ ns -> node_id n = Some i -> nodes d !! (i, g) = None) ->
  exists d', res_foldM (insert_node_row (Some g)) ns d = Ok d' /\
    graphs d' = graphs d /\ edges d' = edges d /\
    (forall i g', g' <> g -> nodes d' !! (i, g') = nodes d !! (i, g')).
Proof.
  induction ns as [|n ns IH]; intros d Hsome Hnd Hfresh; simpl; [by exists d|].
  inversion Hsome as [|? ? [i Hi] Hs']; subst. inversion Hnd as [|? ? Hnin Hnd']; subst.
  assert (insert_node_row (Some g) d n = Ok (DB (graphs d) (<[(i, g):=node_name n]> (nodes d)) (edges d))) as ->.
  { unfold insert_node_row. rewrite Hi, (Hfresh n i); [done|set_solver|done]. }
  simpl.
  destruct (IH (DB (graphs d) (<[(i, g):=node_name n]> (nodes d)) (edges d)))
    as (d'&Hd'&Hg&He&Hf); [done|done| |].
  - intros n' i' Hn' Hi'. simpl. rewrite lookup_insert_ne; [apply (Hfresh n' i'); [set_solver|done]|].
    intros [= ->]. apply Hnin. rewrite Hi, <- Hi'.
    apply list_elem_of_In, in_map, list_elem_of_In, Hn'.
  - exists d'. split_and!; [done|done|done|]. intros i' g' Hne.
    rewrite Hf by done. simpl. rewrite lookup_insert_ne; [done|congruence].
Qed.

Lemma insert_edges_ok g es : forall d,
  Forall (fun e => is_Some (edge_id e)) es -> NoDup (map edge_id es) ->
  (forall e i, e ∈ es -> edge_id e = Some i -> edges d !! (i, g) = None) ->
  exists d', res_foldM (insert_edge_row (Some g)) es d = Ok d' /\
    graphs d' = graphs d /\ nodes d' = nodes d /\
    (forall i g', g' <> g -> edges d' !! (i, g') = edges d !! (i, g')).
Proof.
  induction es as [|e es IH]; intros d Hsome Hnd Hfresh; simpl; [by exists d|].
  inversion Hsome as [|? ? [i Hi] Hs']; subst. inversion Hnd as [|? ? Hnin Hnd']; subst.
  assert (insert_edge_row (Some g) d e = Ok (DB (graphs d) (nodes d) (<[(i, g):=(edge_from e, edge_to e, edge_cost e)]> (edges d)))) as ->.
  { unfold insert_edge_row. rewrite Hi, (Hfresh e i); [done|set_solver|done]. }
  simpl.
  destruct (IH (DB (graphs d) (nodes d)
                   (<[(i, g):=(edge_from e, edge_to e, edge_cost e)]> (edges d))))
    as (d'&Hd'&Hg&Hn&Hf); [done|done| |].
  - intros e' i' He' Hi'. simpl. rewrite lookup_insert_ne; [apply (Hfresh e' i'); [set_solver|done]|].
    intros [= ->]. apply Hnin. rewrite Hi, <- Hi'.
    apply list_elem_of_In, in_map, list_elem_of_In, He'.
  - exists d'. split_and!; [done|done|done|]. intros i' g' Hne.
    rewrite Hf by done. simpl. rewrite lookup_insert_ne; [done|congruence].
Qed.

Lemma insert_node_row_graphs gid a n a' :
  insert_node_row gid a n = Ok a' -> graphs a' = graphs a.
Proof. unfold insert_node_row. repeat case_match; by intros [= <-]. Qed.

Lemma insert_edge_row_graphs gid a e a' :
  insert_edge_row gid a e = Ok a' -> graphs a' = graphs a.
Proof. unfold insert_edge_row. repeat case_match; by intros [= <-]. Qed.

Lemma insert_graph_data_graph g name ns es d d' :
  insert_graph_data (Some g, name, ns, es) d = Ok d' -> graphs d' !! g = Some name.
Proof.
  unfold insert_graph_data, insert_graph_row.
  destruct (graphs d !! g) eqn:Hg; simpl; [discriminate|].
  destruct (res_foldM (insert_node_row (Some g)) ns _) as [d2|] eqn:H2; simpl; [|discriminate].
  intros H3. apply (res_foldM_inv (fun a => graphs a !! g = Some name)) in H3; [done| |].
  - intros a e a' _ Ha Hx. by rewrite (insert_edge_row_graphs _ _ _ _ Hx).
  - apply (res_foldM_inv (fun a => graphs a !! g = Some name)) in H2; [done| |].
    + intros a n a' _ Ha Hx. by rewrite (insert_node_row_graphs _ _ _ _ Hx).
    + simpl. apply lookup_insert_eq.
Qed.

(** Inserting a graph whose identifier is not stored yet, with
    present and pairwise distinct node and edge identifiers, succeeds; it
    adds the graph row and touches no row of any other graph. *)
Lemma insert_graph_data_fresh d g name ns es :
  store_wf d -> graphs d !! g = None ->
  Forall (fun n => is_Some (node_id n)) ns -> NoDup (map node_id ns) ->
  Forall (fun e => is_Some (edge_id e)) es -> NoDup (map edge_id es) ->
  exists d', insert_graph_data (Some g, name, ns, es) d = Ok d' /\
    graphs d' = <[g:=name]> (graphs d) /\ rows_of_other_graphs g d d'.
Proof.
  intros [Hwn Hwe] Hg Hns Hndn Hes Hnde. unfold insert_graph_data, insert_graph_row.
  rewrite Hg. simpl.
  destruct (insert_nodes_ok g ns (DB (<[g:=name]> (graphs d)) (nodes d) (edges d)))
    as (d2&H2&Hg2&He2&Hf2); [done|done| |].
  { intros n i _ _. simpl. destruct (nodes d !! (i, g)) eqn:E; [|done].
    destruct (Hwn i g) as [? Hx]; [by eexists|congruence]. }
  rewrite H2. simpl.
  destruct (insert_edges_ok g es d2) as (d3&H3&Hg3&Hn3&Hf3); [done|done| |].
  { intros e i _ _. rewrite He2. simpl. destruct (edges d !! (i, g)) eqn:E; [|done].
    destruct (Hwe i g) as [? Hx]; [by eexists|congruence]. }
  exists d3. split_and!; [done|by rewrite Hg3, Hg2|].
  intros g' Hne. split_and!.
  - rewrite Hg3, Hg2. simpl. by rewrite lookup_insert_ne by congruence.
  - intros i. rewrite Hn3, Hf2 by done. done.
  - intros i. rewrite Hf3, He2 by done. done.
Qed.

Lemma empty_db_wf : store_wf empty_db.
Proof. split; intros i g; simpl; rewrite lookup_empty; by intros []. Qed.

(** ** All the rows of a table inserted one after the other *)

Section keyed_insert.
Context {R V : Type} (key : R -> option string) (tbl : db -> gmap (string * string) V).
Variable step : option string -> db -> R -> res db.

(** One insertion into the table succeeds only for a present key not
    stored yet, and then stores it, keeping every stored key. *)
Hypothesis step_inv : forall g d r d', step (Some g) d r = Ok d' ->
  exists i, key r = Some i /\ tbl d !! (i, g) = None /\ is_Some (tbl d' !! (i, g)) /\
            (forall k, is_Some (tbl d !! k) -> is_Some (tbl d' !! k)).

Lemma insert_rows_inv g rs : forall d d',
  res_foldM (step (Some g)) rs d = Ok d' ->
  Forall (fun r => is_Some (key r)) rs /\ NoDup (map key rs) /\
  (forall r i, r ∈ rs -> key r = Some i -> tbl d !! (i, g) = None).
Proof.
  induction rs as [|r rs IH]; intros d d' H; simpl in H.
  { split_and!; [constructor|constructor|set_solver]. }
  destruct (step (Some g) d r) as [d1|] eqn:Hs; [|discriminate]. simpl in H.
  destruct (step_inv _ _ _ _ Hs) as (i&Hi&Hfresh&Hin&Hmono).
  destruct (IH _ _ H) as (Hsome&Hnd&Hf). split_and!.
  - constructor; [by rewrite Hi|done].
  - simpl. constructor; [|done]. rewrite Hi. intros (r'&Hr'&Hin')%list_elem_of_In%in_map_iff.
    apply list_elem_of_In in Hin'. rewrite (Hf r' i Hin' Hr') in Hin. by destruct Hin.
  - intros r' i' [->|Hr']%elem_of_cons Hi'; [congruence|].
    destruct (tbl d !! (i', g)) eqn:E; [|done].
    pose proof (Hmono (i', g) ltac:(by rewrite E)) as Hx. by rewrite (Hf r' i' Hr' Hi') in Hx.
Qed.

End keyed_insert.

Lemma insert_node_row_inv g d n d' : insert_node_row (Some g) d n = Ok d' ->
  exists i, node_id n = Some i /\ nodes d !! (i, g) = None /\ is_Some (nodes d' !! (i, g)) /\
            (forall k, is_Some (nodes d !! k) -> is_Some (nodes d' !! k)).
Proof.
  unfold insert_node_row. destruct (node_id n) as [i|]; [|discriminate].
  destruct (nodes d !! (i, g)) eqn:E; [discriminate|]. intros [= <-].
  exists i. simpl. split_and!; [done|done|by rewrite lookup_insert_eq|].
  intros k. rewrite lookup_insert_is_Some'. by right.
Qed.

Lemma insert_edge_row_inv g d e d' : insert_edge_row (Some g) d e = Ok d' ->
  exists i, edge_id e = Some i /\ edges d !! (i, g) = None /\ is_Some (edges d' !! (i, g)) /\
            (forall k, is_Some (edges d !! k) -> is_Some (edges d' !! k)).
Proof.
  unfold insert_edge_row. destruct (edge_id e) as [i|]; [|discriminate].
  destruct (edges d !! (i, g)) eqn:E; [discriminate|]. intros [= <-].
  exists i. simpl. split_and!; [done|done|by rewrite lookup_insert_eq|].
  intros k. rewrite lookup_insert_is_Some'. by right.
Qed.

(** C15: on a database with referential integrity, inserting a graph
    succeeds exactly when its identifier is not stored yet and its node
    identifiers, and its edge identifiers, are all present ([NOT NULL])
    and pairwise distinct; otherwise it raises and, the transaction
    being rolled back, leaves the database as it was. *)
Theorem insert_graph_data_ok_iff d g name ns es :
  store_wf d ->
  (exists d', insert_graph_data (Some g, name, ns, es) d = Ok d') <->
  graphs d !! g = None /\
  Forall (fun n => is_Some (node_id n)) ns /\ NoDup (map node_id ns) /\
  Forall (fun e => is_Some (edge_id e)) es /\ NoDup (map edge_id es).
Proof.
  intros Hwf. split.
  - intros [d' H]. unfold insert_graph_data, insert_graph_row in H.
    destruct (graphs d !! g) eqn:Hg; [discriminate|]. simpl in H.
    destruct (res_foldM (insert_node_row (Some g)) ns _) as [d2|] eqn:H2; [|discriminate].
    simpl in H.
    destruct (insert_rows_inv node_id nodes insert_node_row insert_node_row_inv g ns _ _ H2)
      as (?&?&_).
    destruct (insert_rows_inv edge_id edges insert_edge_row insert_edge_row_inv g es _ _ H)
      as (?&?&_).
    done.
  - intros (Hg&?&?&?&?). destruct (insert_graph_data_fresh d g name ns es) as (d'&?&_); eauto.
Qed.

Lemma insert_graph_data_ok_iff_witness :
  let ns := [NodeRow (Some "a") (Some "A"); NodeRow (Some "a") (Some "B")] in
  store_wf empty_db /\
  ((exists d', insert_graph_data (Some "g0", Some "Name", ns, []) empty_db = Ok d') <->
   graphs empty_db !! "g0" = None /\
   Forall (fun n => is_Some (node_id n)) ns /\ NoDup (map node_id ns) /\
   Forall (fun e => is_Some (edge_id e)) ([] : list edge_row) /\
   NoDup (map edge_id ([] : list edge_row))).
Proof.
  intros ns. split; [apply empty_db_wf|].
  apply insert_graph_data_ok_iff. apply empty_db_wf.
Defined.

(** Two nodes with one identifier: the second insertion raises. *)
Example insert_duplicate_node_rejected :
  insert_graph_data (Some "g0", Some "Name",
                     [NodeRow (Some "a") (Some "A"); NodeRow (Some "a") (Some "B")], []) empty_db
  = Exc duplicate_key.
Proof. reflexivity. Qed.

End Store.

Module Registry.

(** [open("graph_id.txt", "w")] empties the file before [f.write]; writing
    [None] raises [TypeError] and leaves the file empty. *)
Definition set_graph_id (graph_id : option string) : option string * res unit :=
  match graph_id with
  | Some g => (Some g, Ok tt)
  | None => (Some "", Exc TypeError)
  end.

(** [open("graph_id.txt", "r").read().strip()] *)
Definition get_graph_id (file : option string) : res string :=
  match file with
  | None => Exc FileNotFoundError
  | Some s => Ok (py_strip s)
  end.

End Registry.
