(* ===== verification/Setup.v ===== *)
(** The ingest pipeline: [set_up_graph_data] of
    [src/downloader/setup.py] (lines 10-32).

    The world the pipeline acts on is the file [graph_id.txt], the
    database and the lines printed on standard output. The download is an
    input ([fetch]): [FetchFailed] is [download_graph] returning [None]
    (a status other than 200), [Fetched doc] is a body whose XML parse is
    [doc]. One run is [set_up_graph_data fetch w = (w', r)]: [r] is
    [Exc e] when an exception escapes the function (the output printed so
    far and the file written so far stay; the database transaction is
    rolled back).

    The runs of the ingest process form the relation [ingest_step];
    [ingest_reachable] is its reflexive-transitive closure from the empty
    world. *)

From S2P Require Import Prelude Xml PyFloat Validator Extractor Store.
Import ElementTree PyFloat Validator Extractor Store Registry.
Local Open Scope string_scope.
Local Open Scope list_scope.
Set Warnings "-clear-no-such-hyp".

Module Setup.

Inductive fetch :=
| FetchFailed
| Fetched (doc : option element).

Record world := World {
  graph_id_file : option string;
  database : db;
  stdout : list string
}.

Definition empty_world : world := World None empty_db [].

Definition msg_running := "Running initial graph data setup...".
Definition msg_download := "Problem downloading graph data.".
Definition msg_validate := "Problem validating graph data.".
Definition msg_unique_nodes := "Problem validating unique node IDs.".
Definition msg_unique_edges := "Problem validating unique edge IDs.".
Definition msg_exists := "Graph ID already exists.".
Definition msg_success := "Graph data successfully inserted.".

(** [print(line)] *)
Definition say (w : world) (line : string) : world :=
  World (graph_id_file w) (database w) (stdout w ++ [line])%list.

Definition set_up_graph_data (f : fetch) (w : world) : world * res unit :=
  match f with
  | FetchFailed => (say w msg_download, Ok tt)
  | Fetched doc =>
      match verify_graph_data doc with
      | inl err => (say (say w (verify_error_message err)) msg_validate, Ok tt)
      | inr xml_data =>
          match extract_graph_data xml_data with
          | Exc e => (w, Exc e)
          | Ok (graph_id, graph_name, nodes, edges) =>
              if negb (verify_unique_ids nodes) then (say w msg_unique_nodes, Ok tt)
              else if negb (verify_unique_ids edges) then (say w msg_unique_edges, Ok tt)
              else
                let '(file', written) := set_graph_id graph_id in
                let w1 := World file' (database w) (stdout w) in
                match written with
                | Exc e => (w1, Exc e)
                | Ok _ =>
                    if graph_id_exists graph_id (database w1) then (say w1 msg_exists, Ok tt)
                    else
                      match insert_graph_data (graph_id, graph_name, nodes, edges)
                              (database w1) with
                      | Exc e => (w1, Exc e)
                      | Ok d' => (say (World file' d' (stdout w)) msg_success, Ok tt)
                      end
                end
          end
      end
  end.

(** The lines one run prints when it returns normally. *)
Definition report_lines (out : list string) : Prop :=
  out = [msg_download] \/
  (exists e, out = [verify_error_message e; msg_validate]) \/
  out = [msg_unique_nodes] \/ out = [msg_unique_edges] \/
  out = [msg_exists] \/ out = [msg_success].

(** One run of the ingest process ([run_setup] of [src/manager.py]),
    whatever the download gives. *)
Inductive ingest_step : world -> world -> Prop :=
| ingest_run f w : ingest_step w (fst (set_up_graph_data f (say w msg_running))).

Definition ingest_reachable (w : world) : Prop := rtc ingest_step empty_world w.

(** A node entry whose [id] and [name] are empty, outside any [node] tag:
    its row is [(None, None)]. *)
Definition sample_null_node_id : element :=
  graph_doc [node_entry "a" "A name"; Element "extra" None [Element "id" None []; Element "name" None []]]
            [edge_entry "e1" "a" "a" "42"].

(** A graph identifier written with spaces around it, [<id> g0 </id>]. *)
Definition sample_padded_id : element :=
  Element "graph" None
    [leaf "id" " g0 "; leaf "name" "Name";
     Element "nodes" None [node_entry "a" "A name"];
     Element "edges" None [edge_entry "e1" "a" "a" "42"]].

(** Unfold one run and split it along the branches of the source. *)
Ltac ingest_cases H :=
  unfold set_up_graph_data, set_graph_id in H;
  repeat (case_match; simplify_eq/=).

(** ** Lemmas on one run *)

(** The register and the database after a run, and its outcome, depend
    on the register and the database before it, not on what was printed. *)
Lemma set_up_graph_data_state f w1 w2 :
  graph_id_file w1 = graph_id_file w2 -> database w1 = database w2 ->
  graph_id_file (fst (set_up_graph_data f w1)) = graph_id_file (fst (set_up_graph_data f w2)) /\
  database (fst (set_up_graph_data f w1)) = database (fst (set_up_graph_data f w2)) /\
  snd (set_up_graph_data f w1) = snd (set_up_graph_data f w2).
Proof.
  destruct w1 as [g d o1], w2 as [g' d' o2]; simpl; intros <- <-.
  unfold set_up_graph_data, set_graph_id. by repeat (case_match; simpl).
Qed.

(** C18: a run that returns prints exactly one of the fixed reports,
    two lines for a validation failure (the validator's diagnostic, then
    "Problem validating graph data."), one line otherwise; a run that
    raises prints nothing. *)
Theorem set_up_graph_data_output f w w' r :
  set_up_graph_data f w = (w', r) ->
  (r = Ok tt /\ exists out, report_lines out /\ stdout w' = stdout w ++ out) \/
  (exists e, r = Exc e /\ stdout w' = stdout w).
Proof.
  intros H. ingest_cases H; unfold report_lines; rewrite <- ?app_assoc;
    first [right; by eexists | left; split; [done|]; eexists; split; [|reflexivity]; naive_solver].
Qed.

(** Two different reports leave different outputs. *)
Ltac out_mismatch H :=
  rewrite <- ?app_assoc in H; apply app_inv_head in H; discriminate H.

(** C4: the database changes only in a run that prints the success
    line, and then by the whole of [insert_graph_data]: no run leaves a
    partial graph behind. *)
Theorem set_up_graph_data_atomic f w w' r :
  set_up_graph_data f w = (w', r) ->
  database w' = database w \/
  (r = Ok tt /\ stdout w' = stdout w ++ [msg_success] /\
   exists data, insert_graph_data data (database w) = Ok (database w')).
Proof. intros H. ingest_cases H; first [by left | right; split_and!; eauto]. Qed.

(** C19: a run refused with "Graph ID already exists." has still
    replaced the active graph register with that identifier, although the
    graph was not ingested ([set_graph_id] runs before [graph_id_exists]). *)
Theorem set_up_graph_data_exists_overwrites f w w' :
  set_up_graph_data f w = (w', Ok tt) ->
  stdout w' = stdout w ++ [msg_exists] ->
  exists g, graph_id_file w' = Some g /\ graph_id_exists (Some g) (database w) = true /\
            database w' = database w.
Proof. intros H Hout. ingest_cases H; try out_mismatch Hout. eauto. Qed.

(** C20: a run that prints the success line has stored a graph whose
    identifier was not stored before, and the register names it. *)
Theorem set_up_graph_data_success f w w' :
  set_up_graph_data f w = (w', Ok tt) ->
  stdout w' = stdout w ++ [msg_success] ->
  exists g, graph_id_file w' = Some g /\ graph_id_exists (Some g) (database w) = false /\
            graph_id_exists (Some g) (database w') = true.
Proof.
  intros H Hout. ingest_cases H; try out_mismatch Hout.
  match goal with
  | Hi : insert_graph_data (Some ?g, _, _, _) _ = Ok _ |- _ =>
      exists g; split_and!; [done|done|]; unfold graph_id_exists;
      rewrite (insert_graph_data_graph _ _ _ _ _ _ Hi); by apply bool_decide_eq_true_2
  end.
Qed.

(** C5: every world the ingest process can reach from the empty world
    keeps referential integrity in the database. *)
Theorem ingest_reachable_wf w : ingest_reachable w -> store_wf (database w).
Proof.
  unfold ingest_reachable.
  enough (forall w0, rtc ingest_step w0 w -> store_wf (database w0) -> store_wf (database w))
    by (intros Hr; apply (H _ Hr), empty_db_wf).
  induction 1 as [|w0 w1 w2 Hstep _ IH]; intros Hwf; [done|]. apply IH.
  inversion Hstep as [f w]; subst.
  destruct (set_up_graph_data f (say w0 msg_running)) as [w' r] eqn:E. simpl.
  ingest_cases E; try done; by eapply insert_graph_data_wf.
Qed.

(** A run keeps referential integrity. *)
Lemma set_up_graph_data_wf f w :
  store_wf (database w) -> store_wf (database (fst (set_up_graph_data f w))).
Proof.
  intros Hwf. destruct (set_up_graph_data f w) as [w' r] eqn:E. simpl.
  ingest_cases E; try done; by eapply insert_graph_data_wf.
Qed.

(** A valid document with a new identifier is stored. *)
Lemma set_up_graph_data_fresh_run root ns es gid w :
  graph_schema root -> sole_text "id" root = Some gid ->
  sole_child "nodes" root = Some ns -> sole_child "edges" root = Some es ->
  node_children_only ns -> node_children_only es ->
  NoDup (node_ids_of (children es)) ->
  store_wf (database w) -> graphs (database w) !! gid = None ->
  exists d', set_up_graph_data (Fetched (Some root)) w =
               (World (Some gid) d' (stdout w ++ [msg_success]), Ok tt) /\
             exists name, graphs d' = <[gid:=name]> (graphs (database w)).
Proof.
  intros Hs Hgid Hns Hes Hnc Hec Hend Hwf Hfresh.
  destruct (extract_graph_data_ok root ns es) as (gid'&gn&nodes&edges&Hx&Hgid'&_&Hnids&Heids&_);
    try done.
  rewrite Hgid in Hgid'. injection Hgid' as <-.
  assert (Hun : verify_unique_ids nodes = true).
  { apply (verify_unique_ids_of_ids _ _ Hnids). by eapply schema_node_ids_NoDup. }
  assert (Hue : verify_unique_ids edges = true) by apply (verify_unique_ids_of_ids _ _ Heids Hend).
  destruct (insert_graph_data_fresh (database w) gid (Some gn) nodes edges) as (d'&Hi&Hg&_);
    try done.
  - by eapply map_Some_is_Some.
  - by apply len_eq_set_size_NoDup in Hun.
  - by eapply map_Some_is_Some.
  - by apply len_eq_set_size_NoDup in Hue.
  - exists d'. split.
    + unfold set_up_graph_data.
      rewrite (proj2 (verify_graph_data_root _) Hs), Hx, Hun, Hue. simpl.
      unfold graph_id_exists. rewrite Hfresh. simpl. by rewrite Hi.
    + by eexists.
Qed.

(** C6: a document the validator accepts, whose blocks hold only
    [node] children, whose edge identifiers are distinct and whose graph
    identifier is new, is ingested: the run prints the success line,
    writes the identifier to the register and stores the graph. *)
Theorem set_up_graph_data_ingests root ns es gid w :
  graph_schema root -> sole_text "id" root = Some gid ->
  sole_child "nodes" root = Some ns -> sole_child "edges" root = Some es ->
  node_children_only ns -> node_children_only es ->
  NoDup (node_ids_of (children es)) ->
  store_wf (database w) -> graphs (database w) !! gid = None ->
  exists d', set_up_graph_data (Fetched (Some root)) w =
               (World (Some gid) d' (stdout w ++ [msg_success]), Ok tt) /\
             is_Some (graphs d' !! gid).
Proof.
  intros Hs Hgid Hns Hes Hnc Hec Hend Hwf Hfresh.
  destruct (set_up_graph_data_fresh_run root ns es gid w) as (d'&Hrun&name&Hg); try done.
  exists d'. split; [done|]. rewrite Hg, lookup_insert_eq. by eexists.
Qed.

(** C29: a run that raises after [set_graph_id] has replaced the
    register leaves the database as it was, and the register names a
    graph that is not stored (or is empty, when the document has no graph
    identifier and [f.write(None)] raised): an insertion refused by the
    database, for example on a [NULL] node identifier, is rolled back but
    the register it wrote is not. *)
Theorem dangling_register f w w' e g :
  set_up_graph_data f w = (w', Exc e) ->
  graph_id_file w' = Some g -> graph_id_file w <> Some g ->
  database w' = database w /\ (g = "" \/ graph_id_exists (Some g) (database w') = false).
Proof. intros H Hg Hne. ingest_cases H; first [congruence | split; [done|]; auto]. Qed.

(** C30: a document the validator accepts whose graph identifier has
    whitespace around it, and is otherwise ingested, is stored under the
    identifier as written, while the register is read back stripped: when
    the stripped identifier is not stored, the query side asks for a graph
    the database does not hold. *)
Theorem padded_graph_id_mismatch root ns es gid w :
  graph_schema root -> sole_text "id" root = Some gid ->
  sole_child "nodes" root = Some ns -> sole_child "edges" root = Some es ->
  node_children_only ns -> node_children_only es ->
  NoDup (node_ids_of (children es)) ->
  store_wf (database w) -> graphs (database w) !! gid = None ->
  py_strip gid <> gid -> graphs (database w) !! py_strip gid = None ->
  exists d', set_up_graph_data (Fetched (Some root)) w =
               (World (Some gid) d' (stdout w ++ [msg_success]), Ok tt) /\
             graph_id_exists (Some gid) d' = true /\
             get_graph_id (Some gid) = Ok (py_strip gid) /\
             graph_id_exists (Some (py_strip gid)) d' = false.
Proof.
  intros Hs Hgid Hns Hes Hnc Hec Hend Hwf Hfresh Hpad Hstrip.
  destruct (set_up_graph_data_fresh_run root ns es gid w) as (d'&Hrun&name&Hg); try done.
  exists d'. unfold graph_id_exists. rewrite Hg, lookup_insert_eq, lookup_insert_ne by done.
  rewrite Hstrip. split_and!; [done| |done|]; by apply bool_decide_eq_true_2 || apply bool_decide_eq_false_2.
Qed.

(** ** Witnesses *)

Lemma set_up_graph_data_output_witness :
  (Ok tt = Ok tt /\ exists out, report_lines out /\
     stdout (say empty_world msg_download) = stdout empty_world ++ out) \/
  (exists e, Ok tt = Exc e /\ stdout (say empty_world msg_download) = stdout empty_world).
Proof. apply (set_up_graph_data_output FetchFailed empty_world). reflexivity. Defined.

Lemma set_up_graph_data_atomic_witness :
  exists d, set_up_graph_data (Fetched (Some sample_valid)) empty_world =
              (World (Some "g0") d [msg_success], Ok tt) /\
            (d = empty_db \/
             (Ok tt = Ok tt /\ [msg_success] = [] ++ [msg_success] /\
              exists data, insert_graph_data data empty_db = Ok d)).
Proof.
  eexists. split; [reflexivity|].
  exact (set_up_graph_data_atomic (Fetched (Some sample_valid)) empty_world _ _ eq_refl).
Defined.

Lemma set_up_graph_data_exists_overwrites_witness :
  exists g, graph_id_file (fst (set_up_graph_data (Fetched (Some sample_valid))
                   (World (Some "old") (database (fst (set_up_graph_data (Fetched (Some sample_valid)) empty_world))) []))) = Some g /\
            g = "g0".
Proof.
  pose (w := World (Some "old") (database (fst (set_up_graph_data (Fetched (Some sample_valid)) empty_world))) []).
  destruct (set_up_graph_data_exists_overwrites (Fetched (Some sample_valid)) w
              (fst (set_up_graph_data (Fetched (Some sample_valid)) w)))
    as (g&Hg&_&_); [reflexivity|reflexivity|].
  exists g. split; [exact Hg|]. vm_compute in Hg. congruence.
Defined.

Lemma set_up_graph_data_success_witness :
  exists g, graph_id_file (fst (set_up_graph_data (Fetched (Some sample_valid)) empty_world)) = Some g /\
            graph_id_exists (Some g) empty_db = false.
Proof.
  destruct (set_up_graph_data_success (Fetched (Some sample_valid)) empty_world
              (fst (set_up_graph_data (Fetched (Some sample_valid)) empty_world)))
    as (g&Hg&Hnew&_); [reflexivity|reflexivity|].
  exists g. split; [exact Hg|exact Hnew].
Defined.

Lemma ingest_reachable_wf_witness :
  store_wf (database (fst (set_up_graph_data (Fetched (Some sample_valid))
                             (say empty_world msg_running)))).
Proof.
  apply ingest_reachable_wf. unfold ingest_reachable.
  eapply rtc_l; [apply (ingest_run (Fetched (Some sample_valid)))|apply rtc_refl].
Defined.

Lemma set_up_graph_data_ingests_witness :
  exists d', set_up_graph_data (Fetched (Some sample_valid)) empty_world =
               (World (Some "g0") d' ([] ++ [msg_success]), Ok tt) /\
             is_Some (graphs d' !! "g0").
Proof.
  apply (set_up_graph_data_ingests sample_valid
           (Element "nodes" None [node_entry "a" "A name"])
           (Element "edges" None [edge_entry "e1" "a" "a" "42"]) "g0" empty_world).
  - apply verify_graph_data_root. reflexivity.
  - reflexivity.
  - reflexivity.
  - reflexivity.
  - repeat constructor.
  - repeat constructor.
  - apply (bool_decide_unpack _). vm_compute. reflexivity.
  - apply empty_db_wf.
  - reflexivity.
Defined.

Lemma dangling_register_witness :
  set_up_graph_data (Fetched (Some sample_null_node_id)) empty_world =
    (World (Some "g0") empty_db [], Exc null_key) /\
  empty_db = empty_db /\ ("g0" = "" \/ graph_id_exists (Some "g0") empty_db = false).
Proof.
  split; [reflexivity|].
  apply (dangling_register (Fetched (Some sample_null_node_id)) empty_world
           (World (Some "g0") empty_db []) null_key "g0").
  - reflexivity.
  - reflexivity.
  - discriminate.
Defined.

Lemma padded_graph_id_mismatch_witness :
  exists d', set_up_graph_data (Fetched (Some sample_padded_id)) empty_world =
               (World (Some " g0 ") d' ([] ++ [msg_success]), Ok tt) /\
             graph_id_exists (Some " g0 ") d' = true /\
             get_graph_id (Some " g0 ") = Ok (py_strip " g0 ") /\
             graph_id_exists (Some (py_strip " g0 ")) d' = false.
Proof.
  apply (padded_graph_id_mismatch sample_padded_id
           (Element "nodes" None [node_entry "a" "A name"])
           (Element "edges" None [edge_entry "e1" "a" "a" "42"]) " g0 " empty_world).
  - apply verify_graph_data_root. reflexivity.
  - reflexivity.
  - reflexivity.
  - reflexivity.
  - repeat constructor.
  - repeat constructor.
  - apply (bool_decide_unpack _). vm_compute. reflexivity.
  - apply empty_db_wf.
  - reflexivity.
  - vm_compute. discriminate.
  - reflexivity.
Defined.

End Setup.
