(* ===== verification/Config.v ===== *)
(** The configuration the two processes read from their environment and
    the download of the graph document.

    [Config] models [src/config.py] (the endpoint [graph_data_endpoint],
    read once from [GRAPH_DATA_ENDPOINT] with a default) and
    [get_db_connection] of [src/db_connection/postgres.py] (the five
    [POSTGRES_*] variables passed to [psycopg2.connect]; an unset
    variable is [None], and libpq then uses its own default). The
    environment is a finite map from names to values; opening the
    connection itself is not modelled, the model returns its parameters.

    [Downloader] models [download_graph] (lines 35-45 of
    [src/downloader/setup.py]): the HTTP client [requests.get] is a
    parameter returning a response or raising, and the body is handed to
    the XML parser [ET.fromstring], also a parameter ([None] for a
    [ParseError]). [set_up_graph_data_http] is lines 10-15 with that
    download in front of [set_up_graph_data] of [Setup]. *)

From S2P Require Import Prelude Xml Store Setup.
Import ElementTree Store Registry Setup.
Local Open Scope string_scope.
Local Open Scope list_scope.
Set Warnings "-clear-no-such-hyp".

Module Config.

(** [os.environ] *)
Definition environ := gmap string string.

(** [os.getenv(key)]: [None] when the variable is unset. *)
Definition os_getenv (env : environ) (key : string) : option string := env !! key.

(** Line 4 of [src/config.py]: [os.getenv(key, default)]. *)
Definition graph_data_endpoint (env : environ) : string :=
  default "http://default.endpoint" (os_getenv env "GRAPH_DATA_ENDPOINT").

(** The keyword arguments of [psycopg2.connect]. *)
Record conn_params := ConnParams {
  host : option string;
  port : option string;
  dbname : option string;
  user : option string;
  password : option string
}.

(** [get_db_connection] (lines 6-21 of [postgres.py]). *)
Definition get_db_connection (env : environ) : conn_params :=
  let db_host := os_getenv env "POSTGRES_HOST" in
  let db_port := os_getenv env "POSTGRES_PORT" in
  let db_name := os_getenv env "POSTGRES_DB" in
  let db_user := os_getenv env "POSTGRES_USER" in
  let db_password := os_getenv env "POSTGRES_PASSWORD" in
  ConnParams db_host db_port db_name db_user db_password.

End Config.

Module Downloader.
Import Config.

Record response := Response {
  status_code : nat;
  text : string
}.

Section download.
(** [requests.get]: a response, or an exception such as
    [ConnectionError]. *)
Variable http_get : string -> res response.
(** [ET.fromstring]: the tree, or [None] for a [ParseError]. *)
Variable et_fromstring : string -> option element.

(** [download_graph] (lines 35-45). *)
Definition download_graph (env : environ) : res (option string) :=
  response ← http_get (graph_data_endpoint env);
  if Nat.eqb (status_code response) 200 then Ok (Some (text response)) else Ok None.

(** Lines 10-15: the download, then the rest of [set_up_graph_data]
    with the parsed body. An exception of [requests.get] escapes before
    anything is printed. *)
Definition set_up_graph_data_http (env : environ) (w : world) : world * res unit :=
  match download_graph env with
  | Exc e => (w, Exc e)
  | Ok None => set_up_graph_data FetchFailed w
  | Ok (Some xml_string) => set_up_graph_data (Fetched (et_fromstring xml_string)) w
  end.

End download.

(** C21: a download that raises, or answers with a status other than
    200, changes neither the register nor the database; the run prints
    "Problem downloading graph data." and returns, or raises with nothing
    printed. *)
Theorem download_failure_no_effect http_get et_fromstring env w w' r :
  (exists e, http_get (graph_data_endpoint env) = Exc e) \/
  (exists resp, http_get (graph_data_endpoint env) = Ok resp /\ status_code resp <> 200) ->
  set_up_graph_data_http http_get et_fromstring env w = (w', r) ->
  graph_id_file w' = graph_id_file w /\ database w' = database w /\
  ((r = Ok tt /\ stdout w' = stdout w ++ [msg_download]) \/
   (exists e, r = Exc e /\ stdout w' = stdout w)).
Proof.
  unfold set_up_graph_data_http, download_graph.
  intros [[e He]|(resp&Hr&Hs)]; [rewrite He|rewrite Hr, bind_Ok];
    [|apply Nat.eqb_neq in Hs; rewrite Hs]; intros [= <- <-]; simpl; eauto 10.
Qed.

Lemma download_failure_no_effect_witness :
  let w := World (Some "g0") empty_db ["x"] in
  let http := fun _ : string => Ok (Response 404 "Not Found") in
  graph_id_file (fst (set_up_graph_data_http http (fun _ => None) ∅ w)) = graph_id_file w /\
  database (fst (set_up_graph_data_http http (fun _ => None) ∅ w)) = database w /\
  ((snd (set_up_graph_data_http http (fun _ => None) ∅ w) = Ok tt /\
    stdout (fst (set_up_graph_data_http http (fun _ => None) ∅ w)) = stdout w ++ [msg_download]) \/
   (exists e, snd (set_up_graph_data_http http (fun _ => None) ∅ w) = Exc e /\
    stdout (fst (set_up_graph_data_http http (fun _ => None) ∅ w)) = stdout w)).
Proof.
  intros w http. apply (download_failure_no_effect http (fun _ => None) ∅ w).
  - right. exists (Response 404 "Not Found"). split; [reflexivity|discriminate].
  - by destruct (set_up_graph_data_http http (fun _ => None) ∅ w).
Defined.

(** The configuration of the containers: the endpoint and the database
    parameters come from the environment, unset ones are [None]. *)
Example config_from_environment :
  let env : environ := <["POSTGRES_HOST" := "db"]> (<["POSTGRES_DB" := "graphs"]> ∅) in
  graph_data_endpoint env = "http://default.endpoint" /\
  get_db_connection env = ConnParams (Some "db") None (Some "graphs") None None.
Proof. split; reflexivity. Qed.

End Downloader.
