(* ===== verification/Json.v ===== *)
(** JSON values as [json.loads] returns them, and the Python operations
    [src/query_service/query_listener.py] applies to them.

    The parser itself is not modelled ([verify_valid_json] receives the
    parsed value, or [None] for [JSONDecodeError]). A JSON object is the
    list of its members in document order; a key written twice keeps its
    last value, as [json.loads] does ([py_getitem], [py_keys]). Integers
    are [JInt], numbers with a fraction or an exponent are [JFloat].

    The operations: [key in v] ([py_in]: membership of a key in a dict,
    of an equal element in a list, of a substring in a str, [TypeError]
    otherwise), [v[key]] with a string key ([py_getitem]), [isinstance]
    ([is_list], [is_dict]), truthiness ([py_truthy]), [==] between
    hashable values ([py_eq], numerically across [bool], [int] and
    [float]), hashability ([py_hashable]) and iteration ([py_iter]). *)

From S2P Require Import Prelude PyFloat.
From Stdlib Require Import QArith.
Import PyFloat.
Local Open Scope string_scope.
Local Open Scope list_scope.
Set Warnings "-register-all".

Module Json.

Inductive json :=
| JNull
| JBool (b : bool)
| JInt (z : Z)
| JFloat (f : pyfloat)
| JStr (s : string)
| JArr (l : list json)
| JObj (kvs : list (string * json)).

(** Induction over values with the hypothesis on every element of an
    array and on the value of every member of an object. *)
Section json_ind'.
Variable P : json -> Prop.
Hypothesis HNull : P JNull.
Hypothesis HBool : forall b, P (JBool b).
Hypothesis HInt : forall z, P (JInt z).
Hypothesis HFloat : forall f, P (JFloat f).
Hypothesis HStr : forall s, P (JStr s).
Hypothesis HArr : forall l, Forall P l -> P (JArr l).
Hypothesis HObj : forall kvs, Forall (fun kv => P kv.2) kvs -> P (JObj kvs).

Fixpoint json_ind' (v : json) : P v :=
  match v with
  | JNull => HNull
  | JBool b => HBool b
  | JInt z => HInt z
  | JFloat f => HFloat f
  | JStr s => HStr s
  | JArr l =>
      HArr l ((fix go (l : list json) : Forall P l :=
                 match l with
                 | [] => List.Forall_nil P
                 | x :: l' => List.Forall_cons P x l' (json_ind' x) (go l')
                 end) l)
  | JObj kvs =>
      HObj kvs ((fix go (kvs : list (string * json)) : Forall (fun kv => P kv.2) kvs :=
                   match kvs with
                   | [] => List.Forall_nil _
                   | (k, x) :: kvs' => List.Forall_cons _ (k, x) kvs' (json_ind' x) (go kvs')
                   end) kvs)
  end.

End json_ind'.

(** The value of a key: the last member with that key. *)
Fixpoint obj_lookup (k : string) (kvs : list (string * json)) : option json :=
  match kvs with
  | [] => None
  | (k', v) :: rest =>
      match obj_lookup k rest with
      | Some v' => Some v'
      | None => if String.eqb k k' then Some v else None
      end
  end.

(** The keys of the dict, each once, in order of first appearance. *)
Fixpoint dedup_keys (seen : list string) (kvs : list (string * json)) : list string :=
  match kvs with
  | [] => []
  | (k, _) :: rest =>
      if existsb (String.eqb k) seen then dedup_keys seen rest
      else k :: dedup_keys (k :: seen) rest
  end.

Definition py_keys (kvs : list (string * json)) : list string := dedup_keys [] kvs.

Fixpoint is_substring (needle hay : string) : bool :=
  String.prefix needle hay ||
  match hay with
  | EmptyString => false
  | String _ rest => is_substring needle rest
  end.

(** A Python number as a value of the extended rationals. *)
Inductive pynum := NFin (q : Q) | NInf (neg : bool) | NNaN.

Definition pyfloat_num (f : pyfloat) : pynum :=
  match f with
  | PyNum neg m e =>
      let z := (if neg then Z.opp else id) (Z.of_N m) in
      NFin (match e with
            | Z0 => inject_Z z
            | Zpos p => inject_Z (z * 10 ^ Zpos p)
            | Zneg p => Qmake z (Pos.pow 10 p)
            end)
  | PyInf neg => NInf neg
  | PyNaN => NNaN
  end.

Definition num_of (v : json) : option pynum :=
  match v with
  | JBool b => Some (NFin (inject_Z (if b then 1 else 0)))
  | JInt z => Some (NFin (inject_Z z))
  | JFloat f => Some (pyfloat_num f)
  | _ => None
  end.

Definition pynum_eqb (x y : pynum) : bool :=
  match x, y with
  | NFin a, NFin b => Qeq_bool a b
  | NInf a, NInf b => Bool.eqb a b
  | _, _ => false
  end.

(** [v1 == v2] for the values a query can carry as a node identifier;
    containers compare unequal here, they are rejected as unhashable
    before any comparison. *)
Definition py_eq (v1 v2 : json) : bool :=
  match v1, v2 with
  | JStr a, JStr b => String.eqb a b
  | JNull, JNull => true
  | _, _ =>
      match num_of v1, num_of v2 with
      | Some x, Some y => pynum_eqb x y
      | _, _ => false
      end
  end.

Definition py_hashable (v : json) : bool :=
  match v with JArr _ | JObj _ => false | _ => true end.

(** [key in v] for a string [key]. *)
Definition py_in (key : string) (v : json) : res bool :=
  match v with
  | JObj kvs => Ok (existsb (fun kv => String.eqb key kv.1) kvs)
  | JArr l => Ok (existsb (py_eq (JStr key)) l)
  | JStr s => Ok (is_substring key s)
  | _ => Exc TypeError
  end.

(** [v[key]] for a string [key]. *)
Definition py_getitem (v : json) (key : string) : res json :=
  match v with
  | JObj kvs => match obj_lookup key kvs with Some x => Ok x | None => Exc KeyError end
  | _ => Exc TypeError
  end.

Definition is_list (v : json) : bool := match v with JArr _ => true | _ => false end.
Definition is_dict (v : json) : bool := match v with JObj _ => true | _ => false end.

(** [bool(v)] *)
Definition py_truthy (v : json) : bool :=
  match v with
  | JNull => false
  | JBool b => b
  | JInt z => negb (Z.eqb z 0)
  | JFloat f => match f with PyNum _ m _ => negb (N.eqb m 0) | _ => true end
  | JStr s => negb (String.eqb s "")
  | JArr l => negb (Nat.eqb (length l) 0)
  | JObj kvs => negb (Nat.eqb (length kvs) 0)
  end.

(** [for x in v] *)
Definition py_iter (v : json) : res (list json) :=
  match v with
  | JArr l => Ok l
  | JObj kvs => Ok (map JStr (py_keys kvs))
  | JStr s => Ok (map (fun c => JStr (String c EmptyString)) (list_ascii_of_string s))
  | _ => Exc TypeError
  end.

End Json.
