(* ===== verification/JsonText.v ===== *)
(** Python's [json] module on the values of [Json]: [json.dumps(v,
    indent=2)] ([dumps], the last line of [format_results_to_json],
    line 86 of [src/query_service/query_listener.py]) and [json.loads]
    ([json_loads], called by [verify_valid_json], lines 107-111).

    [dumps] follows Python's pure encoder ([_make_iterencode], used when
    an indent is given): item separator [","] and key separator [": "],
    a new line and two spaces per level, [[]] and [{}] for empty
    containers, strings escaped to ASCII ([py_encode_basestring_ascii]).
    The [repr] of a finite float is a parameter.

    [json_loads] follows [json.decoder] and [json.scanner]: white space
    [' \t\n\r'], the literals [null], [true], [false], [NaN],
    [Infinity], [-Infinity], numbers by [NUMBER_RE] (an [int] without
    fraction and exponent, otherwise a [float], kept exact), strings with
    the escapes of [scanstring] in strict mode (no raw control
    character), arrays and objects, and no extra data after the value.
    Model strings are strings of 8-bit characters: a [\u] escape above
    [\u00ff] is outside the model and fails. The recursion is bounded by
    a fuel; [json_loads_fuel] shows [3 * length + 1] is always enough. *)

From S2P Require Import Prelude PyFloat Json.
From stdpp Require Import pretty.
Import PyFloat Json.
Local Open Scope list_scope.
Local Open Scope string_scope.
Set Warnings "-clear-no-such-hyp".

Module JsonText.

(** ** [json.dumps(obj, indent=2)] *)

Definition nl : string := String "010"%char EmptyString.
Definition dq : string := String "034"%char EmptyString.

(** [' ' * (2 * level)] *)
Fixpoint indent (lvl : nat) : string :=
  match lvl with
  | O => ""
  | S n => "  " ++ indent n
  end.

Definition hex_digit (n : nat) : ascii :=
  ascii_of_nat (if (n <? 10)%nat then 48 + n else 87 + n).

(** ['\\u{0:04x}'.format(n)] for a character below 256. *)
Definition u_escape (c : ascii) : string :=
  let n := nat_of_ascii c in
  "\u00" ++ String (hex_digit (n / 16)) (String (hex_digit (n mod 16)) EmptyString).

(** [ESCAPE_DCT] and [ESCAPE_ASCII] of [json.encoder]: the backslash and
    the quote, the five short escapes, then [\u00XX] for every other
    character outside [' '..'~']. *)
Definition escape_char (c : ascii) : string :=
  let n := nat_of_ascii c in
  if (n =? 92)%nat then "\\"
  else if (n =? 34)%nat then "\" ++ dq
  else if (n =? 8)%nat then "\b"
  else if (n =? 12)%nat then "\f"
  else if (n =? 10)%nat then "\n"
  else if (n =? 13)%nat then "\r"
  else if (n =? 9)%nat then "\t"
  else if (n <? 32)%nat || (126 <? n)%nat then u_escape c
  else String c EmptyString.

(** [py_encode_basestring_ascii] *)
Definition dumps_str (s : string) : string :=
  dq ++ String.concat "" (map escape_char (list_ascii_of_string s)) ++ dq.

Section dumps.
Variable repr_finite : bool -> N -> Z -> string.

(** [float.__repr__] and [allow_nan=True]. *)
Definition dumps_float (f : pyfloat) : string :=
  match f with
  | PyNaN => "NaN"
  | PyInf false => "Infinity"
  | PyInf true => "-Infinity"
  | PyNum neg m e => repr_finite neg m e
  end.

(** [_iterencode] at indentation level [lvl]. *)
Fixpoint dumps (lvl : nat) (v : json) : string :=
  match v with
  | JNull => "null"
  | JBool b => if b then "true" else "false"
  | JInt z => pretty z
  | JFloat f => dumps_float f
  | JStr s => dumps_str s
  | JArr [] => "[]"
  | JArr vs =>
      "[" ++ nl ++ indent (S lvl) ++
      String.concat ("," ++ nl ++ indent (S lvl)) (map (dumps (S lvl)) vs) ++
      nl ++ indent lvl ++ "]"
  | JObj [] => "{}"
  | JObj kvs =>
      "{" ++ nl ++ indent (S lvl) ++
      String.concat ("," ++ nl ++ indent (S lvl))
        (map (fun kv => dumps_str kv.1 ++ ": " ++ dumps (S lvl) kv.2) kvs) ++
      nl ++ indent lvl ++ "}"
  end.

End dumps.

(** ** [json.loads] *)

Definition is_ws (c : ascii) : bool :=
  let n := nat_of_ascii c in ((n =? 32) || (n =? 9) || (n =? 10) || (n =? 13))%nat.

(** [WHITESPACE.match(s, idx).end()] *)
Fixpoint skip_ws (s : string) : string :=
  match s with
  | String c r => if is_ws c then skip_ws r else s
  | EmptyString => EmptyString
  end.

(** [s.startswith(p)], with the rest of [s]. *)
Fixpoint strip_prefix (p s : string) : option string :=
  match p, s with
  | EmptyString, _ => Some s
  | String c p', String d s' => if Ascii.eqb c d then strip_prefix p' s' else None
  | String _ _, EmptyString => None
  end.

(** The next character after white space, when it is [c]. *)
Definition expect (c : ascii) (s : string) : option string :=
  match skip_ws s with
  | String d r => if Ascii.eqb c d then Some r else None
  | EmptyString => None
  end.

(** [BACKSLASH] of [json.decoder]: the one-character escapes. *)
Definition unescape_simple (e : ascii) : option ascii :=
  let n := nat_of_ascii e in
  if (n =? 34)%nat || (n =? 92)%nat || (n =? 47)%nat then Some e
  else if (n =? 98)%nat then Some (ascii_of_nat 8)
  else if (n =? 102)%nat then Some (ascii_of_nat 12)
  else if (n =? 110)%nat then Some (ascii_of_nat 10)
  else if (n =? 114)%nat then Some (ascii_of_nat 13)
  else if (n =? 116)%nat then Some (ascii_of_nat 9)
  else None.

Definition hex_value (c : ascii) : option nat :=
  let n := nat_of_ascii c in
  if (48 <=? n)%nat && (n <=? 57)%nat then Some (n - 48)%nat
  else if (97 <=? n)%nat && (n <=? 102)%nat then Some (n - 87)%nat
  else if (65 <=? n)%nat && (n <=? 70)%nat then Some (n - 55)%nat
  else None.

(** [_decode_uXXXX]; a code point above 255 is outside the model. *)
Definition unescape_u (h1 h2 h3 h4 : ascii) : option ascii :=
  a ← hex_value h1; b ← hex_value h2; c ← hex_value h3; d ← hex_value h4;
  let code := (((a * 16 + b) * 16 + c) * 16 + d)%nat in
  if (code <? 256)%nat then Some (ascii_of_nat code) else None.

(** [\u] followed by four hex digits of a code point above 255. *)
Definition wide_u (r : string) : bool :=
  match r with
  | String u (String h1 (String h2 (String h3 (String h4 _)))) =>
      (nat_of_ascii u =? 117)%nat &&
      match hex_value h1, hex_value h2, hex_value h3, hex_value h4 with
      | Some a, Some b, Some c, Some d => (255 <? ((a * 16 + b) * 16 + c) * 16 + d)%nat
      | _, _, _, _ => false
      end
  | _ => false
  end.

(** The texts on which [json_loads] is Python's [json.loads]: no
    backslash anywhere is followed by [u] and the four hex digits of a
    code point above 255, which model strings cannot hold (a syntactic,
    conservative test). *)
Fixpoint wide_escape_free (s : string) : bool :=
  match s with
  | EmptyString => true
  | String c r => negb ((nat_of_ascii c =? 92)%nat && wide_u r) && wide_escape_free r
  end.

(** [py_scanstring] in strict mode, after the opening quote: the
    decoded string and the rest after the closing quote. *)
Fixpoint parse_str_body (s : string) : option (string * string) :=
  match s with
  | EmptyString => None
  | String c r =>
      if (nat_of_ascii c =? 34)%nat then Some (EmptyString, r)
      else if (nat_of_ascii c =? 92)%nat then
        match r with
        | String e r' =>
            match unescape_simple e with
            | Some ch => '(b, t) ← parse_str_body r'; Some (String ch b, t)
            | None =>
                if (nat_of_ascii e =? 117)%nat then
                  match r' with
                  | String h1 (String h2 (String h3 (String h4 r''))) =>
                      ch ← unescape_u h1 h2 h3 h4;
                      '(b, t) ← parse_str_body r''; Some (String ch b, t)
                  | _ => None
                  end
                else None
            end
        | EmptyString => None
        end
      else if (nat_of_ascii c <? 32)%nat then None
      else '(b, t) ← parse_str_body r; Some (String c b, t)
  end.

(** The digits at the front of [s], and the rest. *)
Fixpoint span_digits_s (s : string) : string * string :=
  match s with
  | String c r => if is_digit c then let '(ds, t) := span_digits_s r in (String c ds, t)
                  else (EmptyString, s)
  | EmptyString => (EmptyString, EmptyString)
  end.

Definition digits_N (ds : string) : N := digits_value (list_ascii_of_string ds).

(** The optional parts [(\.\d+)?] and [([eE][-+]?\d+)?] of [NUMBER_RE]. *)
Definition number_frac (s : string) : option string * string :=
  match s with
  | String c r =>
      if Ascii.eqb c "." then
        let '(fs, t) := span_digits_s r in
        if String.eqb fs "" then (None, s) else (Some fs, t)
      else (None, s)
  | EmptyString => (None, s)
  end.

Definition number_exp (s : string) : option Z * string :=
  match s with
  | String c r =>
      if Ascii.eqb c "e" || Ascii.eqb c "E" then
        let '(neg, r1) :=
          match r with
          | String d r' => if Ascii.eqb d "-" then (true, r')
                           else if Ascii.eqb d "+" then (false, r') else (false, r)
          | EmptyString => (false, r)
          end in
        let '(ds, t) := span_digits_s r1 in
        if String.eqb ds "" then (None, s)
        else (Some ((if neg then Z.opp else id) (Z.of_N (digits_N ds))), t)
      else (None, s)
  | EmptyString => (None, s)
  end.

(** [match_number]: an [int] without fraction and exponent, otherwise
    [float(integer + frac + exp)]. *)
Definition parse_number (s : string) : option (json * string) :=
  let '(neg, s1) :=
    match s with
    | String c r => if Ascii.eqb c "-" then (true, r) else (false, s)
    | EmptyString => (false, s)
    end in
  '(int, s2) ←
    match s1 with
    | String c r =>
        if Ascii.eqb c "0" then Some ("0", r)
        else if is_digit c then Some (span_digits_s s1) else None
    | EmptyString => None
    end;
  let '(frac, s3) := number_frac s2 in
  let '(ex, s4) := number_exp s3 in
  match frac, ex with
  | None, None =>
      Some (JInt ((if neg then Z.opp else id) (Z.of_N (digits_N int))), s4)
  | _, _ =>
      let fs := default "" frac in
      Some (JFloat (PyNum neg (digits_N (int ++ fs))
                          (default 0%Z ex - Z.of_nat (String.length fs))), s4)
  end.

(** The constants of [scan_once] other than numbers. *)
Definition parse_literal (s : string) : option (json * string) :=
  match strip_prefix "null" s with Some r => Some (JNull, r) | None =>
  match strip_prefix "true" s with Some r => Some (JBool true, r) | None =>
  match strip_prefix "false" s with Some r => Some (JBool false, r) | None =>
  match strip_prefix "NaN" s with Some r => Some (JFloat PyNaN, r) | None =>
  match strip_prefix "Infinity" s with Some r => Some (JFloat (PyInf false), r) | None =>
  match strip_prefix "-Infinity" s with Some r => Some (JFloat (PyInf true), r) | None =>
  parse_number s
  end end end end end end.

(** [scan_once], [JSONArray] and [JSONObject], each call spending one
    unit of fuel. *)
Fixpoint parse_value (fuel : nat) (s : string) {struct fuel} : option (json * string) :=
  match fuel with
  | O => None
  | S f =>
      match skip_ws s with
      | EmptyString => None
      | String c r =>
          if (nat_of_ascii c =? 34)%nat then '(b, t) ← parse_str_body r; Some (JStr b, t)
          else if Ascii.eqb c "[" then parse_array f r
          else if Ascii.eqb c "{" then parse_object f r
          else parse_literal (String c r)
      end
  end
with parse_array (fuel : nat) (s : string) {struct fuel} : option (json * string) :=
  match fuel with
  | O => None
  | S f =>
      match expect "]" s with
      | Some r => Some (JArr [], r)
      | None => '(vs, r) ← parse_elems f s; Some (JArr vs, r)
      end
  end
with parse_elems (fuel : nat) (s : string) {struct fuel} : option (list json * string) :=
  match fuel with
  | O => None
  | S f =>
      '(v, r) ← parse_value f s;
      match expect "," r with
      | Some r' => '(vs, t) ← parse_elems f r'; Some (v :: vs, t)
      | None => r' ← expect "]" r; Some ([v], r')
      end
  end
with parse_object (fuel : nat) (s : string) {struct fuel} : option (json * string) :=
  match fuel with
  | O => None
  | S f =>
      match expect "}" s with
      | Some r => Some (JObj [], r)
      | None => '(kvs, r) ← parse_members f s; Some (JObj kvs, r)
      end
  end
with parse_members (fuel : nat) (s : string) {struct fuel}
    : option (list (string * json) * string) :=
  match fuel with
  | O => None
  | S f =>
      r0 ← expect "034" s;
      '(k, r1) ← parse_str_body r0;
      r2 ← expect ":" r1;
      '(v, r3) ← parse_value f r2;
      match expect "," r3 with
      | Some r4 => '(kvs, t) ← parse_members f r4; Some ((k, v) :: kvs, t)
      | None => r4 ← expect "}" r3; Some ([(k, v)], r4)
      end
  end.

(** [json.loads(s)]: one value, then nothing but white space. *)
Definition json_loads (s : string) : option json :=
  match parse_value (3 * String.length s + 1) s with
  | Some (v, r) => if String.eqb (skip_ws r) "" then Some v else None
  | None => None
  end.

(** [verify_valid_json] (lines 107-111): [None] on [JSONDecodeError]. *)
Definition verify_valid_json (query : string) : option json := json_loads query.

(** The values [dumps] prints without a finite float (the [repr] of a
    finite float is a parameter, outside the round trip below). *)
Fixpoint dumps_plain (v : json) : bool :=
  match v with
  | JFloat (PyNum _ _ _) => false
  | JArr vs => forallb dumps_plain vs
  | JObj kvs => forallb (fun kv => dumps_plain kv.2) kvs
  | _ => true
  end.

(** The fuel [parse_value] spends on the text of a value. *)
Fixpoint jsize (v : json) : nat :=
  match v with
  | JArr vs => 3 + sum_list_with jsize vs + length vs
  | JObj kvs => 3 + sum_list_with (fun kv => jsize kv.2) kvs + length kvs
  | _ => 1
  end.

(** What may follow the text of an [int] for [NUMBER_RE] to end there:
    no digit, no fraction and no exponent. *)
Definition num_stop (t : string) : bool :=
  match t with
  | String c _ => negb (is_digit c || Ascii.eqb c "." || Ascii.eqb c "e" || Ascii.eqb c "E")
  | EmptyString => true
  end.

(** What [ensure_ascii=True] promises of the text: a new line or a
    printable ASCII character. *)
Definition printable (c : ascii) : bool :=
  let n := nat_of_ascii c in ((n =? 10) || ((32 <=? n) && (n <=? 126)))%nat.

Definition ascii_text (s : string) : bool := forallb printable (list_ascii_of_string s).

Definition digit_chars : list ascii := ["0"; "1"; "2"; "3"; "4"; "5"; "6"; "7"; "8"; "9"]%char.

Section lengths.

Lemma skip_ws_length s : String.length (skip_ws s) <= String.length s.
Proof. induction s as [|c s IH]; simpl; [done|]. destruct (is_ws c); simpl; lia. Qed.

Lemma expect_length c s r : expect c s = Some r -> String.length r < String.length s.
Proof.
  unfold expect. pose proof (skip_ws_length s).
  destruct (skip_ws s) as [|d t]; [done|]. case_match; intros; simplify_eq/=; lia.
Qed.

Lemma strip_prefix_length p s r : strip_prefix p s = Some r -> String.length r + String.length p = String.length s.
Proof.
  revert s. induction p as [|c p IH]; intros [|d s]; simpl; intros H; simplify_eq/=; try lia.
  case_match; [|done]. apply IH in H. lia.
Qed.

Lemma parse_str_body_length s b r : parse_str_body s = Some (b, r) -> String.length r < String.length s.
Proof.
  revert b r. induction s as [s IH] using (induction_ltof1 _ String.length).
  destruct s as [|c s]; simpl; [done|]. intros b r H.
  unfold ltof in IH. repeat case_match; option_inv; try lia.
  all: match goal with E : parse_str_body ?t = Some _ |- _ =>
         apply IH in E; simpl in *; lia end.
Qed.

Lemma span_digits_s_length s :
  String.length (span_digits_s s).1 + String.length (span_digits_s s).2 = String.length s.
Proof.
  induction s as [|c s IH]; simpl; [done|].
  destruct (is_digit c); [|done]. destruct (span_digits_s s). simpl in *. lia.
Qed.

Lemma number_frac_length s : String.length (number_frac s).2 <= String.length s.
Proof.
  destruct s as [|c s]; simpl; [done|]. case_match; simpl; [|done].
  pose proof (span_digits_s_length s). destruct (span_digits_s s) as [fs t].
  case_match; simpl in *; lia.
Qed.

Lemma number_exp_length s : String.length (number_exp s).2 <= String.length s.
Proof.
  destruct s as [|c s]; simpl; [done|]. case_match; simpl; [|done].
  match goal with |- context [match ?m with (neg, r1) => _ end] =>
    destruct m as [neg r1] eqn:Hm end.
  assert (String.length r1 <= String.length s).
  { destruct s as [|d t]; simplify_eq/=; [done|]. repeat case_match; simplify_eq/=; lia. }
  pose proof (span_digits_s_length r1). destruct (span_digits_s r1) as [ds t].
  destruct (String.eqb ds ""); simpl in *; lia.
Qed.

Lemma parse_number_length s v r : parse_number s = Some (v, r) -> String.length r < String.length s.
Proof.
  unfold parse_number.
  match goal with |- context [match ?m with (neg, s1) => _ end] =>
    destruct m as [neg s1] eqn:Hm end.
  assert (String.length s1 <= String.length s) as Hl1.
  { destruct s as [|d t]; simplify_eq/=; [done|]. case_match; simplify_eq/=; lia. }
  intros H. destruct s1 as [|c t]; [done|]. cbn iota beta in H.
  assert (exists int s2, (if Ascii.eqb c "0" then Some ("0", t)
            else if is_digit c then Some (span_digits_s (String c t)) else None) = Some (int, s2) /\
            String.length s2 <= String.length t) as (int&s2&Hs2&Hl2).
  { destruct (Ascii.eqb c "0"); [by exists "0", t|].
    destruct (is_digit c) eqn:Hd; [|by simplify_option_eq]. simpl.
    rewrite Hd. pose proof (span_digits_s_length t). destruct (span_digits_s t).
    eexists _, _; split; [done|]. simpl in *. lia. }
  rewrite Hs2 in H. simpl in H. revert H.
  pose proof (number_frac_length s2). destruct (number_frac s2) as [frac s3] eqn:Ef.
  pose proof (number_exp_length s3). destruct (number_exp s3) as [ex s4] eqn:Ee. simpl in *.
  destruct frac, ex; intros; simplify_eq/=; lia.
Qed.

Lemma parse_literal_length s v r : parse_literal s = Some (v, r) -> String.length r < String.length s.
Proof.
  unfold parse_literal.
  assert (forall p, strip_prefix p s = Some r -> 0 < String.length p ->
                    String.length r < String.length s) as Hp.
  { intros p E Hl. apply strip_prefix_length in E. lia. }
  destruct (strip_prefix "null" s) eqn:E1; [intros [= <- <-]; apply (Hp "null"); [done|simpl; lia]|].
  destruct (strip_prefix "true" s) eqn:E2; [intros [= <- <-]; apply (Hp "true"); [done|simpl; lia]|].
  destruct (strip_prefix "false" s) eqn:E3; [intros [= <- <-]; apply (Hp "false"); [done|simpl; lia]|].
  destruct (strip_prefix "NaN" s) eqn:E4; [intros [= <- <-]; apply (Hp "NaN"); [done|simpl; lia]|].
  destruct (strip_prefix "Infinity" s) eqn:E5; [intros [= <- <-]; apply (Hp "Infinity"); [done|simpl; lia]|].
  destruct (strip_prefix "-Infinity" s) eqn:E6; [intros [= <- <-]; apply (Hp "-Infinity"); [done|simpl; lia]|].
  apply parse_number_length.
Qed.

(** Turn the results of the sub-parsers in the context into length facts. *)
Ltac suffix_facts IHv IHa IHe IHo IHm :=
  repeat match goal with
  | E : skip_ws ?s = _ |- _ => let L := fresh in pose proof (skip_ws_length s) as L; rewrite E in L; clear E
  | E : expect _ _ = Some _ |- _ => apply expect_length in E
  | E : parse_str_body _ = Some _ |- _ => apply parse_str_body_length in E
  | E : parse_literal _ = Some _ |- _ => apply parse_literal_length in E
  | E : parse_value _ _ = Some _ |- _ => apply IHv in E
  | E : parse_array _ _ = Some _ |- _ => apply IHa in E
  | E : parse_elems _ _ = Some _ |- _ => apply IHe in E
  | E : parse_object _ _ = Some _ |- _ => apply IHo in E
  | E : parse_members _ _ = Some _ |- _ => apply IHm in E
  end; simpl in *; lia.

Lemma parse_suffix f :
  (forall s v r, parse_value f s = Some (v, r) -> String.length r < String.length s) /\
  (forall s v r, parse_array f s = Some (v, r) -> String.length r < String.length s) /\
  (forall s vs r, parse_elems f s = Some (vs, r) -> String.length r < String.length s) /\
  (forall s v r, parse_object f s = Some (v, r) -> String.length r < String.length s) /\
  (forall s kvs r, parse_members f s = Some (kvs, r) -> String.length r < String.length s).
Proof.
  induction f as [|f (IHv&IHa&IHe&IHo&IHm)]; [split_and!; done|].
  split_and!; intros s ? r; simpl.
  - destruct (skip_ws s) as [|c t] eqn:Ews; [done|]. intros H.
    repeat case_match; option_inv; suffix_facts IHv IHa IHe IHo IHm.
  - intros H. repeat case_match; option_inv; suffix_facts IHv IHa IHe IHo IHm.
  - intros H. option_inv. repeat case_match; option_inv; suffix_facts IHv IHa IHe IHo IHm.
  - intros H. repeat case_match; option_inv; suffix_facts IHv IHa IHe IHo IHm.
  - intros H. option_inv. repeat case_match; option_inv; suffix_facts IHv IHa IHe IHo IHm.
Qed.

Lemma parse_value_suffix f s v r :
  parse_value f s = Some (v, r) -> String.length r < String.length s.
Proof. apply parse_suffix. Qed.

(** One more unit of fuel changes nothing once the fuel exceeds three
    times the length of the input. *)
Lemma parse_fuel_step f :
  (forall s, 3 * String.length s < f -> parse_value f s = parse_value (S f) s) /\
  (forall s, 3 * String.length s + 2 < f -> parse_array f s = parse_array (S f) s) /\
  (forall s, 3 * String.length s + 1 < f -> parse_elems f s = parse_elems (S f) s) /\
  (forall s, 3 * String.length s + 2 < f -> parse_object f s = parse_object (S f) s) /\
  (forall s, 3 * String.length s + 1 < f -> parse_members f s = parse_members (S f) s).
Proof.
  induction f as [|f (IHv&IHa&IHe&IHo&IHm)]; [split_and!; intros; lia|].
  split_and!; intros s Hs.
  - cbn [parse_value]. destruct (skip_ws s) as [|c t] eqn:Ews; [done|].
    pose proof (skip_ws_length s) as Hl. rewrite Ews in Hl. simpl in Hl.
    repeat case_match; try done; first [apply IHa | apply IHo]; lia.
  - cbn [parse_array]. destruct (expect "]" s); [done|]. by rewrite (IHe s) by lia.
  - cbn [parse_elems]. rewrite (IHv s) by lia.
    destruct (parse_value (S f) s) as [[v r]|] eqn:E; [|done]. cbn [mbind option_bind].
    apply parse_value_suffix in E.
    destruct (expect "," r) as [r'|] eqn:Ex; [|done]. apply expect_length in Ex.
    by rewrite (IHe r') by lia.
  - cbn [parse_object]. destruct (expect "}" s); [done|]. by rewrite (IHm s) by lia.
  - cbn [parse_members].
    destruct (expect "034" s) as [r0|] eqn:E0; [|done]. cbn [mbind option_bind].
    destruct (parse_str_body r0) as [[k r1]|] eqn:E1; [|done]. cbn [mbind option_bind].
    destruct (expect ":" r1) as [r2|] eqn:E2; [|done]. cbn [mbind option_bind].
    apply expect_length in E0, E2. apply parse_str_body_length in E1.
    rewrite (IHv r2) by lia.
    destruct (parse_value (S f) r2) as [[v r3]|] eqn:E3; [|done]. cbn [mbind option_bind].
    apply parse_value_suffix in E3.
    destruct (expect "," r3) as [r4|] eqn:E4; [|done]. apply expect_length in E4.
    by rewrite (IHm r4) by lia.
Qed.

End lengths.

(** ** The text of an [int] read back *)

Section numbers.

Lemma pretty_N_char_facts d :
  (d < 10)%N ->
  pretty_N_char d ∈ digit_chars /\ is_digit (pretty_N_char d) = true /\
  digit_value (pretty_N_char d) = d /\ ((0 < d)%N -> Ascii.eqb (pretty_N_char d) "0" = false).
Proof.
  intros Hd. assert (d = 0 \/ d = 1 \/ d = 2 \/ d = 3 \/ d = 4 \/ d = 5 \/ d = 6 \/ d = 7 \/
                     d = 8 \/ d = 9)%N as Hc by lia.
  repeat destruct Hc as [->|Hc]; subst; (split; [set_solver|]); split_and!; done || lia.
Qed.

Lemma list_ascii_of_string_app a b :
  list_ascii_of_string (a ++ b) = (list_ascii_of_string a ++ list_ascii_of_string b)%list.
Proof. induction a as [|c a IH]; [done|]. rewrite string_app_cons. simpl. by rewrite IH. Qed.

(** [pretty_N_go m s] puts the digits of [m] in front of [s]. *)
Lemma pretty_N_go_app m s : (0 < m)%N -> pretty_N_go m s = pretty_N_go m "" ++ s.
Proof.
  intros Hm. revert s. induction (N.lt_wf_0 m) as [x _ IH]; intros s.
  rewrite !(pretty_N_go_step x) by done.
  destruct (decide (x < 10)%N).
  - by rewrite N.div_small, !pretty_N_go_0.
  - assert (x `div` 10 < x)%N by (apply N.div_lt; lia).
    assert (0 < x `div` 10)%N by (apply N.div_str_pos; lia).
    assert (Hlt : (x `div` 10 < x)%N) by done. assert (Hpos : (0 < x `div` 10)%N) by done.
    rewrite (IH _ Hlt Hpos (String (pretty_N_char (x `mod` 10)) "")), (IH _ Hlt Hpos (String _ s)).
    by rewrite string_app_assoc.
Qed.

(** The digits of a positive [m]: decimal digits, the first one not
    [0], whose value is [m]. *)
Lemma pretty_N_go_digits m :
  (0 < m)%N ->
  forallb is_digit (list_ascii_of_string (pretty_N_go m "")) = true /\
  digits_N (pretty_N_go m "") = m /\
  exists c r, pretty_N_go m "" = String c r /\ c ∈ digit_chars /\ Ascii.eqb c "0" = false.
Proof.
  intros Hm. induction (N.lt_wf_0 m) as [x _ IH].
  rewrite pretty_N_go_step by done.
  destruct (pretty_N_char_facts (x `mod` 10)) as (Hin&Hdig&Hval&_); [by apply N.mod_lt|].
  destruct (decide (x < 10)%N).
  - rewrite N.div_small, pretty_N_go_0 by done. rewrite N.mod_small in * by done.
    destruct (pretty_N_char_facts x) as (?&?&Hv&Hnz); [done|].
    split_and!; [simpl; by rewrite Hdig|unfold digits_N, digits_value; simpl; by rewrite Hv|].
    eexists _, _. split_and!; [reflexivity|done|by apply Hnz].
  - assert (x `div` 10 < x)%N by (apply N.div_lt; lia).
    assert (0 < x `div` 10)%N by (apply N.div_str_pos; lia).
    destruct (IH _ ltac:(done) ltac:(done)) as (Hall&Hv&c&r&Hcr&Hc&Hc0).
    rewrite pretty_N_go_app by done.
    split_and!.
    + rewrite list_ascii_of_string_app, forallb_app, Hall. simpl. by rewrite Hdig.
    + unfold digits_N, digits_value in *. rewrite list_ascii_of_string_app, fold_left_app, Hv.
      simpl. rewrite Hval. pose proof (N.div_mod x 10). lia.
    + rewrite Hcr. eexists _, _. split; [apply string_app_cons|done].
Qed.

Lemma span_digits_app ds t :
  forallb is_digit (list_ascii_of_string ds) = true -> num_stop t = true ->
  span_digits_s (ds ++ t) = (ds, t).
Proof.
  intros Hds Ht. induction ds as [|c ds IH].
  - destruct t as [|c t]; [done|]. simpl in *.
    destruct (is_digit c); [done|reflexivity].
  - simpl in Hds. apply andb_prop in Hds as [Hc Hds].
    rewrite string_app_cons. simpl. rewrite Hc, IH by done. reflexivity.
Qed.

Lemma number_frac_stop t : num_stop t = true -> number_frac t = (None, t).
Proof.
  destruct t as [|c t]; [done|]. simpl. intros H.
  destruct (Ascii.eqb c "."); [|done]. by rewrite orb_true_r in H.
Qed.

Lemma number_exp_stop t : num_stop t = true -> number_exp t = (None, t).
Proof.
  destruct t as [|c t]; [done|]. simpl. intros H.
  destruct (Ascii.eqb c "e"), (Ascii.eqb c "E"); rewrite ?orb_true_r in H; done.
Qed.

(** The first characters of the text of an [int]. *)
Lemma pretty_Z_shape (z : Z) :
  exists (neg : bool) (ds : string), pretty z = (if neg then "-" else "") ++ ds /\
    forallb is_digit (list_ascii_of_string ds) = true /\
    (if neg then Z.opp else id) (Z.of_N (digits_N ds)) = z /\
    exists c r, ds = String c r /\ c ∈ digit_chars /\ (Ascii.eqb c "0" = false \/ ds = "0").
Proof.
  destruct z as [|p|p].
  - exists false, "0". split_and!; try done. eexists _, _. split_and!; [done|set_solver|by right].
  - destruct (pretty_N_go_digits (Npos p)) as (Hall&Hv&c&r&?&?&?); [lia|].
    exists false, (pretty_N_go (Npos p) ""). split_and!; [done|done|by rewrite Hv|]. exists c, r. split_and!; [done|done|by left].
  - destruct (pretty_N_go_digits (Npos p)) as (Hall&Hv&c&r&?&?&?); [lia|].
    exists true, (pretty_N_go (Npos p) ""). split_and!; [done|done|by rewrite Hv|]. exists c, r. split_and!; [done|done|by left].
Qed.

(** [match_number] reads the text of an [int] back when what follows
    cannot extend the number. *)
Lemma parse_number_pretty z t :
  num_stop t = true -> parse_number (pretty z ++ t) = Some (JInt z, t).
Proof.
  intros Ht. destruct (pretty_Z_shape z) as (neg&ds&->&Hall&Hv&c&r&->&Hc&Hc0).
  unfold parse_number.
  assert (Hs : (if neg then "-" else "") ++ String c r ++ t =
               if neg then String "-" (String c (r ++ t)) else String c (r ++ t))
    by (destruct neg; reflexivity).
  rewrite string_app_assoc, Hs.
  assert (Hneg : Ascii.eqb c "-" = false)
    by (repeat (apply elem_of_cons in Hc as [->|Hc]; [reflexivity|]); by apply elem_of_nil in Hc).
  destruct neg; cbn -[span_digits_s number_frac number_exp digits_N]; rewrite ?Hneg;
    (destruct Hc0 as [Hc0|[= -> ->]];
     [rewrite Hc0; replace (is_digit c) with true
        by (simpl in Hall; by destruct (is_digit c));
      rewrite <- string_app_cons, span_digits_app by done
     |]);
    cbn -[number_frac number_exp digits_N];
    rewrite ?string_app_nil_l, number_frac_stop, number_exp_stop by done;
    cbn [id] in Hv; by rewrite Hv.
Qed.

(** An [int] at the front of the text is read by [parse_number]. *)
Lemma parse_value_int f z t :
  num_stop t = true -> parse_value (S f) (pretty z ++ t) = Some (JInt z, t).
Proof.
  intros Ht. rewrite <- (parse_number_pretty z t Ht).
  destruct (pretty_Z_shape z) as (neg&ds&->&_&_&c&r&->&Hc&_).
  rewrite string_app_assoc.
  destruct neg; repeat (apply elem_of_cons in Hc as [->|Hc]; [reflexivity|]);
    by apply elem_of_nil in Hc.
Qed.

End numbers.

Section roundtrip.
Variable repr_finite : bool -> N -> Z -> string.

Lemma parse_value_fuel_ge s f k :
  3 * String.length s < f -> parse_value (k + f) s = parse_value f s.
Proof.
  intros Hf. induction k as [|k IH]; [done|].
  rewrite <- IH. symmetry. apply parse_fuel_step. lia.
Qed.

Lemma parse_escape_char c t :
  parse_str_body (escape_char c ++ t) = '(b, r) ← parse_str_body t; Some (String c b, r).
Proof. destruct c as [[] [] [] [] [] [] [] []]; reflexivity. Qed.

Lemma string_concat_empty_cons x xs : String.concat "" (x :: xs) = x ++ String.concat "" xs.
Proof. destruct xs; simpl; [by rewrite string_app_nil_r|done]. Qed.

Lemma parse_str_body_escaped cs t :
  parse_str_body (String.concat "" (map escape_char cs) ++ String "034" t) =
  Some (string_of_list_ascii cs, t).
Proof.
  induction cs as [|c cs IH]; [reflexivity|].
  rewrite map_cons, string_concat_empty_cons, string_app_assoc, parse_escape_char, IH.
  reflexivity.
Qed.

Lemma dumps_str_app x t :
  dumps_str x ++ t =
  String "034" (String.concat "" (map escape_char (list_ascii_of_string x)) ++ String "034" t).
Proof. unfold dumps_str, dq. by rewrite !string_app_assoc. Qed.

Lemma parse_str_body_dumps x t :
  parse_str_body (String.concat "" (map escape_char (list_ascii_of_string x)) ++ String "034" t) =
  Some (x, t).
Proof. by rewrite parse_str_body_escaped, string_of_list_ascii_of_string. Qed.

Lemma skip_ws_indent n t : skip_ws (indent n ++ t) = skip_ws t.
Proof. induction n as [|n IH]; [done|]. simpl indent. by rewrite string_app_assoc. Qed.

Lemma skip_ws_nl_indent n t : skip_ws (nl ++ indent n ++ t) = skip_ws t.
Proof. apply skip_ws_indent. Qed.

Lemma parse_value_skip f s t : skip_ws s = skip_ws t -> parse_value f s = parse_value f t.
Proof. intros H. destruct f; [done|]. cbn [parse_value]. by rewrite H. Qed.

Lemma expect_skip c s t : skip_ws s = skip_ws t -> expect c s = expect c t.
Proof. unfold expect. by intros ->. Qed.

(** The first character of the text of a value. *)
Lemma dumps_head lvl v :
  dumps_plain v = true ->
  exists c u, dumps repr_finite lvl v = String c u /\
              c ∈ (["n"; "t"; "f"; "N"; "I"; "-"; "034"; "["; "{"]%char ++ digit_chars)%list.
Proof.
  destruct v as [|[]|z|[[] m e|[]|]|x|[|w l]|[|kv kvs]]; simpl; try done;
    try (eexists _, _; split; [reflexivity|set_solver]).
  destruct (pretty_Z_shape z) as ([]&ds&->&_&_&c&r&->&Hc&_); eexists _, _;
    (split; [reflexivity|set_solver]).
Qed.

Lemma dumps_skip lvl v t :
  dumps_plain v = true -> skip_ws (dumps repr_finite lvl v ++ t) = dumps repr_finite lvl v ++ t.
Proof.
  intros Hp. destruct (dumps_head lvl v Hp) as (c&u&->&Hc).
  rewrite string_app_cons. repeat (apply elem_of_cons in Hc as [->|Hc]; [reflexivity|]).
  by apply elem_of_nil in Hc.
Qed.

Lemma dumps_expect_close c lvl v t :
  dumps_plain v = true -> c ∈ ["]"; "}"; ","]%char -> expect c (dumps repr_finite lvl v ++ t) = None.
Proof.
  intros Hp Hcl. unfold expect. rewrite dumps_skip by done.
  destruct (dumps_head lvl v Hp) as (d&u&->&Hd). rewrite string_app_cons.
  repeat (apply elem_of_cons in Hcl as [->|Hcl]; [repeat (apply elem_of_cons in Hd as [->|Hd]; [reflexivity|]); by apply elem_of_nil in Hd|]).
  by apply elem_of_nil in Hcl.
Qed.

Lemma string_concat_cons sep x xs :
  String.concat sep (x :: xs) = x ++ match xs with [] => "" | _ => sep ++ String.concat sep xs end.
Proof. destruct xs; simpl; [by rewrite string_app_nil_r|done]. Qed.

Lemma skip_ws_concat_head {A} n sep (g : A -> string) w l' r :
  skip_ws (nl ++ indent n ++ String.concat sep (map g (w :: l')) ++ r) =
  skip_ws (g w ++ (match map g l' with [] => "" | _ => sep ++ String.concat sep (map g l') end ++ r)).
Proof. by rewrite skip_ws_nl_indent, map_cons, string_concat_cons, string_app_assoc. Qed.

Lemma expect_here c y : is_ws c = false -> expect c (String c y) = Some y.
Proof. intros Hc. unfold expect. simpl. rewrite Hc. by rewrite Ascii.eqb_refl. Qed.

Lemma parse_elems_dumps lvl l t f :
  Forall (fun v => dumps_plain v = true -> forall lvl t f, num_stop t = true -> jsize v <= f ->
            parse_value f (dumps repr_finite lvl v ++ t) = Some (v, t)) l ->
  forallb dumps_plain l = true -> l <> [] ->
  sum_list_with jsize l + length l <= f ->
  parse_elems f (nl ++ indent (S lvl) ++
                 String.concat ("," ++ nl ++ indent (S lvl)) (map (dumps repr_finite (S lvl)) l) ++
                 nl ++ indent lvl ++ "]" ++ t) = Some (l, t).
Proof.
  revert f. induction l as [|v l IHl]; intros f HF Hp Hne Hf; [done|].
  apply Forall_cons in HF as [Hv HF]. apply andb_prop in Hp as [Hpv Hp].
  simpl in Hf. destruct f as [|f]; [lia|]. cbn [parse_elems].
  destruct l as [|v' l'].
  - cbn [map String.concat].
    rewrite (parse_value_skip f _ (dumps repr_finite (S lvl) v ++ nl ++ indent lvl ++ "]" ++ t))
      by (by rewrite skip_ws_nl_indent).
    rewrite Hv by (done || lia). cbn [mbind option_bind].
    rewrite (expect_skip "," _ ("]" ++ t)), (expect_skip "]" _ ("]" ++ t))
      by (by rewrite skip_ws_nl_indent).
    reflexivity.
  - change (String.concat ("," ++ nl ++ indent (S lvl)) (map (dumps repr_finite (S lvl)) (v :: v' :: l')))
      with (dumps repr_finite (S lvl) v ++ ("," ++ nl ++ indent (S lvl)) ++
            String.concat ("," ++ nl ++ indent (S lvl)) (map (dumps repr_finite (S lvl)) (v' :: l'))).
    rewrite !string_app_assoc.
    rewrite (parse_value_skip f _ (dumps repr_finite (S lvl) v ++ _)) by (by rewrite skip_ws_nl_indent).
    rewrite Hv by (done || lia). cbn [mbind option_bind].
    rewrite string_app_cons, expect_here by done. cbn [mbind option_bind].
    rewrite IHl by (done || simpl in *; lia). reflexivity.
Qed.

(** The member [k: v] at the front of an object's text, up to what
    follows the value; [Hk] reads the key back. *)
Ltac member_steps Hk Hv :=
  rewrite (expect_skip _ _ (dumps_str _ ++ _)) by (by rewrite skip_ws_nl_indent);
  rewrite dumps_str_app, expect_here by done; cbn [mbind option_bind];
  rewrite Hk; cbn [mbind option_bind];
  rewrite string_app_cons, expect_here by done; cbn [mbind option_bind];
  rewrite (parse_value_skip _ _ (dumps _ _ _ ++ _)) by reflexivity;
  rewrite Hv by (done || lia); cbn [mbind option_bind].

Lemma parse_members_dumps lvl kvs t f :
  Forall (fun kv => dumps_plain kv.2 = true -> forall lvl t f, num_stop t = true -> jsize kv.2 <= f ->
            parse_value f (dumps repr_finite lvl kv.2 ++ t) = Some (kv.2, t)) kvs ->
  forallb (fun kv => dumps_plain kv.2) kvs = true -> kvs <> [] ->
  sum_list_with (fun kv => jsize kv.2) kvs + length kvs <= f ->
  parse_members f
    (nl ++ indent (S lvl) ++
     String.concat ("," ++ nl ++ indent (S lvl))
       (map (fun kv => dumps_str kv.1 ++ ": " ++ dumps repr_finite (S lvl) kv.2) kvs) ++
     nl ++ indent lvl ++ "}" ++ t) = Some (kvs, t).
Proof.
  revert f. induction kvs as [|[k v] kvs IHl]; intros f HF Hp Hne Hf; [done|].
  apply Forall_cons in HF as [Hv HF]. apply andb_prop in Hp as [Hpv Hp]. simpl in Hv, Hpv.
  simpl in Hf. destruct f as [|f]; [lia|]. cbn [parse_members].
  destruct kvs as [|kv' kvs'].
  - cbn [map String.concat fst snd]. rewrite !string_app_assoc. member_steps parse_str_body_dumps Hv.
    rewrite (expect_skip "," _ ("}" ++ t)), (expect_skip "}" _ ("}" ++ t))
      by (by rewrite skip_ws_nl_indent).
    reflexivity.
  - change (String.concat ("," ++ nl ++ indent (S lvl))
              (map (fun kv => dumps_str kv.1 ++ ": " ++ dumps repr_finite (S lvl) kv.2)
                   ((k, v) :: kv' :: kvs')))
      with ((dumps_str k ++ ": " ++ dumps repr_finite (S lvl) v) ++ ("," ++ nl ++ indent (S lvl)) ++
            String.concat ("," ++ nl ++ indent (S lvl))
              (map (fun kv => dumps_str kv.1 ++ ": " ++ dumps repr_finite (S lvl) kv.2) (kv' :: kvs'))).
    rewrite !string_app_assoc. member_steps parse_str_body_dumps Hv.
    rewrite string_app_cons, expect_here by done. cbn [mbind option_bind].
    rewrite IHl by (done || simpl in *; lia). reflexivity.
Qed.

Lemma parse_dumps v :
  dumps_plain v = true -> forall lvl t f, num_stop t = true -> jsize v <= f ->
  parse_value f (dumps repr_finite lvl v ++ t) = Some (v, t).
Proof.
  induction v as [| b | z | fl | x | l IH | kvs IH] using json_ind';
    intros Hp lvl t f Ht Hf; simpl in Hf; destruct f as [|f]; try lia.
  - reflexivity.
  - by destruct b.
  - by apply parse_value_int.
  - destruct fl as [ng m e|[]|]; [done|reflexivity..].
  - change (dumps repr_finite lvl (JStr x)) with (dumps_str x). rewrite dumps_str_app.
    change (parse_value (S f) (String "034" ?y)) with (parse_str_body y ≫= fun '(b, t) => Some (JStr b, t)).
    by rewrite parse_str_body_dumps.
  - destruct l as [|w l']; [destruct f; [lia|reflexivity]|].
    change (dumps repr_finite lvl (JArr (w :: l'))) with
      ("[" ++ nl ++ indent (S lvl) ++
       String.concat ("," ++ nl ++ indent (S lvl)) (map (dumps repr_finite (S lvl)) (w :: l')) ++
       nl ++ indent lvl ++ "]").
    rewrite !string_app_assoc, string_app_cons, string_app_nil_l.
    change (parse_value (S f) (String "[" ?y)) with (parse_array f y).
    destruct f as [|f]; [lia|]. cbn [parse_array]. simpl in Hp. apply andb_prop in Hp as [Hw Hp].
    rewrite (expect_skip _ _ _ (skip_ws_concat_head _ _ _ _ _ _)).
    rewrite dumps_expect_close by (done || set_solver).
    rewrite parse_elems_dumps by (simpl in *; rewrite ?Hw, ?Hp; (done || lia)). reflexivity.
  - destruct kvs as [|[k w] kvs']; [destruct f; [lia|reflexivity]|].
    change (dumps repr_finite lvl (JObj ((k, w) :: kvs'))) with
      ("{" ++ nl ++ indent (S lvl) ++
       String.concat ("," ++ nl ++ indent (S lvl))
         (map (fun kv => dumps_str kv.1 ++ ": " ++ dumps repr_finite (S lvl) kv.2) ((k, w) :: kvs')) ++
       nl ++ indent lvl ++ "}").
    rewrite !string_app_assoc, string_app_cons, string_app_nil_l.
    change (parse_value (S f) (String "{" ?y)) with (parse_object f y).
    destruct f as [|f]; [lia|]. cbn [parse_object].
    rewrite (expect_skip _ _ _ (skip_ws_concat_head _ _ _ _ _ _)). cbn [fst snd].
    rewrite !string_app_assoc, dumps_str_app.
    change (expect "}" (String "034" ?y)) with (@None string). cbn match.
    rewrite parse_members_dumps by (simpl in *; (done || lia)). reflexivity.
Qed.

End roundtrip.

(** ** The text [json.dumps] writes is ASCII *)

Section ascii.
Variable repr_finite : bool -> N -> Z -> string.
Hypothesis repr_ascii : forall neg m e, ascii_text (repr_finite neg m e) = true.

Lemma ascii_text_app a b : ascii_text (a ++ b) = ascii_text a && ascii_text b.
Proof. unfold ascii_text. by rewrite list_ascii_of_string_app, forallb_app. Qed.

Lemma ascii_text_concat sep l :
  ascii_text sep = true -> Forall (fun x => ascii_text x = true) l ->
  ascii_text (String.concat sep l) = true.
Proof.
  intros Hsep Hl. induction Hl as [|x l Hx Hl IH]; [done|].
  rewrite string_concat_cons. destruct l; rewrite ascii_text_app, Hx; [done|].
  by rewrite ascii_text_app, Hsep, IH.
Qed.

Lemma ascii_text_indent n : ascii_text (indent n) = true.
Proof. induction n as [|n IH]; [done|]. simpl indent. by rewrite ascii_text_app, IH. Qed.

(** Every character is escaped to printable ASCII. *)
Lemma escape_char_ascii c : ascii_text (escape_char c) = true.
Proof. destruct c as [[] [] [] [] [] [] [] []]; vm_compute; reflexivity. Qed.

Lemma dumps_str_ascii x : ascii_text (dumps_str x) = true.
Proof.
  unfold dumps_str. rewrite !ascii_text_app. apply andb_true_iff; split; [done|].
  apply andb_true_iff; split; [|done].
  apply ascii_text_concat; [done|]. apply List.Forall_forall. intros y Hy.
  apply in_map_iff in Hy as (c&<-&_). apply escape_char_ascii.
Qed.

Lemma pretty_Z_ascii (z : Z) : ascii_text (pretty z) = true.
Proof.
  destruct (pretty_Z_shape z) as (neg&ds&->&Hall&_).
  rewrite ascii_text_app. apply andb_true_iff; split; [by destruct neg|].
  unfold ascii_text. apply forallb_forall. intros c Hc.
  eapply forallb_forall in Hall; [|exact Hc]. unfold is_digit in Hall.
  apply andb_true_iff in Hall as [H1 H2]. apply Nat.leb_le in H1, H2.
  unfold printable. apply orb_true_iff; right. apply andb_true_iff; split; apply Nat.leb_le; lia.
Qed.

(** The pieces of an array's or an object's text. *)
Ltac ascii_pieces :=
  rewrite ?ascii_text_app;
  repeat (apply andb_true_iff; split); try done; try apply ascii_text_indent.

(** With [ensure_ascii=True], the default, every character
    [json.dumps(v, indent=2)] writes is a new line or printable ASCII,
    whatever the strings of the document hold, provided the [repr] of
    floats is ASCII. *)
Theorem dumps_ascii lvl v : ascii_text (dumps repr_finite lvl v) = true.
Proof.
  revert lvl. induction v as [| b | z | fl | x | l IH | kvs IH] using json_ind'; intros lvl.
  - done.
  - by destruct b.
  - apply pretty_Z_ascii.
  - destruct fl as [ng m e|[]|]; [apply repr_ascii|done..].
  - apply dumps_str_ascii.
  - destruct l as [|w l']; [done|]. cbn [dumps]. ascii_pieces.
    apply ascii_text_concat; [ascii_pieces|]. apply List.Forall_forall. intros y Hy.
    apply in_map_iff in Hy as (u&<-&Hu). by eapply List.Forall_forall in IH.
  - destruct kvs as [|kv kvs']; [done|]. cbn [dumps]. ascii_pieces.
    apply ascii_text_concat; [ascii_pieces|]. apply List.Forall_forall. intros y Hy.
    apply in_map_iff in Hy as (u&<-&Hu). ascii_pieces; [apply dumps_str_ascii|].
    by eapply List.Forall_forall in IH.
Qed.

End ascii.

(** [json_loads] never runs out of fuel: with more than three units
    per character of the input, the parser gives the same result as with
    the fuel [json_loads] uses, [3 * length + 1]. *)
Theorem json_loads_fuel s f :
  3 * String.length s < f -> parse_value f s = parse_value (3 * String.length s + 1) s.
Proof.
  intros Hf. replace f with ((f - (3 * String.length s + 1)) + (3 * String.length s + 1)) by lia.
  apply parse_value_fuel_ge. lia.
Qed.

(** [json.loads] reads back what [json.dumps(v, indent=2)] writes, for
    every value without finite floats: integers of any size and sign,
    strings with any character (escaped or not), [true], [false], [null],
    [NaN], [Infinity], [-Infinity], arrays and objects at any depth. *)
Theorem json_loads_dumps repr_finite v :
  dumps_plain v = true -> json_loads (dumps repr_finite 0 v) = Some v.
Proof.
  intros Hp. unfold json_loads.
  pose proof (parse_dumps repr_finite v Hp 0 "" (jsize v + (3 * String.length (dumps repr_finite 0 v) + 1))
                eq_refl ltac:(lia)) as H.
  rewrite string_app_nil_r, parse_value_fuel_ge in H by lia.
  by rewrite H.
Qed.

(** The test [test_verify_valid_json_bad]: an unclosed object is not JSON. *)
Example verify_valid_json_incomplete :
  verify_valid_json ("{" ++ dq ++ "some" ++ dq ++ ": " ++ dq ++ "json" ++ dq) = None.
Proof. reflexivity. Qed.

(** The test [test_verify_valid_json_good]. *)
Example verify_valid_json_good :
  verify_valid_json ("{" ++ dq ++ "some" ++ dq ++ ": " ++ dq ++ "json" ++ dq ++ "}") =
  Some (JObj [("some", JStr "json")]).
Proof. reflexivity. Qed.

(** Numbers: an [int] without fraction or exponent, a [float] otherwise;
    a leading zero ends the number, trailing data is refused. *)
Example json_loads_numbers :
  json_loads " [1, -0, 2.50e-1, -Infinity, NaN] " =
    Some (JArr [JInt 1; JInt 0; JFloat (PyNum false 250 (-3)); JFloat (PyInf true); JFloat PyNaN]) /\
  json_loads "01" = None /\ json_loads "[1,]" = None.
Proof. split_and!; reflexivity. Qed.

Lemma json_loads_fuel_witness :
  3 * String.length "[[1], {}]" < 100 /\
  parse_value 100 "[[1], {}]" = parse_value (3 * String.length "[[1], {}]" + 1) "[[1], {}]".
Proof. split; [simpl; lia|]. apply json_loads_fuel. simpl. lia. Defined.

Lemma json_loads_dumps_witness :
  let v := JObj [("answers", JArr [JObj [("cheapest", JObj [("from", JStr "a"); ("to", JStr "x");
                                                          ("paths", JBool false)])];
                                   JArr []; JInt (-120); JInt 0; JInt 7;
                                   JStr (String "009" "tab, quote " ++ dq)])] in
  dumps_plain v = true /\ json_loads (dumps (fun _ _ _ => "0.0") 0 v) = Some v.
Proof. intros v. split; [reflexivity|]. apply json_loads_dumps. reflexivity. Defined.

Lemma dumps_ascii_witness :
  ascii_text (dumps (fun _ _ _ => "0.0") 0
                (JObj [("from", JStr (String "200" "x")); ("cost", JFloat (PyNum false 5 (-1)));
                       ("n", JInt (-3)); ("paths", JArr [JStr (String "007" "")])])) = true.
Proof. apply dumps_ascii. intros. reflexivity. Defined.

End JsonText.
