(* ===== verification/QueryFormat.v ===== *)
(** The shape check of a query batch and the reading of one query:
    [verify_correct_query_format] (lines 89-105) and
    [get_query_type_and_nodes] (lines 14-19) of
    [src/query_service/query_listener.py].

    Both follow Python's operators on the parsed JSON value, so they can
    raise: [key in v] on a number or [null] raises [TypeError], and
    [v[key]] on a str or a list raises [TypeError]. The declarative shape
    [batch_ok] is what the check accepts ([verify_correct_query_format_iff]);
    its [start]/[end] test is Python's [in], which also holds for a str
    containing both words or a list holding them. *)

From S2P Require Import Prelude PyFloat Json.
Import Json.
Local Open Scope string_scope.
Local Open Scope list_scope.
Set Warnings "-clear-no-such-hyp".

Module QueryFormat.

(** Lines 101-104 for one kind: [kind in query and ("start" not in
    query[kind] or "end" not in query[kind])] makes the check fail. *)
Definition endpoints_missing (query : json) (kind : string) : res bool :=
  has_kind ← py_in kind query;
  if negb has_kind then Ok false else
  sub ← py_getitem query kind;
  has_start ← py_in "start" sub;
  if negb has_start then Ok true else
  sub' ← py_getitem query kind;
  has_end ← py_in "end" sub';
  Ok (negb has_end).

(** The loop body of lines 94-104: [Ok false] for a [return False].
    The two tests of [paths] and [cheapest] of lines 97-100 are evaluated
    together; on a dict they cannot raise. *)
Definition check_query (query : json) : res bool :=
  if negb (is_dict query) then Ok false else
  has_paths ← py_in "paths" query;
  has_cheapest ← py_in "cheapest" query;
  if negb has_paths && negb has_cheapest then Ok false else
  if has_paths && has_cheapest then Ok false else
  miss_paths ← endpoints_missing query "paths";
  if (miss_paths : bool) then Ok false else
  miss_cheapest ← endpoints_missing query "cheapest";
  if (miss_cheapest : bool) then Ok false else Ok true.

Fixpoint check_queries (qs : list json) : res bool :=
  match qs with
  | [] => Ok true
  | q :: rest =>
      ok ← check_query q;
      if (ok : bool) then check_queries rest else Ok false
  end.

Definition verify_correct_query_format (queries : json) : res bool :=
  has_queries ← py_in "queries" queries;
  if negb has_queries then Ok false else
  qs ← py_getitem queries "queries";
  if negb (is_list qs) then Ok false else
  items ← py_iter qs;
  check_queries items.

(** [get_query_type_and_nodes]: the kind, then [query[kind]["start"]]
    and [query[kind]["end"]]. *)
Definition get_query_type_and_nodes (query : json) : res (string * json * json) :=
  has_paths ← py_in "paths" query;
  let query_type := if (has_paths : bool) then "paths" else "cheapest" in
  sub ← py_getitem query query_type;
  start ← py_getitem sub "start";
  sub' ← py_getitem query query_type;
  stop ← py_getitem sub' "end";
  Ok (query_type, start, stop).

(** ** The accepted shape *)

Definition has_key (k : string) (kvs : list (string * json)) : bool :=
  existsb (fun kv => String.eqb k kv.1) kvs.

(** One query: a dict with exactly one of [paths] and [cheapest], whose
    value answers [True] to Python's ["start" in _] and ["end" in _]. *)
Definition query_ok (q : json) : Prop :=
  exists kvs kind other sub,
    q = JObj kvs /\
    ((kind, other) = ("paths", "cheapest") \/ (kind, other) = ("cheapest", "paths")) /\
    has_key kind kvs = true /\ has_key other kvs = false /\
    obj_lookup kind kvs = Some sub /\
    py_in "start" sub = Ok true /\ py_in "end" sub = Ok true.

Definition batch_ok (v : json) : Prop :=
  exists kvs qs, v = JObj kvs /\ obj_lookup "queries" kvs = Some (JArr qs) /\
                 Forall query_ok qs.

(** ** Sample batches *)

Definition q_paths (a b : string) : json :=
  JObj [("paths", JObj [("start", JStr a); ("end", JStr b)])].
Definition q_cheapest (a b : string) : json :=
  JObj [("cheapest", JObj [("start", JStr a); ("end", JStr b)])].
Definition batch (qs : list json) : json := JObj [("queries", JArr qs)].

Lemma has_key_lookup k kvs : has_key k kvs = true -> exists v, obj_lookup k kvs = Some v.
Proof.
  induction kvs as [|[k' v'] kvs IH]; simpl; [discriminate|].
  destruct (obj_lookup k kvs) as [v|]; [by eexists|].
  destruct (String.eqb_spec k k'); simpl; [by eexists|]. intros H. by destruct (IH H).
Qed.

Lemma lookup_has_key k kvs v : obj_lookup k kvs = Some v -> has_key k kvs = true.
Proof.
  induction kvs as [|[k' v'] kvs IH]; simpl; [discriminate|].
  destruct (obj_lookup k kvs) as [v''|]; [intros H; rewrite (IH H); apply orb_true_r|].
  destruct (String.eqb_spec k k'); [done|discriminate].
Qed.

Lemma py_in_obj k kvs : py_in k (JObj kvs) = Ok (has_key k kvs).
Proof. reflexivity. Qed.

Lemma endpoints_missing_absent kvs kind :
  has_key kind kvs = false -> endpoints_missing (JObj kvs) kind = Ok false.
Proof. intros H. unfold endpoints_missing. rewrite py_in_obj, H. reflexivity. Qed.

Lemma endpoints_missing_present kvs kind sub :
  obj_lookup kind kvs = Some sub ->
  endpoints_missing (JObj kvs) kind =
    (s ← py_in "start" sub; if negb s then Ok true else e ← py_in "end" sub; Ok (negb e)).
Proof.
  intros H. unfold endpoints_missing. rewrite py_in_obj, (lookup_has_key _ _ _ H).
  simpl. rewrite H. simpl. by destruct (py_in "start" sub) as [[]|].
Qed.

Lemma endpoints_ok sub :
  (s ← py_in "start" sub; if negb s then Ok true else e ← py_in "end" sub; Ok (negb e))
    = Ok false <->
  py_in "start" sub = Ok true /\ py_in "end" sub = Ok true.
Proof.
  destruct (py_in "start" sub) as [[]|]; simpl; [|naive_solver|naive_solver].
  destruct (py_in "end" sub) as [[]|]; simpl; naive_solver.
Qed.

Lemma check_query_true q : check_query q = Ok true <-> query_ok q.
Proof.
  unfold query_ok. destruct q as [| | | | |l|kvs]; [simpl; naive_solver..|].
  unfold check_query. cbn [is_dict negb]. rewrite !py_in_obj, !bind_Ok.
  destruct (has_key "paths" kvs) eqn:Hp, (has_key "cheapest" kvs) eqn:Hc; cbn [negb andb];
    try (split; [discriminate|];
         intros (?&kind&other&?&Heq&[[= -> ->]|[= -> ->]]&?&?&_); injection Heq as <-; congruence).
  - destruct (has_key_lookup _ _ Hp) as [sub Hsub].
    rewrite (endpoints_missing_present _ _ _ Hsub), (endpoints_missing_absent kvs "cheapest" Hc).
    split.
    + intros H. destruct (py_in "start" sub ≫= _) as [[]|] eqn:E; simpl in H; try discriminate.
      apply endpoints_ok in E as [??]. exists kvs, "paths", "cheapest", sub. naive_solver.
    + intros (?&kind&other&sub'&Heq&[[= -> ->]|[= -> ->]]&?&?&Hs&?&?); injection Heq as <-;
        [|congruence].
      rewrite Hsub in Hs. injection Hs as <-.
      rewrite (proj2 (endpoints_ok sub)) by done. reflexivity.
  - destruct (has_key_lookup _ _ Hc) as [sub Hsub].
    rewrite (endpoints_missing_absent kvs "paths" Hp), (endpoints_missing_present _ _ _ Hsub).
    split.
    + intros H. destruct (py_in "start" sub ≫= _) as [[]|] eqn:E; simpl in H; try discriminate.
      apply endpoints_ok in E as [??]. exists kvs, "cheapest", "paths", sub. naive_solver.
    + intros (?&kind&other&sub'&Heq&[[= -> ->]|[= -> ->]]&?&?&Hs&?&?); injection Heq as <-;
        [congruence|].
      rewrite Hsub in Hs. injection Hs as <-.
      rewrite (proj2 (endpoints_ok sub)) by done. reflexivity.
Qed.

Lemma check_queries_true qs : check_queries qs = Ok true <-> Forall query_ok qs.
Proof.
  induction qs as [|q qs IH]; simpl; [split; [constructor|done]|].
  rewrite Forall_cons, <- IH, <- check_query_true.
  destruct (check_query q) as [[]|]; simpl; naive_solver.
Qed.

(** C14: the shape check returns [True] exactly on the batches of
    [batch_ok]: a dict whose [queries] is a list of dicts, each with
    exactly one of [paths] and [cheapest], whose value answers [True] to
    Python's ["start" in _] and ["end" in _]. *)
Theorem verify_correct_query_format_iff v :
  verify_correct_query_format v = Ok true <-> batch_ok v.
Proof.
  unfold batch_ok. destruct v as [| | | |s|l|kvs].
  1-6: split; [|by intros (?&?&[=]&_)];
    unfold verify_correct_query_format; simpl; repeat case_match; simpl; congruence.
  - unfold verify_correct_query_format. rewrite (py_in_obj "queries" kvs), bind_Ok.
    destruct (has_key "queries" kvs) eqn:Hq; cbn [negb].
    + destruct (has_key_lookup _ _ Hq) as [qs Hqs].
      unfold py_getitem. rewrite Hqs, bind_Ok.
      destruct qs as [| | | | |l|]; cbn [is_list negb];
        try (split; [discriminate|]; intros (?&?&Heq&H&_); injection Heq as <-; congruence).
      cbn [py_iter]. rewrite bind_Ok, check_queries_true. split.
      * intros Hl. by exists kvs, l.
      * intros (?&qs'&Heq&H&Hok). injection Heq as <-. rewrite Hqs in H. congruence.
    + split; [discriminate|]. intros (?&?&Heq&H&_). injection Heq as <-.
      apply lookup_has_key in H. congruence.
Qed.

(** C22: an accepted query whose value is a dict is read by
    [get_query_type_and_nodes] without error: the kind it names, and the
    values of its [start] and [end] keys. *)
Theorem get_query_type_and_nodes_accepted kvs kind skv :
  check_query (JObj kvs) = Ok true ->
  kind = "paths" \/ kind = "cheapest" ->
  obj_lookup kind kvs = Some (JObj skv) ->
  exists s e, get_query_type_and_nodes (JObj kvs) = Ok (kind, s, e) /\
              obj_lookup "start" skv = Some s /\ obj_lookup "end" skv = Some e.
Proof.
  intros Hc Hkind Hk.
  apply check_query_true in Hc as (?&kind'&other&sub&Heq&Hko&Hin&Hout&Hsub&Hs&He).
  injection Heq as <-. pose proof (lookup_has_key _ _ _ Hk) as Hkk.
  destruct Hko as [[= -> ->]|[= -> ->]], Hkind as [-> | ->]; try congruence.
  all: rewrite Hk in Hsub; injection Hsub as <-.
  all: rewrite py_in_obj in Hs, He; injection Hs as Hs; injection He as He.
  all: destruct (has_key_lookup _ _ Hs) as [s Hs'], (has_key_lookup _ _ He) as [e He'].
  all: exists s, e; split_and!; [|done|done].
  all: unfold get_query_type_and_nodes; rewrite py_in_obj; rewrite ?Hin, ?Hout; simpl.
  all: unfold py_getitem; rewrite Hk; simpl; rewrite Hs'; simpl; rewrite He'; reflexivity.
Qed.

(** Accepted queries at the front of a batch leave the answer to the
    rest of it. *)
Lemma check_queries_app qs rest :
  Forall query_ok qs -> check_queries (qs ++ rest) = check_queries rest.
Proof.
  induction 1 as [|q qs Hq _ IH]; [done|]. simpl.
  apply check_query_true in Hq. by rewrite Hq.
Qed.

(** C31: a query whose value is a str, under [paths] or [cheapest], is
    accepted by the check exactly when the str contains the words
    [start] and [end] (Python's [in] on a str is the substring test);
    reading such a query then raises [TypeError], since
    [query[kind]["start"]] indexes a str with a str. *)
Theorem string_endpoints_accepted_then_crash kind s :
  kind = "paths" \/ kind = "cheapest" ->
  (verify_correct_query_format (batch [JObj [(kind, JStr s)]]) = Ok true <->
   is_substring "start" s = true /\ is_substring "end" s = true) /\
  get_query_type_and_nodes (JObj [(kind, JStr s)]) = Exc TypeError.
Proof.
  intros [-> | ->]; (split; [|reflexivity]); unfold verify_correct_query_format; simpl; unfold check_query, endpoints_missing; simpl;
    destruct (is_substring "start" s), (is_substring "end" s); simpl; naive_solver.
Qed.

(** C32: in a batch whose first queries are accepted, a query whose
    [paths] or [cheapest] value is one on which Python's ["start" in _]
    raises ([null], a boolean or a number) makes the check itself raise
    [TypeError] instead of answering [False]. *)
Theorem null_endpoints_crash_check qs kind v rest :
  Forall query_ok qs -> kind = "paths" \/ kind = "cheapest" ->
  py_in "start" v = Exc TypeError ->
  verify_correct_query_format (batch (qs ++ JObj [(kind, v)] :: rest)) = Exc TypeError.
Proof.
  intros Hqs Hkind Hv. unfold verify_correct_query_format. simpl.
  rewrite check_queries_app by done. simpl.
  destruct Hkind as [-> | ->]; unfold check_query, endpoints_missing; simpl; by rewrite Hv.
Qed.

Example missing_end_rejected :
  verify_correct_query_format (batch [JObj [("paths", JObj [("start", JStr "a")])]]) = Ok false.
Proof. reflexivity. Qed.

Lemma get_query_type_and_nodes_accepted_witness :
  exists s e, get_query_type_and_nodes (q_cheapest "a" "b") = Ok ("cheapest", s, e) /\
              obj_lookup "start" [("start", JStr "a"); ("end", JStr "b")] = Some s /\
              obj_lookup "end" [("start", JStr "a"); ("end", JStr "b")] = Some e.
Proof.
  apply get_query_type_and_nodes_accepted.
  - reflexivity.
  - right. reflexivity.
  - reflexivity.
Defined.

Lemma string_endpoints_accepted_then_crash_witness :
  (verify_correct_query_format (batch [JObj [("paths", JStr "start-end")]]) = Ok true <->
   is_substring "start" "start-end" = true /\ is_substring "end" "start-end" = true) /\
  get_query_type_and_nodes (JObj [("paths", JStr "start-end")]) = Exc TypeError.
Proof. apply string_endpoints_accepted_then_crash. left. reflexivity. Defined.

Lemma null_endpoints_crash_check_witness :
  verify_correct_query_format (batch ([q_paths "a" "b"] ++ JObj [("paths", JNull)] :: [])) = Exc TypeError.
Proof.
  apply null_endpoints_crash_check.
  - constructor; [|constructor]. apply check_query_true. reflexivity.
  - left. reflexivity.
  - reflexivity.
Defined.

End QueryFormat.
