(* ===== verification/Normalizer.v ===== *)
(** The reshaping of the path rows into answers: [tidy_up_results]
    (lines 51-62), [format_paths_result] (lines 64-66),
    [format_cheapest_result] (lines 68-74) and [format_results_to_json]
    (lines 77-85, before [json.dumps]) of
    [src/query_service/query_listener.py].

    A row of [find_all_paths] is a pair (path, cost). The cost column is
    a PostgreSQL [double precision]; its order is the class [CostOrder]
    (Python's [<] on the column, a strict weak order), with an instance
    for [Q], which holds every finite double exactly. Python's
    [sorted(paths, key=lambda x: x[1])] is a stable sort; here it is the
    stable insertion sort [sort_by_cost], and any stable sort gives the
    same list for a strict weak order.

    The reference [cheapest_ref] is "the first row no row is cheaper
    than"; [sort_head_cheapest] shows the head of the sorted rows is that
    row. *)

From S2P Require Import Prelude PyFloat Json.
From Stdlib Require Import QArith Sorted.
Import Json.
Local Open Scope string_scope.
Local Open Scope list_scope.
Set Warnings "-clear-no-such-hyp".

Module Normalizer.

Class CostOrder (C : Type) := {
  cost_lt : C -> C -> bool;
  cost_lt_irrefl : forall a, cost_lt a a = false;
  cost_lt_trans : forall a b c, cost_lt a b = true -> cost_lt b c = true -> cost_lt a c = true;
  cost_lt_negtrans : forall a b c, cost_lt a b = false -> cost_lt b c = false -> cost_lt a c = false
}.

(** A path as JSON: a list of node identifiers. *)
Definition path_json (p : list string) : json := JArr (map JStr p).

Section rows.
Context {C : Type} `{CostOrder C}.

(** One step of the stable insertion: [r] goes before the first row
    that is not cheaper than it. *)
Fixpoint insert_by_cost (r : list string * C) (l : list (list string * C)) :=
  match l with
  | [] => [r]
  | y :: l' => if cost_lt y.2 r.2 then y :: insert_by_cost r l' else r :: l
  end.

(** [sorted(paths, key=lambda x: x[1])] *)
Definition sort_by_cost (rows : list (list string * C)) : list (list string * C) :=
  fold_right insert_by_cost [] rows.

(** [format_paths_result]: the paths in the order of the rows. *)
Definition format_paths_result (start stop : json) (rows : list (list string * C))
  : string * json * json * json :=
  ("paths", start, stop, JArr (map (fun r => path_json r.1) rows)).

(** [format_cheapest_result]: the path of the first sorted row, or
    [False] when there is none. *)
Definition format_cheapest_result (start stop : json) (rows : list (list string * C))
  : string * json * json * json :=
  ("cheapest", start, stop,
   match sort_by_cost rows with
   | r :: _ => path_json r.1
   | [] => JBool false
   end).

(** [tidy_up_results]: one answer per entry of the result dict, in its
    order. *)
Definition tidy_up_results (results : list ((json * json * string) * list (list string * C)))
  : list (string * json * json * json) :=
  map (fun '((start, stop, query_type), rows) =>
         if String.eqb query_type "paths" then format_paths_result start stop rows
         else format_cheapest_result start stop rows) results.

(** [a] is not more expensive than [b]. *)
Definition row_le (a b : list string * C) : Prop := cost_lt b.2 a.2 = false.

(** A row no row is cheaper than. *)
Definition is_cheapest (rows : list (list string * C)) (x : list string * C) : bool :=
  forallb (fun y => negb (cost_lt y.2 x.2)) rows.

(** The reference: the first such row. *)
Definition cheapest_ref (rows : list (list string * C)) : option (list string * C) :=
  find (is_cheapest rows) rows.

End rows.

(** [format_results_to_json], before [json.dumps]. *)
Definition format_results_to_json (results : list (string * json * json * json)) : json :=
  JObj [("answers",
         JArr (map (fun '(query_type, start, stop, data) =>
                      JObj [(query_type, JObj [("from", start); ("to", stop); ("paths", data)])])
                   results))].

(** The costs as exact rationals. *)
Definition Qltb (a b : Q) : bool := negb (Qle_bool b a).

Lemma Qltb_spec a b : Qltb a b = true <-> (a < b)%Q.
Proof.
  unfold Qltb. rewrite negb_true_iff. split.
  - intros H. apply Qnot_le_lt. intros Hle. apply Qle_bool_iff in Hle. congruence.
  - intros H. destruct (Qle_bool b a) eqn:E; [|done]. apply Qle_bool_iff in E.
    exfalso. by apply (Qlt_not_le a b).
Qed.

#[export] Program Instance Q_cost_order : CostOrder Q := {| cost_lt := Qltb |}.
Next Obligation.
  destruct (Qltb a a) eqn:E; [|done]. apply Qltb_spec in E. by apply Qlt_irrefl in E.
Qed.
Next Obligation.
  rename H into Hab, H0 into Hbc.
  apply Qltb_spec in Hab, Hbc. apply Qltb_spec. by eapply Qlt_trans.
Qed.
Next Obligation.
  rename H into Hab, H0 into Hbc. destruct (Qltb a c) eqn:E; [|done].
  apply Qltb_spec in E. destruct (Qlt_le_dec a b) as [Hlt|Hle].
  - apply Qltb_spec in Hlt. congruence.
  - destruct (Qlt_le_dec b c) as [Hlt'|Hle'].
    + apply Qltb_spec in Hlt'. congruence.
    + exfalso. apply (Qlt_not_le a c E). by apply (Qle_trans _ b).
Qed.

Section proofs.
Context {C : Type} `{CostOrder C}.

Lemma cost_lt_asym a b : cost_lt a b = true -> cost_lt b a = false.
Proof.
  intros Hab. destruct (cost_lt b a) eqn:Hba; [|done].
  pose proof (cost_lt_trans _ _ _ Hab Hba) as Haa. by rewrite cost_lt_irrefl in Haa.
Qed.

Lemma insert_by_cost_perm r (l : list (list string * C)) : insert_by_cost r l ≡ₚ r :: l.
Proof.
  induction l as [|y l IH]; simpl; [done|].
  destruct (cost_lt y.2 r.2); [|done]. rewrite IH. constructor.
Qed.

Lemma insert_by_cost_sorted r (l : list (list string * C)) :
  Sorted row_le l -> Sorted row_le (insert_by_cost r l).
Proof.
  induction 1 as [|y l Hs IH Hhd]; simpl; [repeat constructor|].
  destruct (cost_lt y.2 r.2) eqn:E.
  - constructor; [done|]. destruct l as [|z l]; simpl.
    + constructor. unfold row_le. by apply cost_lt_asym.
    + inversion Hhd; subst. destruct (cost_lt z.2 r.2); constructor; [done|].
      unfold row_le. by apply cost_lt_asym.
  - constructor; [by constructor|]. by constructor.
Qed.

Lemma sort_by_cost_perm (rows : list (list string * C)) : sort_by_cost rows ≡ₚ rows.
Proof. induction rows as [|x l IH]; simpl; [done|]. by rewrite insert_by_cost_perm, IH. Qed.

(** C8: [sorted(paths, key=cost)] returns a permutation of the rows,
    ordered by cost. *)
Theorem sort_by_cost_sorted_perm (rows : list (list string * C)) :
  sort_by_cost rows ≡ₚ rows /\ Sorted row_le (sort_by_cost rows).
Proof.
  split; [apply sort_by_cost_perm|].
  induction rows as [|x l IH]; simpl; [constructor|by apply insert_by_cost_sorted].
Qed.

Lemma head_insert_by_cost r (l : list (list string * C)) :
  head (insert_by_cost r l) =
  Some (match head l with Some y => if cost_lt y.2 r.2 then y else r | None => r end).
Proof. destruct l as [|y l]; simpl; [done|]. by destruct (cost_lt y.2 r.2). Qed.

Lemma find_refine {A} (P Q : A -> bool) (l : list A) m :
  find P l = Some m -> (forall y, Q y = true -> P y = true) -> Q m = true ->
  find Q l = Some m.
Proof.
  induction l as [|y l IH]; simpl; [discriminate|]. intros Hf HQP HQm.
  destruct (P y) eqn:Py.
  - injection Hf as <-. by rewrite HQm.
  - destruct (Q y) eqn:Qy; [by rewrite (HQP y Qy) in Py|]. by apply IH.
Qed.

Lemma is_cheapest_cons y (l : list (list string * C)) x :
  is_cheapest (y :: l) x = negb (cost_lt y.2 x.2) && is_cheapest l x.
Proof. reflexivity. Qed.

Lemma is_cheapest_compare (l : list (list string * C)) m x :
  In m l -> is_cheapest l m = true -> is_cheapest l x = negb (cost_lt m.2 x.2).
Proof.
  unfold is_cheapest. intros Hin Hmin. rewrite forallb_forall in Hmin.
  destruct (cost_lt m.2 x.2) eqn:E; simpl.
  - apply not_true_is_false. rewrite forallb_forall. intros Hall.
    specialize (Hall m Hin). by rewrite E in Hall.
  - apply forallb_forall. intros y Hy. specialize (Hmin y Hy).
    apply negb_true_iff in Hmin. apply negb_true_iff. by eapply cost_lt_negtrans.
Qed.

(** The head of the cost-sorted rows is the first row that no row is
    cheaper than. *)
Lemma sort_head_cheapest (rows : list (list string * C)) :
  head (sort_by_cost rows) = cheapest_ref rows.
Proof.
  induction rows as [|x l IH]; [done|].
  change (sort_by_cost (x :: l)) with (insert_by_cost x (sort_by_cost l)).
  rewrite head_insert_by_cost, IH. unfold cheapest_ref in *. cbn [find].
  rewrite is_cheapest_cons, cost_lt_irrefl. cbn [negb andb].
  destruct (find (is_cheapest l) l) as [m|] eqn:Hm.
  - destruct (find_some _ _ Hm) as [Hin Hmin].
    rewrite (is_cheapest_compare l m x Hin Hmin).
    destruct (cost_lt m.2 x.2) eqn:E; simpl; [|done].
    symmetry. apply (find_refine (is_cheapest l)); [done| |].
    + intros y. rewrite is_cheapest_cons. by intros [_ ?]%andb_prop.
    + rewrite is_cheapest_cons, (cost_lt_asym _ _ E). exact Hmin.
  - destruct (sort_by_cost l) as [|y l'] eqn:Hs; [|discriminate].
    pose proof (sort_by_cost_perm l) as Hp. rewrite Hs in Hp.
    apply Permutation_nil in Hp. by subst.
Qed.

(** C7: the cheapest answer is the path of the first row that no row is
    cheaper than, and the literal [False] when there is no row. *)
Theorem format_cheapest_result_ref start stop (rows : list (list string * C)) :
  format_cheapest_result start stop rows =
  ("cheapest", start, stop,
   match cheapest_ref rows with Some r => path_json r.1 | None => JBool false end).
Proof.
  unfold format_cheapest_result. rewrite <- sort_head_cheapest.
  by destruct (sort_by_cost rows).
Qed.

End proofs.

Example cheapest_spec_example :
  format_cheapest_result (JStr "a") (JStr "b")
    [(["p1"], 5 # 2); (["p2"], 4 # 5); (["p3"], 5 # 2)]%Q =
  ("cheapest", JStr "a", JStr "b", path_json ["p2"]).
Proof. reflexivity. Qed.

Example cheapest_no_rows :
  format_cheapest_result (JStr "a") (JStr "b") ([] : list (list string * Q)) =
  ("cheapest", JStr "a", JStr "b", JBool false).
Proof. reflexivity. Qed.

Example cheapest_tie_first :
  format_cheapest_result (JStr "a") (JStr "b") [(["p1"], 1 # 1); (["p2"], 1 # 1)]%Q =
  ("cheapest", JStr "a", JStr "b", path_json ["p1"]).
Proof. reflexivity. Qed.

End Normalizer.
