(* ===== verification/Answer.v ===== *)
(** The shape of what the query service prints, as a type of JSON values.

    The specification (section 4.7) fixes the answer envelope
    [{"answers": [{kind: {"from": start, "to": end, "paths": data}}, ...]}]
    where [data] is a list of node sequences for [paths] and one node
    sequence or [false] for [cheapest]. [jty] is a small language of JSON
    types (any value, strings, the literal [false], arrays, non-empty
    arrays, records with their fields in order, unions) and [has_type] its
    typing judgement; [type_check] decides it, which gives the [Decision]
    instance. [kind_ty] is the type of the answer to a query of a given
    kind. The theorem [format_results_typed] shows that
    [format_results_to_json] (lines 77-86 of
    [src/query_service/query_listener.py]) after [tidy_up_results] builds
    the envelope with one answer per entry of the result dict, each of the
    type of its own kind, when the rows hold non-empty paths. *)

From S2P Require Import Prelude PyFloat Json Normalizer.
From Stdlib Require Import QArith.
Import Json Normalizer.
Local Open Scope list_scope.
Local Open Scope string_scope.
Set Warnings "-clear-no-such-hyp -register-all".

Module Answer.

Inductive jty :=
| TAny
| TStr
| TFalse
| TArr (t : jty)
| TNeArr (t : jty)
| TRec (fs : list (string * jty))
| TUnion (a b : jty).

(** [v] is a value of type [t]. *)
Inductive has_type : json -> jty -> Prop :=
| ty_any v : has_type v TAny
| ty_str s : has_type (JStr s) TStr
| ty_false : has_type (JBool false) TFalse
| ty_arr vs t : Forall (fun v => has_type v t) vs -> has_type (JArr vs) (TArr t)
| ty_nearr v vs t : Forall (fun v => has_type v t) (v :: vs) -> has_type (JArr (v :: vs)) (TNeArr t)
| ty_rec kvs fs :
    Forall2 (fun kv f => kv.1 = f.1 /\ has_type kv.2 f.2) kvs fs -> has_type (JObj kvs) (TRec fs)
| ty_union_l v a b : has_type v a -> has_type v (TUnion a b)
| ty_union_r v a b : has_type v b -> has_type v (TUnion a b).

(** The checker. *)
Fixpoint type_check (t : jty) (v : json) {struct t} : bool :=
  match t, v with
  | TAny, _ => true
  | TStr, JStr _ => true
  | TFalse, JBool false => true
  | TArr t', JArr vs => forallb (type_check t') vs
  | TNeArr t', JArr (v' :: vs) => forallb (type_check t') (v' :: vs)
  | TRec fs, JObj kvs =>
      (fix fields (fs : list (string * jty)) (kvs : list (string * json)) : bool :=
         match fs, kvs with
         | [], [] => true
         | (k, t') :: fs', (k', v') :: kvs' =>
             String.eqb k' k && type_check t' v' && fields fs' kvs'
         | _, _ => false
         end) fs kvs
  | TUnion a b, _ => type_check a v || type_check b v
  | _, _ => false
  end.

(** A node sequence: a path of the graph holds at least one node. *)
Definition path_ty : jty := TNeArr TStr.

Definition entry_ty (kind : string) (data : jty) : jty :=
  TRec [(kind, TRec [("from", TAny); ("to", TAny); ("paths", data)])].

(** The answer of section 4.7 for a query of kind [kind]: a list of node
    sequences under [paths], one node sequence or [false] under
    [cheapest]. The shape check admits only these two kinds; the
    handler answers [cheapest] for any kind other than [paths]. *)
Definition kind_ty (kind : string) : jty :=
  if String.eqb kind "paths" then entry_ty "paths" (TArr path_ty)
  else entry_ty "cheapest" (TUnion path_ty TFalse).

(** One answer of the envelope of section 4.7. *)
Definition answer_ty : jty := TUnion (kind_ty "paths") (kind_ty "cheapest").

Definition answer_batch_ty : jty := TRec [("answers", TArr answer_ty)].

(** Induction over types with the hypothesis on every field of a record. *)
Section jty_ind'.
Variable P : jty -> Prop.
Hypothesis HAny : P TAny.
Hypothesis HStr : P TStr.
Hypothesis HFalse : P TFalse.
Hypothesis HArr : forall t, P t -> P (TArr t).
Hypothesis HNeArr : forall t, P t -> P (TNeArr t).
Hypothesis HRec : forall fs, Forall (fun f => P f.2) fs -> P (TRec fs).
Hypothesis HUnion : forall a b, P a -> P b -> P (TUnion a b).

Fixpoint jty_ind' (t : jty) : P t :=
  match t with
  | TAny => HAny
  | TStr => HStr
  | TFalse => HFalse
  | TArr t' => HArr t' (jty_ind' t')
  | TNeArr t' => HNeArr t' (jty_ind' t')
  | TRec fs =>
      HRec fs ((fix go (fs : list (string * jty)) : Forall (fun f => P f.2) fs :=
                  match fs with
                  | [] => List.Forall_nil _
                  | f :: fs' => List.Forall_cons _ _ _ (jty_ind' f.2) (go fs')
                  end) fs)
  | TUnion a b => HUnion a b (jty_ind' a) (jty_ind' b)
  end.
End jty_ind'.

(** The checker decides the judgement. *)
Lemma forallb_has_type t vs :
  (forall v, type_check t v = true <-> has_type v t) ->
  forallb (type_check t) vs = true <-> Forall (fun v => has_type v t) vs.
Proof.
  intros IH. rewrite forallb_forall, List.Forall_forall.
  split; intros Hf x Hx; apply IH; auto.
Qed.

Lemma type_check_spec t v : type_check t v = true <-> has_type v t.
Proof.
  revert v. induction t as [| | |t IH|t IH|fs IH|a b IHa IHb] using jty_ind'; intros v.
  - split; [constructor|done].
  - split; [destruct v; simpl; try done; constructor|by inversion 1].
  - split; [destruct v as [| [] | | | | |]; simpl; try done; constructor|by inversion 1].
  - destruct v; simpl; split; try done; try by inversion 1.
    + intros Hf. constructor. by apply (forallb_has_type t).
    + inversion 1; subst. by apply (forallb_has_type t).
  - destruct v as [| | | | |[|v vs]|]; split; try done; try by inversion 1.
    + intros Hf. constructor. by apply (forallb_has_type t (v :: vs)).
    + inversion 1; subst. by apply (forallb_has_type t (v :: vs)).
  - destruct v as [| | | | | |kvs]; simpl; split; try done; try by inversion 1.
    + intros Hc. constructor. revert kvs Hc.
      induction IH as [|[k t'] fs' Ht' _ IHfs]; intros [|[k' v'] kvs']; try done; simpl.
      rewrite !andb_true_iff, String.eqb_eq. intros [[-> Hv] Hr].
      constructor; [split; [done|by apply Ht']|by apply IHfs].
    + intros Hty. inversion Hty as [| | | | |? ? Hf| |]; subst. clear Hty. revert IH.
      induction Hf as [|[k' v'] [k t'] kvs' fs' [Hk Hv] _ IHf]; intros IH; [done|].
      inversion IH as [|? ? Ht' IH']; subst. simpl in *; subst.
      rewrite String.eqb_refl. apply andb_true_iff; split; [apply andb_true_iff; split|].
      * done.
      * by apply Ht'.
      * by apply IHf.
  - simpl. rewrite orb_true_iff, IHa, IHb. split.
    + intros [?|?]; [by apply ty_union_l|by apply ty_union_r].
    + by inversion 1; [left|right].
Qed.

#[export] Instance has_type_dec v t : Decision (has_type v t).
Proof. refine (cast_if (decide (type_check t v = true))); by rewrite <- type_check_spec. Defined.

(** ** Typing of the answers *)

Lemma path_json_typed p : p <> [] -> has_type (path_json p) path_ty.
Proof.
  destruct p as [|x p]; [done|]. intros _. unfold path_json. rewrite map_cons. do 2 constructor; [constructor|].
  apply List.Forall_forall. intros v Hv. apply in_map_iff in Hv as (?&<-&_). constructor.
Qed.

Lemma paths_data_typed {A} (rows : list (list string * A)) :
  Forall (fun r => r.1 <> []) rows ->
  has_type (JArr (map (fun r => path_json r.1) rows)) (TArr path_ty).
Proof.
  intros Hne. constructor. apply List.Forall_forall. intros x Hx.
  apply in_map_iff in Hx as (r&<-&Hr). apply path_json_typed.
  by eapply List.Forall_forall in Hne.
Qed.

Lemma entry_typed kind s e d t :
  has_type d t -> has_type (JObj [(kind, JObj [("from", s); ("to", e); ("paths", d)])]) (entry_ty kind t).
Proof. intros Hd. repeat constructor; done. Qed.

Section typing.
Context {C : Type} `{CostOrder C}.

(** The head of the sorted rows is one of the rows. *)
Lemma sort_by_cost_head_in (rows : list (list string * C)) r rs :
  sort_by_cost rows = r :: rs -> In r rows.
Proof.
  intros Hs. pose proof (sort_by_cost_perm rows) as Hp. rewrite Hs in Hp.
  apply (Permutation_in r Hp). by left.
Qed.

(** C11: when every row of the result dict holds a non-empty path,
    [format_results_to_json] of the normalised answers is the envelope
    [{"answers": [...]}] with one answer per entry, in order, each of the
    type its query kind asks for: a [paths] record whose data is a list
    of node sequences, or a [cheapest] record whose data is one
    non-empty node sequence or [false]. *)
Theorem format_results_typed (res : list ((json * json * string) * list (list string * C))) :
  Forall (fun r => Forall (fun row => row.1 <> []) r.2) res ->
  exists answers,
    format_results_to_json (tidy_up_results res) = JObj [("answers", JArr answers)] /\
    Forall2 (fun a r => has_type a (kind_ty r.1.2)) answers res.
Proof.
  intros Hne. eexists; split; [reflexivity|]. unfold tidy_up_results.
  induction Hne as [|[[[s e] k] rows] res' Hr _ IH]; simpl; constructor; [|exact IH].
  unfold kind_ty; cbn [fst snd] in *. destruct (String.eqb k "paths"); simpl.
  - by apply entry_typed, paths_data_typed.
  - apply entry_typed. unfold format_cheapest_result; simpl.
    destruct (sort_by_cost rows) as [|r rs] eqn:Hs; [apply ty_union_r; constructor|].
    apply ty_union_l, path_json_typed.
    eapply List.Forall_forall in Hr; [exact Hr|]. by eapply sort_by_cost_head_in.
Qed.

End typing.

(** The types are not trivial: a [cheapest] answer whose data is [null]
    (Python's [None]) or the empty list is not of its type, the answer
    with [false] is. *)
Example cheapest_false_typed :
  has_type (JObj [("cheapest", JObj [("from", JStr "a"); ("to", JStr "b"); ("paths", JBool false)])])
    (kind_ty "cheapest") /\
  ~ has_type (JObj [("cheapest", JObj [("from", JStr "a"); ("to", JStr "b"); ("paths", JNull)])])
    (kind_ty "cheapest") /\
  ~ has_type (JObj [("cheapest", JObj [("from", JStr "a"); ("to", JStr "b"); ("paths", JArr [])])])
    (kind_ty "cheapest").
Proof. split; [|split]; apply (bool_decide_unpack _); vm_compute; reflexivity. Qed.

(** A witness of [format_results_typed] on two entries, one of each kind. *)
Lemma format_results_typed_witness :
  Forall (fun r => Forall (fun row => row.1 <> []) r.2)
    [((JStr "a", JStr "b", "paths"), [(["a"; "b"], 2 # 1); (["a"; "c"; "b"], 1 # 1)]);
     ((JStr "a", JStr "b", "cheapest"), [(["a"; "b"], 2 # 1); (["a"; "c"; "b"], 1 # 1)])]%Q /\
  exists answers,
    format_results_to_json (tidy_up_results
      [((JStr "a", JStr "b", "paths"), [(["a"; "b"], 2 # 1); (["a"; "c"; "b"], 1 # 1)]);
       ((JStr "a", JStr "b", "cheapest"), [(["a"; "b"], 2 # 1); (["a"; "c"; "b"], 1 # 1)])]%Q) =
      JObj [("answers", JArr answers)] /\
    Forall2 (fun a r => has_type a (kind_ty r.1.2)) answers
      [((JStr "a", JStr "b", "paths"), [(["a"; "b"], 2 # 1); (["a"; "c"; "b"], 1 # 1)]);
       ((JStr "a", JStr "b", "cheapest"), [(["a"; "b"], 2 # 1); (["a"; "c"; "b"], 1 # 1)])]%Q.
Proof.
  assert (Hne : Forall (fun r => Forall (fun row => row.1 <> []) r.2)
    [((JStr "a", JStr "b", "paths"), [(["a"; "b"], 2 # 1); (["a"; "c"; "b"], 1 # 1)]);
     ((JStr "a", JStr "b", "cheapest"), [(["a"; "b"], 2 # 1); (["a"; "c"; "b"], 1 # 1)])]%Q)
    by (repeat constructor; cbn [fst snd]; discriminate).
  split; [exact Hne|]. apply (format_results_typed _ Hne).
Defined.

End Answer.
