(* ===== verification/Dispatcher.v ===== *)
(** The query dispatcher: [process_queries] (lines 22-48 of
    [src/query_service/query_listener.py]).

    The database function [find_all_paths] is the interface
    [PathLookup]: it returns the rows for a pair of node identifiers in a
    graph, or raises ([DatabaseError] stands for [psycopg2.Error]). The
    result dict of the source is an association list in insertion order,
    keyed by [(start, end, query_type)]; looking a key up hashes it first,
    so an unhashable identifier (a list or a dict) raises [TypeError].

    The state of the loop, [dispatch_state], holds the result dict and
    the trace [calls] of the lookups issued, in order. [process_queries]
    returns [inl msg] when a lookup raised [psycopg2.Error] (the source
    prints ["Database error: " + msg] and returns [None]). *)

From S2P Require Import Prelude PyFloat Json QueryFormat Store.
Import PyFloat Json QueryFormat Registry.
Local Open Scope string_scope.
Local Open Scope list_scope.
Set Warnings "-clear-no-such-hyp".

Module Dispatcher.

(** The external pathfinding function [find_all_paths(start, end, graph_id)]. *)
Class PathLookup (Row : Type) := {
  find_all_paths : json -> json -> string -> res (list Row)
}.

Section dispatch.
Context {Row : Type} `{PathLookup Row}.

Definition key : Type := json * json * string.

Record dispatch_state := DispatchState {
  results : list (key * list Row);
  calls : list (json * json * string)
}.

Definition empty_state : dispatch_state := DispatchState [] [].

(** [==] on two items of a tuple: CPython compares the items with
    [PyObject_RichCompareBool], which answers [True] for the very same
    object before calling [==]. [json.loads] gives every [NaN] as the one
    float object [json.decoder.NaN], so two [nan] endpoints are equal
    items although [nan == nan] is false. *)
Definition item_eqb (a b : json) : bool :=
  match a, b with
  | JFloat PyNaN, JFloat PyNaN => true
  | _, _ => py_eq a b
  end.

(** Equality of two result keys (tuple equality). *)
Definition key_eqb (k1 k2 : key) : bool :=
  item_eqb k1.1.1 k2.1.1 && item_eqb k1.1.2 k2.1.2 && String.eqb k1.2 k2.2.

Definition dict_lookup (k : key) (d : list (key * list Row)) : option (list Row) :=
  match find (fun kv => key_eqb k kv.1) d with
  | Some kv => Some kv.2
  | None => None
  end.

(** [k in d]: hashing the tuple raises on an unhashable element. *)
Definition dict_contains (k : key) (d : list (key * list Row)) : res bool :=
  if py_hashable k.1.1 && py_hashable k.1.2 then Ok (bool_decide (is_Some (dict_lookup k d)))
  else Exc TypeError.

(** [d[k] = v]: an existing key keeps its place, a new one goes last. *)
Definition dict_set (k : key) (v : list Row) (d : list (key * list Row)) : list (key * list Row) :=
  if existsb (fun kv => key_eqb k kv.1) d
  then map (fun kv => if key_eqb k kv.1 then (kv.1, v) else kv) d
  else d ++ [(k, v)].

(** One pass of the loop (lines 28-47); [inl msg] is the [return None]
    of the handler. *)
Definition process_query (graph_id : string) (st : dispatch_state) (query : json)
  : res (string + dispatch_state) :=
  r ← get_query_type_and_nodes query;
  let '(query_type, start, stop) := r in
  let other_query_type := if String.eqb query_type "paths" then "cheapest" else "paths" in
  seen ← dict_contains (start, stop, query_type) (results st);
  if (seen : bool) then Ok (inr st) else
  seen_other ← dict_contains (start, stop, other_query_type) (results st);
  if (seen_other : bool) then
    match dict_lookup (start, stop, other_query_type) (results st) with
    | Some rows =>
        Ok (inr (DispatchState (dict_set (start, stop, query_type) rows (results st)) (calls st)))
    | None => Exc KeyError
    end
  else
    match find_all_paths start stop graph_id with
    | Ok rows =>
        Ok (inr (DispatchState (dict_set (start, stop, query_type) rows (results st))
                               (calls st ++ [(start, stop, graph_id)])))
    | Exc (DatabaseError msg) => Ok (inl msg)
    | Exc e => Exc e
    end.

Fixpoint process_loop (graph_id : string) (qs : list json) (st : dispatch_state)
  : res (string + dispatch_state) :=
  match qs with
  | [] => Ok (inr st)
  | q :: rest =>
      r ← process_query graph_id st q;
      match r with
      | inl msg => Ok (inl msg)
      | inr st' => process_loop graph_id rest st'
      end
  end.

(** [process_queries(queries)] with the register file it reads. *)
Definition process_queries (graph_id_file : option string) (queries : json)
  : res (string + dispatch_state) :=
  graph_id ← get_graph_id graph_id_file;
  qv ← py_getitem queries "queries";
  qs ← py_iter qv;
  process_loop graph_id qs empty_state.

(** The state after the queries with keys [P], when every lookup of the
    pair [(a, b)] returns [rows a b]: one entry per distinct key in order
    of first appearance, one lookup per distinct pair. *)
Definition spec_state (graph_id : string) (rows : string -> string -> list Row)
    (P : list (string * string * string)) : dispatch_state :=
  DispatchState
    (map (fun k => ((JStr k.1.1, JStr k.1.2, k.2), rows k.1.1 k.1.2)) (dedup_first P))
    (map (fun pr => (JStr pr.1, JStr pr.2, graph_id))
         (dedup_first (map (fun k => (k.1.1, k.1.2)) P))).

End dispatch.

(** ** A concrete lookup

    A stand-in for the database function on the graph ["g1"]: one direct
    path of cost 1 between any two distinct identifiers. *)
Definition sample_rows (a b : string) : list (list string * Z) :=
  if String.eqb a b then [] else [([a; b], 1%Z)].

Definition sample_lookup : PathLookup (list string * Z) := {|
  find_all_paths s e g :=
    match s, e with
    | JStr a, JStr b => if String.eqb g "g1" then Ok (sample_rows a b) else Ok []
    | _, _ => Exc (DatabaseError "invalid input syntax")
    end |}.

(** A lookup that always fails in the database. *)
Definition failing_lookup : PathLookup (list string * Z) := {|
  find_all_paths s e g := Exc (DatabaseError "function find_all_paths does not exist") |}.

Section proofs.
Context {Row : Type} `{PathLookup Row}.
Implicit Types (P : list (string * string * string)) (rows : string -> string -> list Row).

Lemma key_eqb_str a b k a' b' k' :
  key_eqb (JStr a, JStr b, k) (JStr a', JStr b', k') = bool_decide ((a, b, k) = (a', b', k')).
Proof.
  unfold key_eqb. simpl.
  destruct (String.eqb_spec a a'), (String.eqb_spec b b'), (String.eqb_spec k k');
    simpl; case_bool_decide; congruence.
Qed.

Lemma dict_lookup_spec rows a b k P :
  dict_lookup (JStr a, JStr b, k)
    (map (fun k => ((JStr k.1.1, JStr k.1.2, k.2), rows k.1.1 k.1.2)) P) =
  if bool_decide ((a, b, k) ∈ P) then Some (rows a b) else None.
Proof.
  induction P as [|[[a' b'] k'] P IH]; [done|]. unfold dict_lookup in *. cbn [map find fst snd].
  rewrite key_eqb_str. destruct (decide ((a, b, k) = (a', b', k'))) as [Heq|Hne].
  - rewrite (bool_decide_eq_true_2 _ Heq). injection Heq as <- <- <-. simpl.
    rewrite bool_decide_eq_true_2; [done|set_solver].
  - rewrite (bool_decide_eq_false_2 _ Hne), IH. apply (f_equal (fun c : bool => if c then Some (rows a b) else None)).
    apply bool_decide_ext. set_solver.
Qed.

Lemma existsb_find {A} (f : A -> bool) l :
  existsb f l = match find f l with Some _ => true | None => false end.
Proof. induction l as [|x l IH]; simpl; [done|]. by destruct (f x). Qed.

Lemma dict_lookup_spec_state gid rows a b k P :
  dict_lookup (JStr a, JStr b, k) (results (spec_state gid rows P)) =
  if bool_decide ((a, b, k) ∈ P) then Some (rows a b) else None.
Proof.
  cbn [results spec_state]. rewrite dict_lookup_spec.
  case_bool_decide_on ((a, b, k) ∈ P) Hin.
  - by rewrite bool_decide_eq_true_2 by (by apply elem_of_dedup_first).
  - by rewrite bool_decide_eq_false_2 by (by rewrite elem_of_dedup_first).
Qed.

Lemma dict_contains_spec gid rows a b k P :
  dict_contains (JStr a, JStr b, k) (results (spec_state gid rows P)) =
  Ok (bool_decide ((a, b, k) ∈ P)).
Proof.
  unfold dict_contains. cbn [py_hashable fst snd andb]. rewrite dict_lookup_spec_state. f_equal.
  case_bool_decide_on ((a, b, k) ∈ P) Hin.
  - apply bool_decide_eq_true_2. by eexists.
  - apply bool_decide_eq_false_2. by intros [].
Qed.

Lemma dict_set_absent gid rows a b k P v :
  (a, b, k) ∉ P ->
  dict_set (JStr a, JStr b, k) v (results (spec_state gid rows P)) =
  results (spec_state gid rows P) ++ [((JStr a, JStr b, k), v)].
Proof.
  intros Hn. unfold dict_set. rewrite existsb_find.
  pose proof (dict_lookup_spec rows a b k (dedup_first P)) as Hl. unfold dict_lookup in Hl.
  rewrite bool_decide_eq_false_2 in Hl by (rewrite elem_of_dedup_first; done).
  simpl. by destruct (find _ _).
Qed.

Lemma spec_state_snoc gid rows P a b k :
  spec_state gid rows (P ++ [(a, b, k)]) =
  DispatchState
    (if bool_decide ((a, b, k) ∈ P) then results (spec_state gid rows P)
     else results (spec_state gid rows P) ++ [((JStr a, JStr b, k), rows a b)])
    (if bool_decide ((a, b) ∈ map (fun k => (k.1.1, k.1.2)) P) then calls (spec_state gid rows P)
     else calls (spec_state gid rows P) ++ [(JStr a, JStr b, gid)]).
Proof.
  unfold spec_state. rewrite map_app, dedup_first_snoc. cbn [map fst snd]. rewrite dedup_first_snoc.
  destruct (decide ((a, b, k) ∈ dedup_first P)) as [H1|H1];
    destruct (decide ((a, b) ∈ dedup_first (map (fun k => (k.1.1, k.1.2)) P))) as [H2|H2];
    rewrite elem_of_dedup_first in H1; rewrite elem_of_dedup_first in H2;
    rewrite ?(bool_decide_eq_true_2 _ H1), ?(bool_decide_eq_false_2 _ H1),
      ?(bool_decide_eq_true_2 _ H2), ?(bool_decide_eq_false_2 _ H2), ?map_app; done.
Qed.

Lemma get_query_type_and_nodes_kind q k s e :
  get_query_type_and_nodes q = Ok (k, s, e) -> k = "paths" \/ k = "cheapest".
Proof.
  unfold get_query_type_and_nodes.
  destruct (py_in "paths" q) as [[]|]; autorewrite with keeling_rw; cbn iota; [| |discriminate];
    repeat (destruct (py_getitem _ _); autorewrite with keeling_rw; try discriminate);
    intros [= <- _ _]; auto.
Qed.

Lemma process_query_step gid rows P q a b k :
  (forall a b, find_all_paths (JStr a) (JStr b) gid = Ok (rows a b)) ->
  Forall (fun k => k.2 = "paths" \/ k.2 = "cheapest") P ->
  get_query_type_and_nodes q = Ok (k, JStr a, JStr b) ->
  process_query gid (spec_state gid rows P) q = Ok (inr (spec_state gid rows (P ++ [(a, b, k)]))).
Proof.
  intros Hfind Hkinds Hq. pose proof (get_query_type_and_nodes_kind _ _ _ _ Hq) as Hk.
  unfold process_query. rewrite Hq, bind_Ok. cbn iota beta.
  set (o := if String.eqb k "paths" then "cheapest" else "paths").
  rewrite (dict_contains_spec gid rows a b k P), bind_Ok, spec_state_snoc.
  case_bool_decide_on ((a, b, k) ∈ P) Hin.
  { rewrite bool_decide_eq_true_2.
    - by destruct (spec_state gid rows P).
    - apply list_elem_of_fmap. by exists (a, b, k). }
  rewrite (dict_contains_spec gid rows a b o P), bind_Ok.
  case_bool_decide_on ((a, b, o) ∈ P) Hino.
  - rewrite dict_lookup_spec_state, (bool_decide_eq_true_2 _ Hino).
    rewrite dict_set_absent by done.
    rewrite bool_decide_eq_true_2; [done|]. apply list_elem_of_fmap. by exists (a, b, o).
  - rewrite Hfind, dict_set_absent by done.
    rewrite bool_decide_eq_false_2; [done|].
    intros Hm. apply list_elem_of_fmap in Hm as ([[a' b'] k'] & Heq & Hin').
    simpl in Heq. injection Heq as -> ->.
    rewrite Forall_forall in Hkinds. destruct (Hkinds _ Hin') as [Hk'|Hk']; simpl in Hk'; subst k';
      unfold o in Hino; destruct Hk as [->| ->]; simpl in Hino; contradiction.
Qed.

Lemma process_loop_from gid rows qs keys : forall P,
  (forall a b, find_all_paths (JStr a) (JStr b) gid = Ok (rows a b)) ->
  Forall (fun k => k.2 = "paths" \/ k.2 = "cheapest") P ->
  Forall2 (fun q k => get_query_type_and_nodes q = Ok (k.2, JStr k.1.1, JStr k.1.2)) qs keys ->
  process_loop gid qs (spec_state gid rows P) = Ok (inr (spec_state gid rows (P ++ keys))).
Proof.
  intros P Hfind Hkinds Hqs. revert P Hkinds.
  induction Hqs as [|q [[a b] k] qs keys Hq _ IH]; intros P Hkinds; simpl.
  - by rewrite app_nil_r.
  - rewrite (process_query_step gid rows P q a b k Hfind Hkinds Hq), bind_Ok.
    rewrite IH, <- app_assoc; [done|]. apply Forall_app. split; [done|].
    constructor; [|done]. simpl. by eapply get_query_type_and_nodes_kind.
Qed.

Lemma process_queries_run file gid rows qs keys :
  get_graph_id file = Ok gid ->
  (forall a b, find_all_paths (JStr a) (JStr b) gid = Ok (rows a b)) ->
  Forall2 (fun q k => get_query_type_and_nodes q = Ok (k.2, JStr k.1.1, JStr k.1.2)) qs keys ->
  process_queries file (batch qs) = Ok (inr (spec_state gid rows keys)).
Proof.
  intros Hgid Hfind Hqs. unfold process_queries. rewrite Hgid. simpl.
  apply (process_loop_from gid rows qs keys []); [done|constructor|done].
Qed.

(** C3: on a batch whose queries name their endpoints with strings,
    and with a lookup that answers [rows a b] for the pair [(a, b)],
    [process_queries] returns a dict whose keys are the distinct
    [(start, end, kind)] of the batch in order of first appearance, in
    which every such key holds the rows of the lookup of its pair (both
    kinds of a pair the same rows) and no other key is present; and it
    issues exactly one lookup per distinct ordered pair [(start, end)],
    in order of first appearance. *)
Theorem process_queries_spec file gid rows qs keys :
  get_graph_id file = Ok gid ->
  (forall a b, find_all_paths (JStr a) (JStr b) gid = Ok (rows a b)) ->
  Forall2 (fun q k => get_query_type_and_nodes q = Ok (k.2, JStr k.1.1, JStr k.1.2)) qs keys ->
  exists st, process_queries file (batch qs) = Ok (inr st) /\
    map fst (results st) = map (fun k => (JStr k.1.1, JStr k.1.2, k.2)) (dedup_first keys) /\
    (forall a b k, dict_lookup (JStr a, JStr b, k) (results st) =
                   if bool_decide ((a, b, k) ∈ keys) then Some (rows a b) else None) /\
    calls st = map (fun pr => (JStr pr.1, JStr pr.2, gid))
                   (dedup_first (map (fun k => (k.1.1, k.1.2)) keys)).
Proof.
  intros Hgid Hfind Hqs. exists (spec_state gid rows keys). split_and!.
  - by apply process_queries_run.
  - cbn [results spec_state]. by rewrite map_map.
  - intros a b k. apply dict_lookup_spec_state.
  - done.
Qed.

Lemma spec_state_calls_NoDup gid rows P : NoDup (calls (spec_state gid rows P)).
Proof.
  cbn [calls spec_state]. apply (NoDup_fmap_2_strong _); [|auto with keeling].
  intros [a b] [a' b'] _ _ Heq. simpl in Heq. by injection Heq as -> ->.
Qed.

(** The lookups issued are pairwise distinct ordered pairs, at most one
    per query of the batch. *)
Theorem process_queries_lookup_count file gid rows qs keys st :
  get_graph_id file = Ok gid ->
  (forall a b, find_all_paths (JStr a) (JStr b) gid = Ok (rows a b)) ->
  Forall2 (fun q k => get_query_type_and_nodes q = Ok (k.2, JStr k.1.1, JStr k.1.2)) qs keys ->
  process_queries file (batch qs) = Ok (inr st) ->
  NoDup (calls st) /\ length (calls st) <= length qs.
Proof.
  intros Hgid Hfind Hqs Hp.
  rewrite (process_queries_run file gid rows qs keys) in Hp by done.
  injection Hp as <-. split; [apply spec_state_calls_NoDup|]. simpl. rewrite length_map.
  etransitivity; [apply length_dedup_first|]. rewrite length_map.
  by rewrite (Forall2_length _ _ _ Hqs).
Qed.


End proofs.

Lemma process_queries_spec_witness :
  exists st,
    @process_queries _ sample_lookup (Some ("g1" ++ String "010"%char EmptyString)%string)
      (batch [q_paths "a" "b"; q_cheapest "a" "b"; q_paths "a" "b"]) = Ok (inr st) /\
    map fst (results st) =
      map (fun k => (JStr k.1.1, JStr k.1.2, k.2))
        (dedup_first [("a", "b", "paths"); ("a", "b", "cheapest"); ("a", "b", "paths")]) /\
    (forall a b k, dict_lookup (JStr a, JStr b, k) (results st) =
       if bool_decide ((a, b, k) ∈ [("a", "b", "paths"); ("a", "b", "cheapest"); ("a", "b", "paths")])
       then Some (sample_rows a b) else None) /\
    calls st = map (fun pr => (JStr pr.1, JStr pr.2, "g1"))
      (dedup_first (map (fun k => (k.1.1, k.1.2))
         [("a", "b", "paths"); ("a", "b", "cheapest"); ("a", "b", "paths")])).
Proof.
  apply (@process_queries_spec _ sample_lookup
           (Some ("g1" ++ String "010"%char EmptyString)%string) "g1" sample_rows).
  - reflexivity.
  - intros a b. reflexivity.
  - repeat constructor.
Defined.

(** The paths query and the cheapest query of one pair share a lookup. *)
Example shared_lookup :
  match @process_queries _ sample_lookup (Some "g1")
          (batch [q_paths "a" "b"; q_cheapest "a" "b"]) with
  | Ok (inr st) => calls st = [(JStr "a", JStr "b", "g1")] /\
                   results st = [((JStr "a", JStr "b", "paths"), [(["a"; "b"], 1%Z)]);
                                 ((JStr "a", JStr "b", "cheapest"), [(["a"; "b"], 1%Z)])]
  | _ => False
  end.
Proof. split; reflexivity. Qed.


(** A database error ends the batch with its message. *)
Example database_error_stops :
  @process_queries _ failing_lookup (Some "g1")
    (batch [q_paths "a" "b"; q_cheapest "c" "d"]) =
  Ok (inl "function find_all_paths does not exist").
Proof. reflexivity. Qed.

End Dispatcher.
