(* ===== verification/QueryService.v ===== *)
(** The query entry point: [receive_and_send_query] (lines 114-127 of
    [src/query_service/query_listener.py]), with [json.loads] and
    [json.dumps(..., indent=2)] of [JsonText].

    [receive_and_send_query] takes the text [sys.stdin.read()] returned
    and the content of the register file, and runs [verify_valid_json]
    (lines 107-111: [None] when [json.loads] raises [JSONDecodeError]),
    the shape check, [process_queries], [tidy_up_results] and
    [format_results_to_json]. A run is modelled as the lines it prints
    and the way it ends ([Ok tt], or the exception that escapes). The
    [repr] of a finite float is a parameter of the section
    ([float.__repr__] is not modelled). *)

From S2P Require Import Prelude PyFloat Json JsonText QueryFormat Store Dispatcher Normalizer.
From Stdlib Require Import QArith.
Import PyFloat Json JsonText QueryFormat Registry Dispatcher Normalizer.
Local Open Scope list_scope.
Local Open Scope string_scope.
Set Warnings "-clear-no-such-hyp".

Module QueryService.

(** ** The handler *)

Definition quoted (s : string) : string := dq ++ s ++ dq.

(** The diagnostic of lines 119-121. *)
Definition invalid_format_msg : string :=
  "Invalid format. Please try again. Valid format looks like: " ++
  "{" ++ quoted "queries" ++ ": [{" ++ quoted "paths" ++ ": {" ++ quoted "start" ++ ": " ++
  quoted "node id" ++ "," ++ quoted "end" ++ ": " ++ quoted "node id" ++ "}}, " ++
  "{" ++ quoted "cheapest" ++ ": {" ++ quoted "start" ++ ": " ++ quoted "node id" ++ ", " ++
  quoted "end" ++ ": " ++ quoted "node id" ++ "}}]}".

Section service.
Context {C : Type} `{CostOrder C} `{PathLookup (list string * C)}.
Variable repr_finite : bool -> N -> Z -> string.

(** Lines 115-127, for the text [query_str] read from stdin: the printed
    lines and the outcome. A database error returns [None] from
    [process_queries], after its message; the following
    [tidy_up_results(None)] calls [None.items()]. *)
Definition receive_and_send_query (query_str : string) (graph_id_file : option string)
  : list string * res unit :=
  let invalid := ([invalid_format_msg], Ok tt) in
  match verify_valid_json query_str with
  | None => invalid
  | Some q =>
      if negb (py_truthy q) then invalid else
      match verify_correct_query_format q with
      | Exc e => ([], Exc e)
      | Ok false => invalid
      | Ok true =>
          match process_queries graph_id_file q with
          | Exc e => ([], Exc e)
          | Ok (inl msg) => (["Database error: " ++ msg], Exc AttributeError)
          | Ok (inr st) =>
              ([dumps repr_finite 0 (format_results_to_json (tidy_up_results (results st)))],
               Ok tt)
          end
      end
  end.

(** The answer the specification asks for a distinct query
    [(start, end, kind)] when the lookup of a pair gives [rows]: every
    path, or the path of the first row no row is cheaper than. *)
Definition answer_of (rows : string -> string -> list (list string * C))
    (k : string * string * string) : string * json * json * json :=
  let '(a, b, kind) := k in
  if String.eqb kind "paths"
  then ("paths", JStr a, JStr b, JArr (map (fun r => path_json r.1) (rows a b)))
  else ("cheapest", JStr a, JStr b,
        match cheapest_ref (rows a b) with Some r => path_json r.1 | None => JBool false end).

End service.

(** Lines joined by new lines, to write expected outputs. *)
Definition lines (ls : list string) : string := String.concat nl ls.

(** The text of a query batch, written as a client writes it. *)
Definition query_text (kind start stop : string) : string :=
  "{" ++ quoted kind ++ ": {" ++ quoted "start" ++ ": " ++ quoted start ++ ", " ++
  quoted "end" ++ ": " ++ quoted stop ++ "}}".

Definition batch_text (qs : list string) : string :=
  "{" ++ quoted "queries" ++ ": [" ++ String.concat ", " qs ++ "]}".

(** A lookup on the graph ["g1"] with rational costs: two paths from
    ["a"] to ["b"], the direct one dearer; nothing else. *)
Definition sample_q_rows (a b : string) : list (list string * Q) :=
  if String.eqb a "a" && String.eqb b "b" then [(["a"; "b"], 3 # 1); (["a"; "x"; "b"], 2 # 1)]%Q
  else [].

Definition sample_q_lookup : PathLookup (list string * Q) := {|
  find_all_paths s e g :=
    match s, e with
    | JStr a, JStr b => Ok (sample_q_rows a b)
    | _, _ => Exc (DatabaseError "invalid input syntax")
    end |}.

Definition failing_q_lookup : PathLookup (list string * Q) := {|
  find_all_paths s e g := Exc (DatabaseError "connection already closed") |}.

Definition no_repr : bool -> N -> Z -> string := fun _ _ _ => "0.0".

Section proofs.
Context {C : Type} `{CostOrder C} `{PathLookup (list string * C)}.
Implicit Types (rows : string -> string -> list (list string * C)).

Lemma tidy_up_results_spec gid rows P :
  tidy_up_results (results (spec_state gid rows P)) = map (answer_of rows) (dedup_first P).
Proof.
  cbn [results spec_state]. unfold tidy_up_results. rewrite map_map. apply map_ext.
  intros [[a b] k]. simpl. destruct (String.eqb k "paths"); [done|].
  unfold format_cheapest_result. rewrite <- sort_head_cheapest. by destruct (sort_by_cost _).
Qed.

(** A batch that is JSON, truthy, of the right shape and dispatched
    without error prints the indented JSON of its normalised results. *)
Lemma receive_and_send_query_ok repr_finite query_str file q st :
  verify_valid_json query_str = Some q -> py_truthy q = true ->
  verify_correct_query_format q = Ok true -> process_queries file q = Ok (inr st) ->
  receive_and_send_query repr_finite query_str file =
  ([dumps repr_finite 0 (format_results_to_json (tidy_up_results (results st)))], Ok tt).
Proof.
  intros Hjson Ht Hfmt Hp. unfold receive_and_send_query. by rewrite Hjson, Ht, Hfmt, Hp.
Qed.

(** C2: on a well-formed batch whose queries name their endpoints with
    strings, with a lookup that answers [rows a b] for the pair
    [(a, b)], the handler prints exactly one document: the indented JSON
    of one answer per distinct query, in order of first appearance, each
    holding every path of its pair ([paths]) or the path of the first row
    no row is cheaper than, [false] when there is none ([cheapest]). *)
Theorem receive_and_send_query_spec (repr_finite : bool -> N -> Z -> string) query_str file gid
    rows qs keys :
  verify_valid_json query_str = Some (batch qs) ->
  verify_correct_query_format (batch qs) = Ok true ->
  get_graph_id file = Ok gid ->
  (forall a b, find_all_paths (JStr a) (JStr b) gid = Ok (rows a b)) ->
  Forall2 (fun q k => get_query_type_and_nodes q = Ok (k.2, JStr k.1.1, JStr k.1.2)) qs keys ->
  receive_and_send_query repr_finite query_str file =
  ([dumps repr_finite 0 (format_results_to_json (map (answer_of rows) (dedup_first keys)))], Ok tt).
Proof.
  intros Hjson Hfmt Hgid Hfind Hqs.
  rewrite (receive_and_send_query_ok _ _ _ _ _ Hjson eq_refl Hfmt
             (process_queries_run file gid rows qs keys Hgid Hfind Hqs)).
  by rewrite tidy_up_results_spec.
Qed.

(** C23: on a text without a [\u] escape above [\u00ff] (the texts on
    which [json_loads] is Python's [json.loads]), input that is not JSON, a
    falsy document ([null], [false], [0], [""], [[]], [{}]) or a document
    the shape check answers [False] for prints the one fixed diagnostic and
    nothing else. *)
Theorem receive_and_send_query_invalid (repr_finite : bool -> N -> Z -> string) query_str file :
  wide_escape_free query_str = true ->
  match verify_valid_json query_str with
  | None => True
  | Some q => py_truthy q = false \/ verify_correct_query_format q = Ok false
  end ->
  receive_and_send_query repr_finite query_str file = ([invalid_format_msg], Ok tt).
Proof.
  intros _. unfold receive_and_send_query. destruct (verify_valid_json query_str) as [q|]; [|done].
  intros [->| ->]; [done|]. by destruct (py_truthy q).
Qed.


(** C33: on a well-formed batch, when the lookup of the first query
    fails in the database, the handler prints the database error and
    then [tidy_up_results(None)] raises [AttributeError] out of it,
    although the specification lets no exception past the batch. *)
Theorem database_error_escapes (repr_finite : bool -> N -> Z -> string) query_str file gid
    q qs kind a b msg :
  verify_valid_json query_str = Some (batch (q :: qs)) ->
  verify_correct_query_format (batch (q :: qs)) = Ok true ->
  get_graph_id file = Ok gid ->
  get_query_type_and_nodes q = Ok (kind, JStr a, JStr b) ->
  find_all_paths (JStr a) (JStr b) gid = Exc (DatabaseError msg) ->
  receive_and_send_query repr_finite query_str file =
  (["Database error: " ++ msg], Exc AttributeError).
Proof.
  intros Hjson Hfmt Hgid Hq Hfind. unfold receive_and_send_query.
  rewrite Hjson, Hfmt. simpl. unfold process_queries. rewrite Hgid. simpl.
  unfold process_query. rewrite Hq. simpl. by rewrite Hfind.
Qed.


End proofs.

(** [format_results_to_json] followed by [json.dumps(indent=2)]
    gives the text of the test [test_format_results_to_json]. *)
Theorem format_results_to_json_test :
  dumps no_repr 0
    (format_results_to_json
       [("paths", JStr "a", JStr "b", JArr [path_json ["a"; "b"]; path_json ["a"; "x"; "b"]]);
        ("cheapest", JStr "b", JStr "c", path_json ["b"; "c"]);
        ("cheapest", JStr "b", JStr "x", JBool false)]) =
  lines
    ["{";
     "  " ++ quoted "answers" ++ ": [";
     "    {";
     "      " ++ quoted "paths" ++ ": {";
     "        " ++ quoted "from" ++ ": " ++ quoted "a" ++ ",";
     "        " ++ quoted "to" ++ ": " ++ quoted "b" ++ ",";
     "        " ++ quoted "paths" ++ ": [";
     "          [";
     "            " ++ quoted "a" ++ ",";
     "            " ++ quoted "b";
     "          ],";
     "          [";
     "            " ++ quoted "a" ++ ",";
     "            " ++ quoted "x" ++ ",";
     "            " ++ quoted "b";
     "          ]";
     "        ]";
     "      }";
     "    },";
     "    {";
     "      " ++ quoted "cheapest" ++ ": {";
     "        " ++ quoted "from" ++ ": " ++ quoted "b" ++ ",";
     "        " ++ quoted "to" ++ ": " ++ quoted "c" ++ ",";
     "        " ++ quoted "paths" ++ ": [";
     "          " ++ quoted "b" ++ ",";
     "          " ++ quoted "c";
     "        ]";
     "      }";
     "    },";
     "    {";
     "      " ++ quoted "cheapest" ++ ": {";
     "        " ++ quoted "from" ++ ": " ++ quoted "b" ++ ",";
     "        " ++ quoted "to" ++ ": " ++ quoted "x" ++ ",";
     "        " ++ quoted "paths" ++ ": false";
     "      }";
     "    }";
     "  ]";
     "}"].
Proof. vm_compute. reflexivity. Qed.

Lemma receive_and_send_query_spec_witness :
  @receive_and_send_query Q _ sample_q_lookup no_repr
    (batch_text [query_text "paths" "a" "b"; query_text "cheapest" "a" "b";
                 query_text "cheapest" "b" "a"]) (Some "g1") =
  ([dumps no_repr 0 (format_results_to_json
      (map (answer_of sample_q_rows)
         (dedup_first [("a", "b", "paths"); ("a", "b", "cheapest"); ("b", "a", "cheapest")])))],
   Ok tt).
Proof.
  apply (@receive_and_send_query_spec Q _ sample_q_lookup no_repr _ (Some "g1") "g1" _
           [q_paths "a" "b"; q_cheapest "a" "b"; q_cheapest "b" "a"]).
  - vm_compute. reflexivity.
  - reflexivity.
  - reflexivity.
  - intros a b. reflexivity.
  - repeat constructor.
Defined.

Lemma receive_and_send_query_invalid_witness :
  @receive_and_send_query Q _ sample_q_lookup no_repr
    (batch_text ["{" ++ quoted "paths" ++ ": {" ++ quoted "start" ++ ": " ++ quoted "a" ++ "}}"])
    (Some "g1") =
  ([invalid_format_msg], Ok tt).
Proof.
  apply receive_and_send_query_invalid; [reflexivity|]. vm_compute. right. reflexivity.
Defined.

(** The test [test_receive_and_send_query_invalid_json]: text that is not
    JSON gets the diagnostic. *)
Example receive_and_send_query_invalid_json :
  @receive_and_send_query Q _ sample_q_lookup no_repr
    ("{" ++ quoted "queries" ++ ": [{" ++ quoted "paths" ++ ": " ++ quoted "start" ++ ": " ++
     quoted "a" ++ ", " ++ quoted "end" ++ ": " ++ quoted "b" ++ "}") (Some "g1") =
  ([invalid_format_msg], Ok tt).
Proof. vm_compute. reflexivity. Qed.

(** The batch of the test [test_receive_and_send_query_valid]; the
    lookup here returns two rows, the paths answer lists both. *)
Example receive_and_send_query_paths :
  @receive_and_send_query Q _ sample_q_lookup no_repr
    (batch_text [query_text "paths" "a" "b"]) (Some "g1") =
  ([lines
      ["{";
       "  " ++ quoted "answers" ++ ": [";
       "    {";
       "      " ++ quoted "paths" ++ ": {";
       "        " ++ quoted "from" ++ ": " ++ quoted "a" ++ ",";
       "        " ++ quoted "to" ++ ": " ++ quoted "b" ++ ",";
       "        " ++ quoted "paths" ++ ": [";
       "          [";
       "            " ++ quoted "a" ++ ",";
       "            " ++ quoted "b";
       "          ],";
       "          [";
       "            " ++ quoted "a" ++ ",";
       "            " ++ quoted "x" ++ ",";
       "            " ++ quoted "b";
       "          ]";
       "        ]";
       "      }";
       "    }";
       "  ]";
       "}"]], Ok tt).
Proof. vm_compute. reflexivity. Qed.

(** A cheapest query answers the cheaper, second, path. *)
Example receive_and_send_query_cheapest :
  @receive_and_send_query Q _ sample_q_lookup no_repr
    (batch_text [query_text "cheapest" "a" "b"]) (Some "g1") =
  ([lines
      ["{";
       "  " ++ quoted "answers" ++ ": [";
       "    {";
       "      " ++ quoted "cheapest" ++ ": {";
       "        " ++ quoted "from" ++ ": " ++ quoted "a" ++ ",";
       "        " ++ quoted "to" ++ ": " ++ quoted "b" ++ ",";
       "        " ++ quoted "paths" ++ ": [";
       "          " ++ quoted "a" ++ ",";
       "          " ++ quoted "x" ++ ",";
       "          " ++ quoted "b";
       "        ]";
       "      }";
       "    }";
       "  ]";
       "}"]], Ok tt).
Proof. vm_compute. reflexivity. Qed.

Lemma database_error_escapes_witness :
  @receive_and_send_query Q _ failing_q_lookup no_repr
    (batch_text [query_text "paths" "a" "b"]) (Some "g1") =
  (["Database error: " ++ "connection already closed"], Exc AttributeError).
Proof.
  apply (@database_error_escapes Q _ failing_q_lookup no_repr _ (Some "g1") "g1"
           (q_paths "a" "b") [] "paths" "a" "b").
  - vm_compute. reflexivity.
  - vm_compute. reflexivity.
  - reflexivity.
  - reflexivity.
  - reflexivity.
Defined.


End QueryService.
