(* ===== verification/System.v ===== *)
(** The two processes of the system, working on the shared state.

    The downloader container runs [src/manager.py]: [run_setup] prints
    "Running initial graph data setup..." and runs [set_up_graph_data]
    (download, validation, insertion), then [wait_for_queries] prints
    "Waiting for queries..." and blocks on [input()]. The query container
    runs [receive_and_send_query] once per batch read from stdin. The two
    share the register file [/tmp/graph_id.txt] (written by [set_graph_id],
    read by [get_graph_id]) and the database (written by
    [insert_graph_data], read by the database function [find_all_paths]).

    [manager_main] is the main block of [src/manager.py]; the system state
    [sys] is the shared [world] of [Setup] (register, database, the
    downloader's output) with the output of the query side. [sys_step]
    interleaves runs of the two processes in any order: a run of the
    downloader against whatever the HTTP endpoint serves, or a batch of
    queries. The lookup the query side performs is a function
    [lookup_of] of the database contents (the SQL function is not part of
    the sources). *)

From S2P Require Import Prelude PyFloat Json JsonText QueryFormat Xml Validator Extractor Store Setup Config Dispatcher Normalizer QueryService.
From Stdlib Require Import QArith.
Import PyFloat Json JsonText QueryFormat ElementTree Validator Extractor Store Registry Setup
  Dispatcher Normalizer QueryService.
Import Config Downloader.
Local Open Scope string_scope.
Local Open Scope list_scope.
Set Warnings "-clear-no-such-hyp".

Module System.

Definition msg_waiting := "Waiting for queries...".

Record sys := Sys {
  sys_world : world;
  listener_out : list string
}.

Definition sys_init : sys := Sys empty_world [].

Section system.
Context {C : Type} `{CostOrder C}.
(** The database function [find_all_paths] on the current contents. *)
Variable lookup_of : db -> PathLookup (list string * C).
Variable repr_finite : bool -> N -> Z -> string.
(** [ET.fromstring] *)
Variable et_fromstring : string -> option element.

(** The main block of [src/manager.py] (lines 4-18): [run_setup()], then
    [wait_for_queries()], which prints its line and blocks; an exception
    of the set-up ends the process before it. *)
Definition manager_main (http_get : string -> res response) (env : environ) (w : world)
  : world * res unit :=
  let '(w1, r) := set_up_graph_data_http http_get et_fromstring env (say w msg_running) in
  match r with
  | Exc e => (w1, Exc e)
  | Ok _ => (say w1 msg_waiting, Ok tt)
  end.

(** One run of [receive_and_send_query] on the text [query_str], against
    the current register and database. *)
Definition listener_run (s : sys) (query_str : string) : sys :=
  let w := sys_world s in
  Sys w (listener_out s ++
         fst (@receive_and_send_query C _ (lookup_of (database w)) repr_finite
                query_str (graph_id_file w))).

(** The interleaving of the two processes. *)
Inductive sys_step : sys -> sys -> Prop :=
| step_manager http_get env s :
    sys_step s (Sys (fst (manager_main http_get env (sys_world s))) (listener_out s))
| step_query query_str s : sys_step s (listener_run s query_str).

Definition sys_reachable (s : sys) : Prop := rtc sys_step sys_init s.

End system.

(** A database function that finds the paths of [sample_q_rows] in any
    stored graph, and nothing in a graph that is not stored. *)
Definition sample_db_lookup (d : db) : PathLookup (list string * Q) := {|
  find_all_paths s e g :=
    match s, e with
    | JStr a, JStr b => if graph_id_exists (Some g) d then Ok (sample_q_rows a b) else Ok []
    | _, _ => Exc (DatabaseError "invalid input syntax")
    end |}.

(** An endpoint that serves the document [body]. *)
Definition serve (body : string) : string -> res response := fun _ => Ok (Response 200 body).

(** The XML parser answering the document of [Validator.sample_valid]
    (graph ["g0"], one node, one edge), and the run of the main block on
    it from the empty system. *)
Definition sample_parse : string -> option element := fun _ => Some sample_valid.

Definition sample_run : sys :=
  Sys (fst (manager_main sample_parse (serve "<graph/>") ∅ (sys_world sys_init)))
      (listener_out sys_init).

Definition sample_query : string := batch_text [query_text "paths" "a" "b"].

Section proofs.
Context {C : Type} `{CostOrder C}.
Variable lookup_of : db -> PathLookup (list string * C).
Variable repr_finite : bool -> N -> Z -> string.
Variable et_fromstring : string -> option element.

(** A run of the main block is a download that raises, or one run of
    [set_up_graph_data] on what was fetched. *)
Lemma manager_main_run http env w :
  (exists e, manager_main et_fromstring http env w = (say w msg_running, Exc e)) \/
  exists f, manager_main et_fromstring http env w =
    let '(w1, r) := set_up_graph_data f (say w msg_running) in
    match r with Exc e => (w1, Exc e) | Ok _ => (say w1 msg_waiting, Ok tt) end.
Proof.
  unfold manager_main, set_up_graph_data_http.
  destruct (download_graph http env) as [[x|]|e]; eauto.
Qed.

(** The register and the database after a run of the main block are
    those of the world before it, or those after one run of the set-up. *)
Lemma manager_main_state http env w :
  (graph_id_file (fst (manager_main et_fromstring http env w)) = graph_id_file w /\
   database (fst (manager_main et_fromstring http env w)) = database w) \/
  exists f, graph_id_file (fst (manager_main et_fromstring http env w)) =
              graph_id_file (fst (set_up_graph_data f (say w msg_running))) /\
            database (fst (manager_main et_fromstring http env w)) =
              database (fst (set_up_graph_data f (say w msg_running))).
Proof.
  destruct (manager_main_run http env w) as [(e&->)|(f&->)]; [by left|right; exists f].
  by destruct (set_up_graph_data f (say w msg_running)) as [w1 [[]|e]].
Qed.

(** A step of the system is zero or one run of the ingest process on
    the register and the database. *)
Lemma sys_step_sim s s' w :
  sys_step lookup_of repr_finite et_fromstring s s' ->
  graph_id_file w = graph_id_file (sys_world s) -> database w = database (sys_world s) ->
  exists w', rtc ingest_step w w' /\ graph_id_file w' = graph_id_file (sys_world s') /\
             database w' = database (sys_world s').
Proof.
  intros [http env s0|q s0] Hf Hd; [|by exists w]. cbn [sys_world].
  destruct (manager_main_state http env (sys_world s0)) as [[-> ->]|(f&->&->)]; [by exists w|].
  exists (fst (set_up_graph_data f (say w msg_running))). split; [apply rtc_once, ingest_run|].
  by destruct (set_up_graph_data_state f (say w msg_running) (say (sys_world s0) msg_running))
    as (?&?&_).
Qed.

(** Every reachable state of the system keeps referential integrity. *)
Lemma sys_reachable_wf s :
  sys_reachable lookup_of repr_finite et_fromstring s -> store_wf (database (sys_world s)).
Proof.
  apply (rtc_ind_r (fun s => store_wf (database (sys_world s)))); [apply empty_db_wf|].
  intros s1 s2 _ Hstep IH. destruct Hstep as [http env s0|q s0]; [|done]. cbn [sys_world].
  destruct (manager_main_state http env (sys_world s0)) as [[_ ->]|(f&_&->)]; [done|].
  by apply set_up_graph_data_wf.
Qed.

(** A run of the main block that prints the success line has stored a
    graph that was not stored before, and the register names it. *)
Lemma manager_main_success http env w w' :
  manager_main et_fromstring http env w = (w', Ok tt) ->
  stdout w' = stdout w ++ [msg_running; msg_success; msg_waiting] ->
  exists g, graph_id_file w' = Some g /\ graph_id_exists (Some g) (database w) = false /\
            is_Some (graphs (database w') !! g).
Proof.
  destruct (manager_main_run http env w) as [(e&->)|(f&->)]; [done|].
  destruct (set_up_graph_data f (say w msg_running)) as [w1 [[]|e]] eqn:E; [|done].
  intros [= <-] Hout. cbn [stdout say] in Hout.
  ingest_cases E; cbn [stdout say] in Hout; rewrite <- ?app_assoc in Hout;
    apply app_inv_head in Hout; try discriminate Hout.
  match goal with
  | Hi : insert_graph_data (Some ?g, _, _, _) _ = Ok _ |- _ =>
      exists g; split_and!; [done|done|];
      rewrite (insert_graph_data_graph _ _ _ _ _ _ Hi); by eexists
  end.
Qed.

(** The system refines the ingest process: in every state the
    interleaving of downloader runs and query batches reaches, the register
    and the database are those of a world the ingest process alone reaches
    from the empty world (the query side never writes either). *)
Theorem system_refines_ingest s :
  sys_reachable lookup_of repr_finite et_fromstring s ->
  exists w, ingest_reachable w /\ graph_id_file w = graph_id_file (sys_world s) /\
            database w = database (sys_world s).
Proof.
  apply (rtc_ind_r (fun s => exists w, ingest_reachable w /\
           graph_id_file w = graph_id_file (sys_world s) /\ database w = database (sys_world s))).
  - exists empty_world. split_and!; [apply rtc_refl|done|done].
  - intros s1 s2 _ Hstep (w&Hw&Hf&Hd).
    destruct (sys_step_sim _ _ _ Hstep Hf Hd) as (w'&Hw'&?&?).
    exists w'. split_and!; [by eapply rtc_trans|done|done].
Qed.

(** C9: a batch sent after a run of the main block that printed the
    success line is answered from the graph that run stored, when its
    identifier has no surrounding whitespace: the graph was new, it is in
    the database, and the query side prints the one document of answers
    the lookup on that identifier gives. *)
Theorem query_after_ingest http env s w' g query_str qs keys rows :
  manager_main et_fromstring http env (sys_world s) = (w', Ok tt) ->
  stdout w' = stdout (sys_world s) ++ [msg_running; msg_success; msg_waiting] ->
  graph_id_file w' = Some g -> py_strip g = g ->
  verify_valid_json query_str = Some (batch qs) ->
  verify_correct_query_format (batch qs) = Ok true ->
  Forall2 (fun q k => get_query_type_and_nodes q = Ok (k.2, JStr k.1.1, JStr k.1.2)) qs keys ->
  (forall a b, @find_all_paths _ (lookup_of (database w')) (JStr a) (JStr b) g = Ok (rows a b)) ->
  graph_id_exists (Some g) (database (sys_world s)) = false /\
  is_Some (graphs (database w') !! g) /\
  listener_out (listener_run lookup_of repr_finite (Sys w' (listener_out s)) query_str) =
    listener_out s ++
    [dumps repr_finite 0 (format_results_to_json (map (answer_of rows) (dedup_first keys)))].
Proof.
  intros Hm Hout Hg Hs Hj Hf Hqs Hfind.
  destruct (manager_main_success _ _ _ _ Hm Hout) as (g'&Hg'&Hnew&Hstored).
  rewrite Hg in Hg'. injection Hg' as <-. split_and!; [done|done|].
  unfold listener_run. cbn [listener_out sys_world]. rewrite Hg.
  assert (Hid : get_graph_id (Some g) = Ok g) by (cbn; by rewrite Hs).
  rewrite (receive_and_send_query_ok repr_finite _ _ _ _ Hj eq_refl Hf
             (@process_queries_run _ (lookup_of (database w')) _ g rows qs keys Hid Hfind Hqs)).
  by rewrite tidy_up_results_spec.
Qed.

(** C10: from every reachable state, a downloader run on an endpoint
    serving a valid document whose graph identifier is new (and has no
    surrounding whitespace) reaches, in one step, a state where the graph
    is stored and the query side resolves the register to it. *)
Theorem system_live s txt root ns es gid :
  sys_reachable lookup_of repr_finite et_fromstring s -> et_fromstring txt = Some root ->
  graph_schema root -> sole_text "id" root = Some gid ->
  sole_child "nodes" root = Some ns -> sole_child "edges" root = Some es ->
  node_children_only ns -> node_children_only es -> NoDup (node_ids_of (children es)) ->
  graphs (database (sys_world s)) !! gid = None -> py_strip gid = gid ->
  exists s', sys_step lookup_of repr_finite et_fromstring s s' /\
             get_graph_id (graph_id_file (sys_world s')) = Ok gid /\
             is_Some (graphs (database (sys_world s')) !! gid).
Proof.
  intros Hr Hx Hsch Hid Hns Hes Hnc Hec Hend Hfresh Hs.
  destruct (set_up_graph_data_fresh_run root ns es gid (say (sys_world s) msg_running))
    as (d'&E&name&Hd'); try done; [by apply sys_reachable_wf|].
  eexists. split; [apply (step_manager _ _ _ (serve txt) ∅ s)|].
  unfold manager_main, set_up_graph_data_http, download_graph. cbn [mbind res_bind serve status_code text Nat.eqb].
  rewrite Hx, E. cbn. rewrite Hs, Hd', lookup_insert_eq. split; [done|by eexists].
Qed.

End proofs.

(** ** Witnesses *)

Lemma system_refines_ingest_witness :
  exists w, ingest_reachable w /\ graph_id_file w = graph_id_file (sys_world sample_run) /\
            database w = database (sys_world sample_run).
Proof.
  apply (system_refines_ingest sample_db_lookup no_repr sample_parse).
  eapply rtc_l; [apply (step_manager _ _ _ (serve "<graph/>") ∅ sys_init)|apply rtc_refl].
Defined.

Lemma query_after_ingest_witness :
  graph_id_exists (Some "g0") (database (sys_world sys_init)) = false /\
  is_Some (graphs (database (sys_world sample_run)) !! "g0") /\
  listener_out (listener_run sample_db_lookup no_repr
                  (Sys (sys_world sample_run) (listener_out sys_init)) sample_query) =
    listener_out sys_init ++
    [dumps no_repr 0 (format_results_to_json
       (map (answer_of sample_q_rows) (dedup_first [("a", "b", "paths")])))].
Proof.
  apply (query_after_ingest sample_db_lookup no_repr sample_parse (serve "<graph/>") ∅ sys_init
           (sys_world sample_run) "g0" sample_query [q_paths "a" "b"]).
  - vm_compute. reflexivity.
  - vm_compute. reflexivity.
  - vm_compute. reflexivity.
  - reflexivity.
  - vm_compute. reflexivity.
  - reflexivity.
  - repeat constructor.
  - intros a b. vm_compute. reflexivity.
Defined.

Lemma system_live_witness :
  exists s', sys_step sample_db_lookup no_repr sample_parse sys_init s' /\
             get_graph_id (graph_id_file (sys_world s')) = Ok "g0" /\
             is_Some (graphs (database (sys_world s')) !! "g0").
Proof.
  apply (system_live sample_db_lookup no_repr sample_parse sys_init "<graph/>" sample_valid
           (Element "nodes" None [node_entry "a" "A name"])
           (Element "edges" None [edge_entry "e1" "a" "a" "42"])).
  - apply rtc_refl.
  - reflexivity.
  - apply verify_graph_data_root. reflexivity.
  - reflexivity.
  - reflexivity.
  - reflexivity.
  - repeat constructor.
  - repeat constructor.
  - apply (bool_decide_unpack _). vm_compute. reflexivity.
  - reflexivity.
  - reflexivity.
Defined.


End System.
